(** * backup_tool.py: incremental, hash-verified backups

    A shallow embedding of [src/backup_tool.py] and the properties its
    specification states about it.

    - Python [bytes] are lists of integers in 0..255, Python [str] are lists
      of Unicode code points ([Z]).
    - A process is run against a [world]: the file system, the lines
      written to standard output and the clock.  Every function of the
      source that touches the file system is a state-passing function
      [world -> outcome A * world]; an uncaught exception is the [Raise]
      outcome and keeps the world as it was when the exception left.
    - [hashlib.sha256], [json.load]/[json.dump], the [os.path] functions,
      [os.walk] and [shutil.copy2] come from Python's library, not from the
      repository; each is modelled here after its documented behaviour. *)

From Stdlib Require Import ZArith Lia Ascii String.
From Equations Require Import Equations.
From stdpp Require Import gmap list.

Local Open Scope Z_scope.

(** ** Strings and bytes *)

Abbreviation char := Z (only parsing).
Abbreviation str := (list Z) (only parsing).
Abbreviation bytes := (list Z) (only parsing).

(** A Python literal, written as a Rocq string. *)
Definition py (s : string) : str :=
  List.map (fun a => Z.of_N (N_of_ascii a)) (list_ascii_of_string s).

Definition str_eqb (a b : str) : bool := bool_decide (a = b).

(** ** SHA-256 (FIPS 180-4), the function behind [hashlib.sha256] *)

Module Sha256.

Definition wmod : Z := 2 ^ 32.
Definition add32 (x y : Z) : Z := (x + y) mod wmod.
Definition rotr (n x : Z) : Z :=
  Z.lor (Z.shiftr x n) (Z.shiftl x (32 - n) mod wmod).
Definition not32 (x : Z) : Z := Z.lxor x (wmod - 1).

Definition Ch (x y z : Z) : Z := Z.lxor (Z.land x y) (Z.land (not32 x) z).
Definition Maj (x y z : Z) : Z :=
  Z.lxor (Z.lxor (Z.land x y) (Z.land x z)) (Z.land y z).
Definition bsig0 (x : Z) : Z := Z.lxor (Z.lxor (rotr 2 x) (rotr 13 x)) (rotr 22 x).
Definition bsig1 (x : Z) : Z := Z.lxor (Z.lxor (rotr 6 x) (rotr 11 x)) (rotr 25 x).
Definition ssig0 (x : Z) : Z := Z.lxor (Z.lxor (rotr 7 x) (rotr 18 x)) (Z.shiftr x 3).
Definition ssig1 (x : Z) : Z := Z.lxor (Z.lxor (rotr 17 x) (rotr 19 x)) (Z.shiftr x 10).

(** The round constants are the first 32 bits of the fractional parts of
    the cube roots of the first 64 primes, the initial hash value those of
    the square roots of the first 8 primes. *)
Definition is_prime (n : Z) : bool :=
  (1 <? n) && forallb (fun d => negb (n mod d =? 0))
                      (List.map Z.of_nat (seq 2 (Z.to_nat n - 2))).

Definition primes : list Z :=
  Eval vm_compute in List.filter is_prime (List.map Z.of_nat (seq 2 310)).

(** Integer cube root by bisection on the bits of the result. *)
Definition icbrt (n : Z) : Z :=
  fold_left (fun r i => let r' := r + 2 ^ Z.of_nat i in
                        if r' * r' * r' <=? n then r' else r)
            (rev (seq 0 40)) 0.

Definition K : list Z :=
  Eval vm_compute in List.map (fun p => icbrt (p * 2 ^ 96) mod wmod) primes.

Definition word8 : Type := Z * Z * Z * Z * Z * Z * Z * Z.

Definition H0 : word8 :=
  Eval vm_compute in
    let r p := Z.sqrt (p * 2 ^ 64) mod wmod in
    (r 2, r 3, r 5, r 7, r 11, r 13, r 17, r 19).

(** One round: [win] holds the sixteen schedule words W_t .. W_{t+15}. *)
Definition round (st : word8 * list Z) (k : Z) : word8 * list Z :=
  let '((a, b, c, d, e, f, g, h), win) := st in
  let w := nth 0 win 0 in
  let t1 := add32 (add32 (add32 (add32 h (bsig1 e)) (Ch e f g)) k) w in
  let t2 := add32 (bsig0 a) (Maj a b c) in
  let wnew := add32 (add32 (add32 (ssig1 (nth 14 win 0)) (nth 9 win 0))
                           (ssig0 (nth 1 win 0))) w in
  ((add32 t1 t2, a, b, c, add32 d t1, e, f, g), tl win ++ [wnew]).

Fixpoint be_words (bs : list Z) : list Z :=
  match bs with
  | b0 :: b1 :: b2 :: b3 :: rest =>
      (((b0 * 256 + b1) * 256 + b2) * 256 + b3) :: be_words rest
  | _ => []
  end.

(** Compression of one 64-byte block into the chaining value. *)
Definition compress (hv : word8) (block : list Z) : word8 :=
  let '(a, b, c, d, e, f, g, h) := hv in
  let '(a', b', c', d', e', f', g', h') :=
    fst (fold_left round K (hv, be_words block)) in
  (add32 a a', add32 b b', add32 c c', add32 d d',
   add32 e e', add32 f f', add32 g g', add32 h h').

(** The incremental accumulator: chaining value, the bytes of the block
    being filled (latest first) and the number of bytes absorbed. *)
Record state := { chain : word8; pending : list Z; absorbed : Z }.

Definition init : state := {| chain := H0; pending := []; absorbed := 0 |}.

Definition absorb (s : state) (b : Z) : state :=
  let buf := b :: pending s in
  if (Z.of_nat (length buf) =? 64)
  then {| chain := compress (chain s) (rev buf); pending := [];
          absorbed := absorbed s + 1 |}
  else {| chain := chain s; pending := buf; absorbed := absorbed s + 1 |}.

Definition update (s : state) (data : bytes) : state := fold_left absorb data s.

Definition be64 (n : Z) : list Z :=
  List.map (fun i => Z.shiftr n (8 * Z.of_nat i) mod 256) (rev (seq 0 8)).

Definition padding (nbytes : Z) : list Z :=
  128 :: repeat 0 (Z.to_nat ((55 - nbytes) mod 64)) ++ be64 (8 * nbytes).

Definition digest (s : state) : word8 :=
  chain (fold_left absorb (padding (absorbed s)) s).

Definition hex_digit (n : Z) : char := if n <? 10 then 48 + n else 87 + n.

Definition hex32 (x : Z) : str :=
  List.map (fun i => hex_digit (Z.shiftr x (4 * Z.of_nat i) mod 16)) (rev (seq 0 8)).

Definition hex (d : word8) : str :=
  let '(a, b, c, d, e, f, g, h) := d in
  hex32 a ++ hex32 b ++ hex32 c ++ hex32 d ++ hex32 e ++ hex32 f ++ hex32 g ++ hex32 h.

Definition hexdigest (s : state) : str := hex (digest s).

(** The digest of a whole message, as lower-case hexadecimal text. *)
Definition sha256_hex (msg : bytes) : str := hexdigest (update init msg).

End Sha256.

(** ** Exceptions, outcomes and the world *)

Inductive exn :=
| FileNotFoundError | IsADirectoryError | NotADirectoryError | PermissionError
| FileExistsError | SameFileError
| UnicodeDecodeError | UnicodeEncodeError | JSONDecodeError | RecursionError
| AttributeError | TypeError | KeyError
| ValueError | OverflowError | MemoryError.

#[global] Instance exn_eq_dec : EqDecision exn.
Proof. solve_decision. Defined.

Inductive outcome (A : Type) :=
| Ok (a : A)
| Raise (e : exn).
Arguments Ok {A} a.
Arguments Raise {A} e.

(** A resolved absolute path is the list of its components below the root.
    There are no symbolic links in the model. *)
Abbreviation path := (list (list Z)) (only parsing).

(** Permission bits and modification time, what [shutil.copy2] carries over
    to the copy. *)
Record metadata := { st_mode : Z; st_mtime : Z }.

Inductive node :=
| File (data : bytes) (meta : metadata)
| Dir.

(** [isoformat n] is the text [datetime.now().isoformat()] returns when the
    clock stands at [n]; every reading moves the clock on.  [elapsed n1 n2]
    is the text of [f"{t2 - t1:.2f}"] for two readings [t1], [t2] of
    [time.time()] taken with the clock at [n1] and at [n2].  [umask] is the
    file mode creation mask of the process, and [memory] the number of bytes,
    beyond the 4096 of the default chunk, that one read can be given a
    buffer for. *)
Record world := {
  fs : gmap path node;
  stdout : list str;
  time : nat;
  isoformat : nat -> str;
  elapsed : nat -> nat -> str;
  umask : Z;
  memory : N
}.

Definition io (A : Type) : Type := world -> outcome A * world.

Definition ret {A} (a : A) : io A := fun w => (Ok a, w).
Definition raise {A} (e : exn) : io A := fun w => (Raise e, w).
Definition bind {A B} (c : io A) (k : A -> io B) : io B :=
  fun w => match c w with
           | (Ok a, w') => k a w'
           | (Raise e, w') => (Raise e, w')
           end.
Definition lift {A} (o : outcome A) : io A := fun w => (o, w).

Notation "'do' x <- c ; k" := (bind c (fun x => k))
  (at level 10, x name, c at level 100, k at level 200).
Notation "'run' c ; k" := (bind c (fun _ => k))
  (at level 10, c at level 100, k at level 200).

Definition with_fs (f : gmap path node) (w : world) : world :=
  {| fs := f; stdout := stdout w; time := time w; isoformat := isoformat w;
     elapsed := elapsed w; umask := umask w; memory := memory w |}.

(** [print(line)] *)
Definition print (line : str) : io unit :=
  fun w => (Ok tt, {| fs := fs w; stdout := stdout w ++ [line];
                      time := time w; isoformat := isoformat w;
                      elapsed := elapsed w; umask := umask w; memory := memory w |}).

(** [datetime.now().isoformat()] *)
Definition datetime_now_isoformat : io str :=
  fun w => (Ok (isoformat w (time w)),
            {| fs := fs w; stdout := stdout w; time := S (time w);
               isoformat := isoformat w;
               elapsed := elapsed w; umask := umask w; memory := memory w |}).

(** [time.time()]: where the clock stands. *)
Definition time_time : io nat := fun w => (Ok (time w), w).

(** ** Files *)

(** Owner read and write permission (0o400, 0o200); the process is taken to
    own the files it meets. *)
Definition readable (m : metadata) : bool := Z.testbit (st_mode m) 8.
Definition writable (m : metadata) : bool := Z.testbit (st_mode m) 7.

(** Why nothing is found at a path: the operating system goes down from
    the root and stops at the first component that is not a directory, with
    [ENOTDIR] when that component is a regular file and with [ENOENT] when
    it is not there. *)
Fixpoint stops_at (f : gmap path node) (cur : path) (rest : list (list Z)) : exn :=
  match rest with
  | [] => FileNotFoundError
  | c :: rest' =>
      match f !! cur with
      | Some Dir => stops_at f (cur ++ [c]) rest'
      | Some (File _ _) => NotADirectoryError
      | None => FileNotFoundError
      end
  end.

Definition no_entry (f : gmap path node) (p : path) : exn := stops_at f [] p.

(** An open file: the bytes it had when it was opened and the read position. *)
Record file_obj := { f_data : bytes; f_pos : nat }.

Definition remaining (f : file_obj) : bytes := skipn (f_pos f) (f_data f).

(** [open(path, "rb")] and [open(path, "r", encoding="utf-8")] *)
Definition open_read (p : path) : io file_obj :=
  fun w => match fs w !! p with
           | None => (Raise (no_entry (fs w) p), w)
           | Some Dir => (Raise IsADirectoryError, w)
           | Some (File data m) =>
               if readable m then (Ok {| f_data := data; f_pos := 0 |}, w)
               else (Raise PermissionError, w)
           end.

(** The largest buffer one read can be given: what the machine has, and
    never more than the largest [bytes] object (a size of 2^63 - 34). *)
Definition read_limit (w : world) : Z :=
  Z.min (4096 + Z.of_N (memory w)) (2 ^ 63 - 34).

(** [f.read(n)] on a binary file, [limit] being the largest buffer to be
    had: at most [n] bytes, everything that is left when [n] is -1.  A size
    that is no [Py_ssize_t] raises [OverflowError], another negative size
    [ValueError]; the buffer for [n] bytes is made before anything is read,
    which raises [OverflowError] for a size no [bytes] object can have and
    [MemoryError] for one the machine has no room for. *)
Definition f_read (limit : Z) (f : file_obj) (n : Z) : outcome (bytes * file_obj) :=
  let result data :=
    Ok (data, {| f_data := f_data f; f_pos := (f_pos f + length data)%nat |}) in
  if (n <? - 2 ^ 63) || (2 ^ 63 <=? n) then Raise OverflowError
  else if n <? -1 then Raise ValueError
  else if n =? -1 then result (remaining f)
  else if 2 ^ 63 - 34 <? n then Raise OverflowError
  else if limit <? n then Raise MemoryError
  else result (firstn (Z.to_nat n) (remaining f)).

(** [f.seek(0)] *)
Definition f_seek0 (f : file_obj) : file_obj := {| f_data := f_data f; f_pos := 0 |}.

(** [os.path.exists(path)] *)
Definition os_path_exists (p : path) : io bool :=
  fun w => (Ok (bool_decide (is_Some (fs w !! p))), w).

(** ** [calculate_file_hash] *)

Definition is_empty {A} (l : list A) : bool :=
  match l with [] => true | _ => false end.

Definition inspect {A} (a : A) : {b : A | a = b} := exist _ a eq_refl.

(** The loop [while True: data = f.read(chunk_size) ...]: it goes on only
    after a read that returned bytes, so what is left to read gets shorter. *)
Equations? hash_loop (limit chunk_size : Z) (f : file_obj) (sha256 : Sha256.state)
  : outcome Sha256.state by wf (length (remaining f)) lt :=
  hash_loop limit chunk_size f sha256 with inspect (f_read limit f chunk_size) := {
    | exist _ (Raise e) _ := Raise e
    | exist _ (Ok (data, f')) Hread with inspect (is_empty data) := {
        | exist _ true _ := Ok sha256
        | exist _ false Hdata :=
            hash_loop limit chunk_size f' (Sha256.update sha256 data) } }.
Proof.
  assert (Hpos : (0 < length data)%nat)
    by (destruct data; simpl in *; [discriminate | lia]).
  assert (Hf : f' = {| f_data := f_data f; f_pos := (f_pos f + length data)%nat |}
               /\ (length data <= length (remaining f))%nat).
  { unfold f_read in Hread.
    repeat match type of Hread with
           | context [if ?c then _ else _] => destruct c
           end; try discriminate; injection Hread as <- <-; split; auto.
    rewrite length_take. lia. }
  destruct Hf as [-> Hle]. unfold remaining in *. simpl.
  rewrite !length_skipn in *. lia.
Qed.

Definition calculate_file_hash (file_path : path) (chunk_size : Z) : io str :=
  do f <- open_read file_path;
  do sha256 <- (fun w => (hash_loop (read_limit w) chunk_size f Sha256.init, w));
  ret (Sha256.hexdigest sha256).

(** ** JSON values and Python dictionaries *)

(** What [json.load] returns: [None], [bool], [int], [float], [str], [list]
    and [dict].  A [dict] keeps its items in insertion order, each key once.
    Binary floating point is outside the model: a [float] is kept as the
    text of its literal. *)
#[local] Unset Elimination Schemes.
Inductive json :=
| JNull
| JBool (b : bool)
| JInt (n : Z)
| JFloat (lexeme : str)
| JStr (s : str)
| JArr (items : list json)
| JObj (fields : list (str * json)).
#[local] Set Elimination Schemes.

(** [d.get(k)] on the items of a dictionary. *)
Fixpoint dict_get {V} (k : str) (d : list (str * V)) : option V :=
  match d with
  | [] => None
  | (k', v) :: r => if str_eqb k' k then Some v else dict_get k r
  end.

(** [d[k] = v]: the value is replaced where the key is, a new key goes last. *)
Fixpoint dict_set {V} (k : str) (v : V) (d : list (str * V)) : list (str * V) :=
  match d with
  | [] => [(k, v)]
  | (k', v') :: r => if str_eqb k' k then (k', v) :: r else (k', v') :: dict_set k v r
  end.

(** [dict(pairs)] *)
Definition make_dict {V} (pairs : list (str * V)) : list (str * V) :=
  fold_left (fun d kv => dict_set (fst kv) (snd kv) d) pairs [].

Definition dict_keys {V} (d : list (str * V)) : list str := List.map fst d.

(** ** [json.dumps(obj, indent=4)] *)

Definition hex4 (n : Z) : str :=
  List.map (fun i => Sha256.hex_digit (Z.shiftr n (4 * Z.of_nat i) mod 16)) [3; 2; 1; 0]%nat.

(** The escapes of [ensure_ascii=True]: everything outside space..~ and the
    two characters quote and backslash. *)
Definition escape_char (c : char) : str :=
  if c =? 34 then [92; 34]
  else if c =? 92 then [92; 92]
  else if (32 <=? c) && (c <=? 126) then [c]
  else if c =? 10 then [92; 110]
  else if c =? 13 then [92; 114]
  else if c =? 9 then [92; 116]
  else if c =? 8 then [92; 98]
  else if c =? 12 then [92; 102]
  else if c <? 65536 then 92 :: 117 :: hex4 c
  else let n := c - 65536 in
       (92 :: 117 :: hex4 (Z.lor 55296 (Z.land (Z.shiftr n 10) 1023)))
       ++ (92 :: 117 :: hex4 (Z.lor 56320 (Z.land n 1023))).

Definition encode_string (s : str) : str := 34 :: flat_map escape_char s ++ [34].

Fixpoint uint_chars (u : Decimal.uint) : str :=
  match u with
  | Decimal.Nil => []
  | Decimal.D0 r => 48 :: uint_chars r
  | Decimal.D1 r => 49 :: uint_chars r
  | Decimal.D2 r => 50 :: uint_chars r
  | Decimal.D3 r => 51 :: uint_chars r
  | Decimal.D4 r => 52 :: uint_chars r
  | Decimal.D5 r => 53 :: uint_chars r
  | Decimal.D6 r => 54 :: uint_chars r
  | Decimal.D7 r => 55 :: uint_chars r
  | Decimal.D8 r => 56 :: uint_chars r
  | Decimal.D9 r => 57 :: uint_chars r
  end.

(** [repr] of an [int]. *)
Definition int_repr (n : Z) : str :=
  match Z.to_int n with
  | Decimal.Pos u => uint_chars u
  | Decimal.Neg u => 45 :: uint_chars u
  end.

Definition newline_indent (level : nat) : str := 10 :: repeat 32 (4 * level)%nat.

(** The items of a container, one per line at [level]. *)
Definition join_items (level : nat) (items : list str) : str :=
  match items with
  | [] => []
  | x :: xs => x ++ flat_map (fun y => 44 :: newline_indent level ++ y) xs
  end.

(** The text of a value at [level].  A [float] is written as the literal
    it was read from, where Python writes the shortest literal of the binary
    value ([1e5] comes back as [100000.0]): what is said of the text of a
    saved manifest is said of values without floats, and the manifests the
    program builds have none. *)
Fixpoint dumps (level : nat) (v : json) : str :=
  match v with
  | JNull => py "null"
  | JBool true => py "true"
  | JBool false => py "false"
  | JInt n => int_repr n
  | JFloat lexeme => lexeme
  | JStr s => encode_string s
  | JArr items =>
      if is_empty items then py "[]"
      else 91 :: newline_indent (S level)
              ++ join_items (S level) (List.map (dumps (S level)) items)
              ++ newline_indent level ++ [93]
  | JObj fields =>
      if is_empty fields then py "{}"
      else 123 :: newline_indent (S level)
               ++ join_items (S level)
                    (List.map (fun kv => encode_string (fst kv) ++ 58 :: 32 :: dumps (S level) (snd kv))
                              fields)
               ++ newline_indent level ++ [125]
  end.

Definition json_dumps (v : json) : str := dumps 0 v.

(** ** [json.loads] *)

(** The result of scanning a value at the head of a text: the value and what
    follows it, a document that is not JSON, an integer with more digits
    than [int] converts, or recursion that ran out. *)
Inductive presult :=
| Parsed (v : json) (rest : str)
| Invalid
| Overlong
| Exhausted.

Definition is_json_ws (c : char) : bool :=
  (c =? 32) || (c =? 9) || (c =? 10) || (c =? 13).

Fixpoint skip_ws (s : str) : str :=
  match s with
  | c :: r => if is_json_ws c then skip_ws r else s
  | [] => []
  end.

Definition is_digit (c : char) : bool := (48 <=? c) && (c <=? 57).

Definition hex_val (c : char) : option Z :=
  if is_digit c then Some (c - 48)
  else if (97 <=? c) && (c <=? 102) then Some (c - 87)
  else if (65 <=? c) && (c <=? 70) then Some (c - 55)
  else None.

Definition hex4_val (a b c d : char) : option Z :=
  match hex_val a, hex_val b, hex_val c, hex_val d with
  | Some x, Some y, Some z, Some t => Some (((x * 16 + y) * 16 + z) * 16 + t)
  | _, _, _, _ => None
  end.

Definition is_high_surrogate (u : Z) : bool := (55296 <=? u) && (u <=? 56319).
Definition is_low_surrogate (u : Z) : bool := (56320 <=? u) && (u <=? 57343).

(** The character a backslash escape other than [\u] stands for. *)
Definition backslash (e : char) : option char :=
  if e =? 34 then Some 34 else if e =? 92 then Some 92 else if e =? 47 then Some 47
  else if e =? 98 then Some 8 else if e =? 102 then Some 12 else if e =? 110 then Some 10
  else if e =? 114 then Some 13 else if e =? 116 then Some 9 else None.

Definition prepend (c : char) (r : option (str * str)) : option (str * str) :=
  match r with
  | Some (x, rest) => Some (c :: x, rest)
  | None => None
  end.

(** [scanstring], strict: the text after an opening quote, up to the closing
    one.  An escaped high surrogate directly followed by an escaped low
    surrogate is one character. *)
Fixpoint scan_string (s : str) : option (str * str) :=
  match s with
  | [] => None
  | c :: r =>
      if c =? 34 then Some ([], r)
      else if c =? 92 then
        match r with
        | [] => None
        | e :: r1 =>
            if e =? 117 then
              match r1 with
              | h1 :: h2 :: h3 :: h4 :: r2 =>
                  match hex4_val h1 h2 h3 h4 with
                  | None => None
                  | Some u =>
                      match r2 with
                      | b :: e2 :: l1 :: l2 :: l3 :: l4 :: r3 =>
                          match hex4_val l1 l2 l3 l4 with
                          | Some u2 =>
                              if is_high_surrogate u && (b =? 92) && (e2 =? 117)
                                 && is_low_surrogate u2
                              then prepend (65536 + Z.lor (Z.shiftl (u - 55296) 10) (u2 - 56320))
                                           (scan_string r3)
                              else prepend u (scan_string r2)
                          | None => prepend u (scan_string r2)
                          end
                      | _ => prepend u (scan_string r2)
                      end
                  end
              | _ => None
              end
            else
              match backslash e with
              | Some ch => prepend ch (scan_string r1)
              | None => None
              end
        end
      else if c <? 32 then None
      else prepend c (scan_string r)
  end.

Fixpoint span_digits (s : str) : str * str :=
  match s with
  | c :: r => if is_digit c then let '(ds, rest) := span_digits r in (c :: ds, rest)
              else ([], s)
  | [] => ([], [])
  end.

Definition digits_value (ds : str) : Z := fold_left (fun n c => n * 10 + (c - 48)) ds 0.

(** The integer part of a number: an optional minus sign, then either a
    single 0 or a digit 1..9 followed by any digits. *)
Definition scan_int_part (s : str) : option (str * str) :=
  let '(sign, s1) := match s with
                     | c :: r => if c =? 45 then ([45], r) else ([], s)
                     | [] => ([], s)
                     end in
  match s1 with
  | c :: r =>
      if c =? 48 then Some (sign ++ [48], r)
      else if is_digit c then let '(ds, rest) := span_digits r in Some (sign ++ c :: ds, rest)
      else None
  | [] => None
  end.

(** The fraction, when there is one: a dot and at least one digit. *)
Definition scan_frac (s : str) : str * str :=
  match s with
  | c :: d :: r =>
      if (c =? 46) && is_digit d then let '(ds, rest) := span_digits r in (c :: d :: ds, rest)
      else ([], s)
  | _ => ([], s)
  end.

(** The exponent, when there is one: e or E, an optional sign and at least
    one digit. *)
Definition scan_exp (s : str) : str * str :=
  match s with
  | c :: r =>
      if (c =? 101) || (c =? 69) then
        match r with
        | d :: r1 =>
            if is_digit d then let '(ds, rest) := span_digits r1 in (c :: d :: ds, rest)
            else if (d =? 45) || (d =? 43) then
              match r1 with
              | d1 :: r2 =>
                  if is_digit d1 then
                    let '(ds, rest) := span_digits r2 in (c :: d :: d1 :: ds, rest)
                  else ([], s)
              | [] => ([], s)
              end
            else ([], s)
        | [] => ([], s)
        end
      else ([], s)
  | [] => ([], s)
  end.

Definition int_of_lexeme (l : str) : Z :=
  match l with
  | c :: ds => if c =? 45 then - digits_value ds else digits_value l
  | [] => 0
  end.

Definition scan_number (s : str) : option (json * str) :=
  match scan_int_part s with
  | None => None
  | Some (int_part, r) =>
      let '(frac, r1) := scan_frac r in
      let '(exp, r2) := scan_exp r1 in
      if is_empty frac && is_empty exp then Some (JInt (int_of_lexeme int_part), r2)
      else Some (JFloat (int_part ++ frac ++ exp), r2)
  end.

Fixpoint strip_prefix (p s : str) : option str :=
  match p, s with
  | [], _ => Some s
  | a :: p', b :: s' => if a =? b then strip_prefix p' s' else None
  | _ :: _, [] => None
  end.

(** The literals, tried in the order of the scanner: a number comes before
    [NaN], [Infinity] and [-Infinity]. *)
Definition scan_atom (s : str) : option (json * str) :=
  match strip_prefix (py "null") s with
  | Some r => Some (JNull, r)
  | None =>
  match strip_prefix (py "true") s with
  | Some r => Some (JBool true, r)
  | None =>
  match strip_prefix (py "false") s with
  | Some r => Some (JBool false, r)
  | None =>
  match scan_number s with
  | Some res => Some res
  | None =>
  match strip_prefix (py "NaN") s with
  | Some r => Some (JFloat (py "NaN"), r)
  | None =>
  match strip_prefix (py "Infinity") s with
  | Some r => Some (JFloat (py "Infinity"), r)
  | None =>
  match strip_prefix (py "-Infinity") s with
  | Some r => Some (JFloat (py "-Infinity"), r)
  | None => None
  end end end end end end end.

(** An integer literal of more than 4300 digits is refused by [int]
    ([sys.int_max_str_digits]); a literal with a fraction or an exponent is a
    [float] and has no such limit. *)
Definition int_max_str_digits : Z := 4300.

Definition over_int_limit (v : json) : bool :=
  match v with
  | JInt n => 10 ^ int_max_str_digits <=? Z.abs n
  | _ => false
  end.

(** [scan_once], [JSONObject] and [JSONArray].  [parse_members] starts after
    the opening quote of a key, [parse_elements] at the first character of an
    element; [acc] holds what was read so far, latest first. *)
Fixpoint parse_value (fuel : nat) (s : str) : presult :=
  match fuel with
  | O => Exhausted
  | S fuel' =>
      match s with
      | [] => Invalid
      | c :: r =>
          if c =? 34 then
            match scan_string r with
            | Some (x, rest) => Parsed (JStr x) rest
            | None => Invalid
            end
          else if c =? 123 then
            match skip_ws r with
            | c1 :: r1 =>
                if c1 =? 125 then Parsed (JObj []) r1
                else if c1 =? 34 then parse_members fuel' r1 []
                else Invalid
            | [] => Invalid
            end
          else if c =? 91 then
            match skip_ws r with
            | c1 :: r1 =>
                if c1 =? 93 then Parsed (JArr []) r1
                else parse_elements fuel' (c1 :: r1) []
            | [] => Invalid
            end
          else
            match scan_atom s with
            | Some (v, rest) => if over_int_limit v then Overlong else Parsed v rest
            | None => Invalid
            end
      end
  end
with parse_members (fuel : nat) (s : str) (acc : list (str * json)) : presult :=
  match fuel with
  | O => Exhausted
  | S fuel' =>
      match scan_string s with
      | None => Invalid
      | Some (key, r) =>
          match skip_ws r with
          | c :: r1 =>
              if c =? 58 then
                match parse_value fuel' (skip_ws r1) with
                | Parsed v r2 =>
                    match skip_ws r2 with
                    | c2 :: r3 =>
                        if c2 =? 125 then Parsed (JObj (make_dict (rev ((key, v) :: acc)))) r3
                        else if c2 =? 44 then
                          match skip_ws r3 with
                          | c3 :: r4 =>
                              if c3 =? 34 then parse_members fuel' r4 ((key, v) :: acc)
                              else Invalid
                          | [] => Invalid
                          end
                        else Invalid
                    | [] => Invalid
                    end
                | Invalid => Invalid
                | Overlong => Overlong
                | Exhausted => Exhausted
                end
              else Invalid
          | [] => Invalid
          end
      end
  end
with parse_elements (fuel : nat) (s : str) (acc : list json) : presult :=
  match fuel with
  | O => Exhausted
  | S fuel' =>
      match parse_value fuel' s with
      | Parsed v r =>
          match skip_ws r with
          | c :: r1 =>
              if c =? 93 then Parsed (JArr (rev (v :: acc))) r1
              else if c =? 44 then parse_elements fuel' (skip_ws r1) (v :: acc)
              else Invalid
          | [] => Invalid
          end
      | Invalid => Invalid
      | Overlong => Overlong
      | Exhausted => Exhausted
      end
  end.

(** [json.loads(s)]: one value, with white space around it and nothing else.
    Every call of the scanner but the first comes after a character was
    taken, and a value takes two calls for each of its containers: twice
    the length of the text is fuel enough, and [Exhausted] does not occur.
    Python's own recursion limit (a document nested about a thousand
    containers deep raises [RecursionError]) is not modelled. *)
Definition json_loads (s : str) : outcome json :=
  match parse_value (S (S (2 * length s))) (skip_ws s) with
  | Parsed v rest => if is_empty (skip_ws rest) then Ok v else Raise JSONDecodeError
  | Invalid => Raise JSONDecodeError
  | Overlong => Raise ValueError
  | Exhausted => Raise RecursionError
  end.

(** ** Text files: UTF-8, universal newlines, [str.strip] *)

Definition is_cont (b : Z) : bool := (128 <=? b) && (b <=? 191).

(** Strict UTF-8: no overlong forms, no surrogates, nothing above U+10FFFF. *)
Fixpoint utf8_decode (bs : bytes) : option str :=
  match bs with
  | [] => Some []
  | b0 :: r =>
      if (0 <=? b0) && (b0 <? 128) then cons b0 <$> utf8_decode r
      else if (194 <=? b0) && (b0 <=? 223) then
        match r with
        | b1 :: r1 =>
            if is_cont b1 then cons ((b0 - 192) * 64 + (b1 - 128)) <$> utf8_decode r1
            else None
        | _ => None
        end
      else if (224 <=? b0) && (b0 <=? 239) then
        match r with
        | b1 :: b2 :: r2 =>
            let c := ((b0 - 224) * 64 + (b1 - 128)) * 64 + (b2 - 128) in
            if is_cont b1 && is_cont b2 && (2048 <=? c)
               && negb (is_high_surrogate c || is_low_surrogate c)
            then cons c <$> utf8_decode r2
            else None
        | _ => None
        end
      else if (240 <=? b0) && (b0 <=? 244) then
        match r with
        | b1 :: b2 :: b3 :: r3 =>
            let c := (((b0 - 240) * 64 + (b1 - 128)) * 64 + (b2 - 128)) * 64 + (b3 - 128) in
            if is_cont b1 && is_cont b2 && is_cont b3 && (65536 <=? c) && (c <=? 1114111)
            then cons c <$> utf8_decode r3
            else None
        | _ => None
        end
      else None
  end.

Definition utf8_encode_char (c : char) : option bytes :=
  if (0 <=? c) && (c <? 128) then Some [c]
  else if (128 <=? c) && (c <? 2048) then Some [192 + c / 64; 128 + c mod 64]
  else if is_high_surrogate c || is_low_surrogate c then None
  else if (2048 <=? c) && (c <? 65536) then
    Some [224 + c / 4096; 128 + (c / 64) mod 64; 128 + c mod 64]
  else if (65536 <=? c) && (c <=? 1114111) then
    Some [240 + c / 262144; 128 + (c / 4096) mod 64; 128 + (c / 64) mod 64; 128 + c mod 64]
  else None.

Fixpoint utf8_encode (s : str) : option bytes :=
  match s with
  | [] => Some []
  | c :: r =>
      match utf8_encode_char c, utf8_encode r with
      | Some b, Some bs => Some (b ++ bs)
      | _, _ => None
      end
  end.

(** Reading in text mode turns each of "\r\n" and "\r" into "\n". *)
Fixpoint universal_newlines (s : str) : str :=
  match s with
  | [] => []
  | c :: r =>
      if c =? 13 then
        match r with
        | d :: r' => if d =? 10 then 10 :: universal_newlines r' else 10 :: universal_newlines r
        | [] => [10]
        end
      else c :: universal_newlines r
  end.

(** [str.isspace] for one character. *)
Definition py_isspace (c : char) : bool :=
  ((9 <=? c) && (c <=? 13)) || ((28 <=? c) && (c <=? 32)) || (c =? 133) || (c =? 160)
  || (c =? 5760) || ((8192 <=? c) && (c <=? 8202)) || (c =? 8232) || (c =? 8233)
  || (c =? 8239) || (c =? 8287) || (c =? 12288).

Fixpoint lstrip (s : str) : str :=
  match s with
  | c :: r => if py_isspace c then lstrip r else s
  | [] => []
  end.

(** [s.strip()] *)
Definition strip (s : str) : str := rev (lstrip (rev (lstrip s))).

(** [f.read()] on a file opened with [encoding="utf-8"]: the text from the
    read position to the end; bytes that are not UTF-8 raise. *)
Definition f_read_text (f : file_obj) : outcome (str * file_obj) :=
  match utf8_decode (remaining f) with
  | Some s => Ok (universal_newlines s,
                  {| f_data := f_data f; f_pos := length (f_data f) |})
  | None => Raise UnicodeDecodeError
  end.

(** [json.load(f)] *)
Definition json_load (f : file_obj) : outcome json :=
  match f_read_text f with
  | Ok (text, _) => json_loads text
  | Raise e => Raise e
  end.

(** [try: body except e0: handler] *)
Definition try_except {A} (body : io A) (e0 : exn) (handler : io A) : io A :=
  fun w => match body w with
           | (Raise e, w') => if bool_decide (e = e0) then handler w' else (Raise e, w')
           | r => r
           end.

(** The permission bits of a file that [open] creates: 0o666 without the
    bits of the mask.  The mask is taken to leave the owner's bits alone
    (its group and other bits count, 0o077): the process can read and
    write the files it makes. *)
Definition new_file_mode (w : world) : Z :=
  Z.land 438 (Z.lnot (Z.land (umask w) 63)).

(** Creating or overwriting the file at [p] with [data]: [open(p, "w")], the
    writes and the close. *)
Definition write_file (p : path) (data : bytes) : io unit :=
  fun w =>
    match fs w !! p with
    | Some Dir => (Raise IsADirectoryError, w)
    | Some (File _ m) =>
        if writable m
        then (Ok tt, with_fs (<[p := File data {| st_mode := st_mode m;
                                                  st_mtime := Z.of_nat (time w) |}]> (fs w)) w)
        else (Raise PermissionError, w)
    | None =>
        match fs w !! removelast p with
        | Some Dir =>
            (Ok tt, with_fs (<[p := File data {| st_mode := new_file_mode w;
                                                 st_mtime := Z.of_nat (time w) |}]> (fs w)) w)
        | Some (File _ _) => (Raise NotADirectoryError, w)
        | None => (Raise (no_entry (fs w) (removelast p)), w)
        end
    end.

(** ** The manifest store *)

Definition MANIFEST_FILE_NAME : str := py "manifest.json".

Definition corrupted_warning : str :=
  py "Warning: manifest.json is corrupted. Starting with an empty manifest.".

Definition load_manifest (manifest_path : path) : io json :=
  do found <- os_path_exists manifest_path;
  if negb found then ret (JObj [])
  else
    try_except
      (do f <- open_read manifest_path;
       do rd <- lift (f_read_text f);
       let '(text, f1) := rd in
       let content := strip text in
       if is_empty content then ret (JObj [])
       else lift (json_load (f_seek0 f1)))
      JSONDecodeError
      (run print corrupted_warning;
       ret (JObj [])).

Definition save_manifest (manifest_path : path) (manifest_data : json) : io unit :=
  match utf8_encode (json_dumps manifest_data) with
  | Some data => write_file manifest_path data
  | None => raise UnicodeEncodeError
  end.

(** ** Paths

    The roots the program works with come from [os.path.abspath] and are
    kept resolved, as component lists.  What is joined to them is text: a
    directory entry, a relative path made by [os.path.relpath], or a key of
    the manifest.  [os.path.join] itself only puts the texts together, and
    the operating system resolves the result one component at a time.
    [os_path_join] gives the place that resolution ends at when it is
    lexical: empty components and "." are dropped, ".." goes to the parent,
    a text that starts with a slash starts again from the root.  That is
    what the operating system does (there are no symbolic links) for a text
    without such components, and for any text when every directory named on
    the way is there; a text like [nodir/../a.txt], where [nodir] is
    missing, names nothing for the operating system.  The statements about
    keys of a manifest are for keys without such components
    ([plain_key]). *)

Fixpoint split_slash (s : str) : list str :=
  match s with
  | [] => [[]]
  | c :: r =>
      if c =? 47 then [] :: split_slash r
      else match split_slash r with
           | h :: t => (c :: h) :: t
           | [] => [[c]]
           end
  end.

Definition path_step (p : path) (c : str) : path :=
  if str_eqb c [] || str_eqb c (py ".") then p
  else if str_eqb c (py "..") then removelast p
  else p ++ [c].

(** The file [os.path.join(base, s)] names. *)
Definition os_path_join (base : path) (s : str) : path :=
  fold_left path_step (split_slash s)
            (match s with
             | c :: _ => if c =? 47 then [] else base
             | [] => base
             end).

(** [os.path.abspath(s)] in a process whose working directory is [cwd]. *)
Definition os_path_abspath (cwd : path) (s : str) : path := os_path_join cwd s.

Definition os_path_basename (p : path) : str := List.last p [].
Definition os_path_dirname (p : path) : path := removelast p.

Fixpoint common_prefix_length (a b : path) : nat :=
  match a, b with
  | x :: a', y :: b' => if str_eqb x y then S (common_prefix_length a' b') else O
  | _, _ => O
  end.

Fixpoint intercalate_slash (l : list str) : str :=
  match l with
  | [] => []
  | [x] => x
  | x :: r => x ++ 47 :: intercalate_slash r
  end.

(** [os.path.relpath(p, start)] *)
Definition os_path_relpath (p start : path) : str :=
  let i := common_prefix_length start p in
  let rel_list := repeat (py "..") (length start - i) ++ drop i p in
  if is_empty rel_list then py "." else intercalate_slash rel_list.

(** The text of an absolute path. *)
Definition path_str (p : path) : str :=
  if is_empty p then [47] else flat_map (fun c => 47 :: c) p.

(** ** Directories and copies *)

(** [os.mkdir(p)] *)
Definition os_mkdir (p : path) : io unit :=
  fun w =>
    match fs w !! p with
    | Some _ => (Raise FileExistsError, w)
    | None =>
        match fs w !! removelast p with
        | Some Dir => (Ok tt, with_fs (<[p := Dir]> (fs w)) w)
        | Some (File _ _) => (Raise NotADirectoryError, w)
        | None => (Raise (no_entry (fs w) (removelast p)), w)
        end
    end.

(** [os.makedirs(p)], on the components of [p] latest first: a missing
    parent is made first (and may have appeared meanwhile), then the leaf. *)
Fixpoint makedirs_rev (rp : list str) : io unit :=
  match rp with
  | [] => os_mkdir []
  | _ :: rhead =>
      do parent_exists <- os_path_exists (rev rhead);
      run (if parent_exists then ret tt
           else try_except (makedirs_rev rhead) FileExistsError (ret tt));
      os_mkdir (rev rp)
  end.

Definition os_makedirs (p : path) : io unit := makedirs_rev (rev p).

Definition ensure_directory (p : path) : io unit :=
  do found <- os_path_exists p;
  if negb found then os_makedirs p else ret tt.

(** [shutil.copy2(src, dst)]: into [dst] when it is a directory, content
    first ([copyfile]), then permission bits and times ([copystat]). *)
Definition shutil_copy2 (src dst : path) : io path :=
  fun w =>
    let dst' := match fs w !! dst with
                | Some Dir => dst ++ [os_path_basename src]
                | _ => dst
                end in
    if bool_decide (src = dst') && bool_decide (is_Some (fs w !! src))
    then (Raise SameFileError, w)
    else
      match fs w !! src with
      | None => (Raise (no_entry (fs w) src), w)
      | Some Dir => (Raise IsADirectoryError, w)
      | Some (File data m) =>
          if negb (readable m) then (Raise PermissionError, w)
          else
            match write_file dst' data w with
            | (Ok _, w1) => (Ok dst', with_fs (<[dst' := File data m]> (fs w1)) w1)
            | (Raise e, w1) => (Raise e, w1)
            end
      end.

Definition backup_file (source_file source_root backup_root : path) : io path :=
  let rel_path := os_path_relpath source_file source_root in
  let backup_file_path := os_path_join backup_root rel_path in
  let backup_dir := os_path_dirname backup_file_path in
  run ensure_directory backup_dir;
  run shutil_copy2 source_file backup_file_path;
  ret backup_file_path.

(** ** [os.walk]

    [os.walk(top)] only looks below [top].  The generator lists a
    directory when the loop comes to it; here the walk is taken on the tree
    as it is when the loop starts.  The body of the loop writes below the
    backup directory only, at places named after the relative paths of the
    source files, so the two agree whenever neither of the source and
    backup directories lies inside the other: the statements about the
    files a whole run finds say so. *)

Definition subtree (f : gmap path node) (top : path) : gmap path node :=
  filter (fun kv => top `prefix_of` kv.1) f.

Definition scandir (f : gmap path node) (top : path) : list (str * node) :=
  omap (fun kv => match last (fst kv) with
                  | Some name => if bool_decide (fst kv = top ++ [name])
                                 then Some (name, snd kv) else None
                  | None => None
                  end)
       (map_to_list f).

Definition is_dir_node (n : node) : bool :=
  match n with Dir => true | File _ _ => false end.

Fixpoint walk_from (fuel : nat) (f : gmap path node) (top : path)
  : list (path * list str * list str) :=
  match fuel with
  | O => []
  | S fuel' =>
      match f !! top with
      | Some Dir =>
          let entries := scandir f top in
          let dirs := List.map fst (List.filter (fun e => is_dir_node (snd e)) entries) in
          let files := List.map fst (List.filter (fun e => negb (is_dir_node (snd e))) entries) in
          (top, dirs, files) :: flat_map (fun d => walk_from fuel' f (top ++ [d])) dirs
      | _ => []
      end
  end.

Definition walk_tree (f : gmap path node) (top : path) : list (path * list str * list str) :=
  walk_from (S (size (subtree f top))) (subtree f top) top.

Definition os_walk (top : path) : io (list (path * list str * list str)) :=
  fun w => (Ok (walk_tree (fs w) top), w).

(** ** Python's operations on the loaded manifest *)

(** [v.copy()] *)
Definition py_copy (v : json) : outcome json :=
  match v with
  | JObj _ | JArr _ => Ok v
  | _ => Raise AttributeError
  end.

(** [v.get(k)] *)
Definition py_get (v : json) (k : str) : outcome json :=
  match v with
  | JObj d => Ok (default JNull (dict_get k d))
  | _ => Raise AttributeError
  end.

(** [v[k]] for a text [k] *)
Definition py_getitem (v : json) (k : str) : outcome json :=
  match v with
  | JObj d => match dict_get k d with
              | Some x => Ok x
              | None => Raise KeyError
              end
  | _ => Raise TypeError
  end.

(** [v != s] for a text [s] *)
Definition py_ne_str (v : json) (s : str) : bool :=
  match v with
  | JStr x => negb (str_eqb x s)
  | _ => true
  end.

(** [d[k] = v] *)
Definition py_setitem (d : json) (k : str) (v : json) : outcome json :=
  match d with
  | JObj fields => Ok (JObj (dict_set k v fields))
  | _ => Raise TypeError
  end.

Fixpoint mantissa (lexeme : str) : str :=
  match lexeme with
  | c :: r => if (c =? 101) || (c =? 69) then [] else c :: mantissa r
  | [] => []
  end.

(** What follows the [e] or [E] of a literal, and what follows the dot of
    its mantissa. *)
Fixpoint exponent_text (lexeme : str) : str :=
  match lexeme with
  | c :: r => if (c =? 101) || (c =? 69) then r else exponent_text r
  | [] => []
  end.

Fixpoint fraction_text (mant : str) : str :=
  match mant with
  | c :: r => if c =? 46 then r else fraction_text r
  | [] => []
  end.

Definition exponent_value (x : str) : Z :=
  match x with
  | c :: ds => if c =? 45 then - digits_value ds
               else if c =? 43 then digits_value ds
               else digits_value x
  | [] => 0
  end.

(** The [float] a literal is read as is zero when the number it writes,
    [m * 10 ^ (e - k)] for the digits [m] of its mantissa, [k] of them after
    the dot, and its exponent [e], is at most 2^-1075 in size: half the
    smallest positive [float], from where the nearest [float] is zero.
    [NaN] and the infinities have no digits and are not zero. *)
Definition float_is_zero (lexeme : str) : bool :=
  let ds := List.filter is_digit (mantissa lexeme) in
  let m := digits_value ds in
  let k := Z.of_nat (length (List.filter is_digit (fraction_text (mantissa lexeme)))) in
  let e := exponent_value (exponent_text lexeme) in
  negb (is_empty ds)
  && ((m =? 0) || ((e <? k) && (m * 2 ^ 1075 <=? 10 ^ (k - e)))).

(** The truth value of [v] in [if not v]. *)
Definition py_truthy (v : json) : bool :=
  match v with
  | JNull => false
  | JBool b => b
  | JInt n => negb (n =? 0)
  | JFloat lexeme => negb (float_is_zero lexeme)
  | JStr x => negb (is_empty x)
  | JArr l => negb (is_empty l)
  | JObj d => negb (is_empty d)
  end.

(** [len(v)] *)
Definition py_len (v : json) : outcome Z :=
  match v with
  | JStr x => Ok (Z.of_nat (length x))
  | JArr l => Ok (Z.of_nat (length l))
  | JObj d => Ok (Z.of_nat (length d))
  | _ => Raise TypeError
  end.

(** [v.items()] *)
Definition py_items (v : json) : outcome (list (str * json)) :=
  match v with
  | JObj d => Ok d
  | _ => Raise AttributeError
  end.

Fixpoint for_each {A S} (l : list A) (body : A -> S -> io S) (st : S) : io S :=
  match l with
  | [] => ret st
  | x :: r => do st' <- body x st; for_each r body st'
  end.

(** ** The backup engine *)

(** The local variables of [scan_and_backup] that the loop changes. *)
Record backup_locals := {
  updated_manifest : json;
  backed_up_files : Z;
  skipped_files : Z
}.

(** The test of the [if]: [previous_entry is None or
    previous_entry["hash"] != file_hash or not backup_exists]. *)
Definition needs_backup (previous_entry : json) (file_hash : str) (backup_exists : bool)
  : outcome bool :=
  match previous_entry with
  | JNull => Ok true
  | _ =>
      match py_getitem previous_entry (py "hash") with
      | Ok h => Ok (py_ne_str h file_hash || negb backup_exists)
      | Raise e => Raise e
      end
  end.

Definition manifest_entry (file_hash now backup_file_path : str) : json :=
  JObj [(py "hash", JStr file_hash);
        (py "last_backup_time", JStr now);
        (py "backup_path", JStr backup_file_path)].

(** Lines 102-124: what happens to a file that is not ignored. *)
Definition process_file (source_dir backup_dir : path) (manifest : json)
    (source_file_path : path) (st : backup_locals) : io backup_locals :=
  do file_hash <- calculate_file_hash source_file_path 4096;
  let rel_path := os_path_relpath source_file_path source_dir in
  do previous_entry <- lift (py_get manifest rel_path);
  let backup_file_path := os_path_join backup_dir rel_path in
  do backup_exists <- os_path_exists backup_file_path;
  do copy <- lift (needs_backup previous_entry file_hash backup_exists);
  if copy then
    do backup_file_path <- backup_file source_file_path source_dir backup_dir;
    do now <- datetime_now_isoformat;
    do updated <- lift (py_setitem (updated_manifest st) rel_path
                          (manifest_entry file_hash now (path_str backup_file_path)));
    run print (py "[BACKUP] " ++ rel_path);
    ret {| updated_manifest := updated;
           backed_up_files := backed_up_files st + 1;
           skipped_files := skipped_files st |}
  else
    run print (py "[SKIP] " ++ rel_path);
    ret {| updated_manifest := updated_manifest st;
           backed_up_files := backed_up_files st;
           skipped_files := skipped_files st + 1 |}.

(** The body of [for file_name in files]. *)
Definition backup_step (source_dir backup_dir : path) (manifest : json)
    (root : path) (file_name : str) (st : backup_locals) : io backup_locals :=
  let source_file_path := os_path_join root file_name in
  if str_eqb (os_path_basename source_file_path) MANIFEST_FILE_NAME then ret st
  else process_file source_dir backup_dir manifest source_file_path st.

(** The two nested loops over what [os.walk] yields. *)
Definition backup_loop (source_dir backup_dir : path) (manifest : json)
    (walk : list (path * list str * list str)) (st : backup_locals) : io backup_locals :=
  for_each walk
    (fun entry st1 =>
       let '(root, _, files) := entry in
       for_each files (backup_step source_dir backup_dir manifest root) st1)
    st.

(** The summary, lines 129-135; [start_time] and [end_time] are where the
    clock stood at the two calls of [time.time()]. *)
Definition print_summary (source_dir backup_dir : path) (st : backup_locals)
    (start_time end_time : nat) : io unit :=
  run print (10 :: py "=== Backup Summary ===");
  run print (py "Source directory : " ++ path_str source_dir);
  run print (py "Backup directory : " ++ path_str backup_dir);
  run print (py "Total files scanned : " ++ int_repr (backed_up_files st + skipped_files st));
  run print (py "Files backed up      : " ++ int_repr (backed_up_files st));
  run print (py "Files unchanged      : " ++ int_repr (skipped_files st));
  fun w => print (py "Time taken (seconds) : " ++ elapsed w start_time end_time) w.

(** [scan_and_backup] returns nothing in the source; here it hands back its
    local variables as they stand at the end. *)
Definition scan_and_backup (source_dir backup_dir manifest_path : path) : io backup_locals :=
  run ensure_directory backup_dir;
  do manifest <- load_manifest manifest_path;
  do updated <- lift (py_copy manifest);
  do start_time <- time_time;
  do walk <- os_walk source_dir;
  do st <- backup_loop source_dir backup_dir manifest walk
             {| updated_manifest := updated; backed_up_files := 0; skipped_files := 0 |};
  run save_manifest manifest_path (updated_manifest st);
  do end_time <- time_time;
  run print_summary source_dir backup_dir st start_time end_time;
  ret st.

(** ** The integrity verifier *)

Record verify_locals := {
  total_files : Z;
  missing_files : list str;
  mismatches : list str
}.

(** The body of [for rel_path, meta in manifest.items()]. *)
Definition verify_step (source_dir backup_dir : path) (item : str * json)
    (st : verify_locals) : io verify_locals :=
  let '(rel_path, meta) := item in
  let soruce_file_path := os_path_join source_dir rel_path in
  let backup_file_path := os_path_join backup_dir rel_path in
  do found <- os_path_exists backup_file_path;
  if negb found then
    ret {| total_files := total_files st;
           missing_files := missing_files st ++ [rel_path];
           mismatches := mismatches st |}
  else
    do current_hash <- calculate_file_hash backup_file_path 4096;
    do recorded <- lift (py_getitem meta (py "hash"));
    if py_ne_str recorded current_hash then
      ret {| total_files := total_files st;
             missing_files := missing_files st;
             mismatches := mismatches st ++ [rel_path] |}
    else ret st.

Definition print_report (st : verify_locals) : io unit :=
  run print (10 :: py "=== Integrity Check Report ===");
  run print (py "Total files in manifest  : " ++ int_repr (total_files st));
  run print (py "Missing Files            : " ++ int_repr (Z.of_nat (length (missing_files st))));
  run print (py "Hash Mismatches          : " ++ int_repr (Z.of_nat (length (mismatches st))));
  run (if is_empty (missing_files st) then ret tt
       else run print (10 :: py "Missing Files in Backup: ");
            for_each (missing_files st) (fun i _ => print (py "    :" ++ i)) tt);
  run (if is_empty (mismatches st) then ret tt
       else run print (py "Files with hash mismatches (changed files or corrupted files).");
            for_each (mismatches st) (fun i _ => print (py "    :" ++ i)) tt);
  if is_empty (missing_files st) && is_empty (mismatches st)
  then print (10 :: py "All backed up files passed integrity check.")
  else ret tt.

(** [verify_backup_integrity] returns nothing in the source; here it hands
    back its local variables, or [None] when it stopped at the empty
    manifest. *)
Definition verify_backup_integrity (source_dir backup_dir manifest_path : path)
  : io (option verify_locals) :=
  do manifest <- load_manifest manifest_path;
  if negb (py_truthy manifest) then
    run print (py "No Manifest Found. Run Backup first");
    ret None
  else
    do total <- lift (py_len manifest);
    do items <- lift (py_items manifest);
    do st <- for_each items (verify_step source_dir backup_dir)
               {| total_files := total; missing_files := []; mismatches := [] |};
    run print_report st;
    ret (Some st).

(** ** The command line *)

Record arguments := {
  arg_source : str;
  arg_backup : str;
  arg_verify : bool;
  arg_manifest : option str
}.

(** The value of [args.manifest]: the option, or its default. *)
Definition args_manifest (a : arguments) : str := default MANIFEST_FILE_NAME (arg_manifest a).

Definition main (cwd : path) (a : arguments) : io unit :=
  let source_dir := os_path_abspath cwd (arg_source a) in
  let backup_dir := os_path_abspath cwd (arg_backup a) in
  let manifest_path := os_path_abspath cwd (args_manifest a) in
  do found <- os_path_exists source_dir;
  if negb found then
    print (py "Source directory does not exists: " ++ path_str source_dir)
  else if arg_verify a then
    run verify_backup_integrity source_dir backup_dir manifest_path; ret tt
  else
    run scan_and_backup source_dir backup_dir manifest_path; ret tt.

(** ** Example worlds *)

Definition rw_r_r : metadata := {| st_mode := 420; st_mtime := 0 |}.

Definition clock0 (n : nat) : str := py "2024-01-01T00:00:0" ++ int_repr (Z.of_nat n).

(** The worlds of the examples: a mask of 0o022, room for reads of a
    mebibyte, and runs that take no time. *)
Definition world_of (entries : list (path * node)) : world :=
  {| fs := list_to_map entries; stdout := []; time := 0; isoformat := clock0;
     elapsed := fun _ _ => py "0.00"; umask := 18; memory := 1048576%N |}.

(** A manifest file whose single byte 0xFF is not UTF-8. *)
Definition world_binary_manifest : world :=
  world_of [([], Dir); ([py "manifest.json"], File [255] rw_r_r)].

(** A name a directory entry can have. *)
Definition good_name (n : str) : bool :=
  negb (is_empty n) && forallb (fun c => negb (c =? 47)) n
  && negb (str_eqb n (py ".")) && negb (str_eqb n (py "..")).

(** What [os.walk] yields, without the files named [manifest.json]. *)
Definition without_reserved (walk : list (path * list str * list str))
  : list (path * list str * list str) :=
  List.map (fun entry => let '(root, dirs, files) := entry in
                         (root, dirs,
                          List.filter (fun n => negb (str_eqb n MANIFEST_FILE_NAME)) files))
           walk.

(** The scenario of the specification: [a.txt] and [b/c.txt] under [/src],
    an empty backup directory [/bak]. *)
Definition world_two_files : world :=
  world_of [([], Dir); ([py "src"], Dir); ([py "bak"], Dir);
            ([py "src"; py "a.txt"], File (py "hello") rw_r_r);
            ([py "src"; py "b"], Dir);
            ([py "src"; py "b"; py "c.txt"], File (py "world") rw_r_r)].

(** A source directory that holds a file named [manifest.json]; the run
    keeps its manifest in [/state/backup.json]. *)
Definition world_reserved_name : world :=
  world_of [([], Dir); ([py "src"], Dir); ([py "state"], Dir);
            ([py "src"; py "manifest.json"], File (py "data") rw_r_r)].

Definition no_locals : backup_locals :=
  {| updated_manifest := JObj []; backed_up_files := 0; skipped_files := 0 |}.

#[global] Instance json_eq_dec : EqDecision json.
Proof.
  unfold EqDecision, Decision. fix IH 1. intros a b.
  assert (Hl : forall l1 l2 : list json, {l1 = l2} + {l1 <> l2}).
  { induction l1 as [|x l1 IHl]; destruct l2 as [|y l2]; try (right; discriminate).
    - left; reflexivity.
    - destruct (IH x y) as [->|Hne]; [|right; congruence].
      destruct (IHl l2) as [->|Hne]; [left; reflexivity | right; congruence]. }
  assert (Hf : forall l1 l2 : list (list Z * json), {l1 = l2} + {l1 <> l2}).
  { induction l1 as [|[k x] l1 IHl]; destruct l2 as [|[k' y] l2]; try (right; discriminate).
    - left; reflexivity.
    - destruct (decide (k = k')) as [->|Hne]; [|right; congruence].
      destruct (IH x y) as [->|Hne]; [|right; congruence].
      destruct (IHl l2) as [->|Hne]; [left; reflexivity | right; congruence]. }
  destruct a, b; try (right; discriminate); try (left; reflexivity).
  - destruct (decide (b0 = b)) as [->|]; [left; reflexivity | right; congruence].
  - destruct (decide (n = n0)) as [->|]; [left; reflexivity | right; congruence].
  - destruct (decide (lexeme = lexeme0)) as [->|]; [left; reflexivity | right; congruence].
  - destruct (decide (s = s0)) as [->|]; [left; reflexivity | right; congruence].
  - destruct (Hl items items0) as [->|]; [left; reflexivity | right; congruence].
  - destruct (Hf fields fields0) as [->|]; [left; reflexivity | right; congruence].
Defined.

#[global] Instance outcome_eq_dec {A} `{EqDecision A} : EqDecision (outcome A).
Proof. solve_decision. Defined.

(** ** The classification the specification asks of the verifier *)







(** What [load_manifest] makes of the node at the manifest path: the result,
    and whether the warning is printed. *)
Definition read_manifest (n : option node) : outcome json * bool :=
  match n with
  | None => (Ok (JObj []), false)
  | Some Dir => (Raise IsADirectoryError, false)
  | Some (File data m) =>
      if readable m then
        match utf8_decode data with
        | None => (Raise UnicodeDecodeError, false)
        | Some t =>
            let text := universal_newlines t in
            if is_empty (strip text) then (Ok (JObj []), false)
            else match json_loads text with
                 | Ok v => (Ok v, false)
                 | Raise e => if bool_decide (e = JSONDecodeError)
                              then (Ok (JObj []), true) else (Raise e, false)
                 end
        end
      else (Raise PermissionError, false)
  end.

(** The files the two loops go through, in order, each with the directory
    [os.walk] reported it in. *)
Definition walked_files (walk : list (path * list str * list str)) : list (path * str) :=
  flat_map (fun entry => let '(root, _, files) := entry in List.map (pair root) files) walk.

(** Every name below [top] is a name a directory entry can have. *)
Definition good_tree (f : gmap path node) (top : path) : bool :=
  forallb (fun kv => if bool_decide (top `prefix_of` fst kv)
                     then forallb good_name (drop (length top) (fst kv))
                     else true)
          (map_to_list f).

(** The entry of a manifest under a key, when the manifest is a dictionary
    that has the key. *)
Definition py_entry (manifest : json) (k : str) : option json :=
  match manifest with
  | JObj d => dict_get k d
  | _ => None
  end.

(** The value of an outcome that is known to be [Ok]. *)
Definition the {A} (d : A) (o : outcome A) : A :=
  match o with
  | Ok a => a
  | Raise _ => d
  end.

Definition sample_time : str := py "2024-01-01T00:00:00".

(** Three entries: the copy of the first is in place, that of the second
    was changed, that of the third is gone. *)
Definition sample_manifest : list (str * json) :=
  [(py "a.txt", manifest_entry (Sha256.sha256_hex (py "hello")) sample_time (py "/bak/a.txt"));
   (py "b/c.txt", manifest_entry (Sha256.sha256_hex (py "world")) sample_time (py "/bak/b/c.txt"));
   (py "gone.txt", manifest_entry (Sha256.sha256_hex (py "bye")) sample_time (py "/bak/gone.txt"))].

Definition manifest_bytes (M : list (str * json)) : bytes :=
  default [] (utf8_encode (json_dumps (JObj M))).


(** A manifest with an entry for a file that is no longer in the source
    tree. *)
Definition stale_manifest : list (str * json) :=
  [(py "old.txt", manifest_entry (Sha256.sha256_hex (py "bye")) sample_time (py "/bak/old.txt"))].

Definition world_stale : world :=
  world_of [([], Dir); ([py "src"], Dir); ([py "bak"], Dir);
            ([py "src"; py "a.txt"], File (py "hello") rw_r_r);
            ([py "manifest.json"], File (manifest_bytes stale_manifest) rw_r_r)].

(** A source tree whose second file cannot be read. *)
Definition no_access : metadata := {| st_mode := 0; st_mtime := 0 |}.

Definition world_unreadable : world :=
  world_of [([], Dir); ([py "src"], Dir); ([py "bak"], Dir);
            ([py "src"; py "a.txt"], File (py "hello") rw_r_r);
            ([py "src"; py "z.txt"], File (py "secret") no_access)].

(** ** Values that the manifest file carries without loss *)

(** A code point that is not the first half of a surrogate pair. *)
Definition char_ok (c : char) : bool :=
  (0 <=? c) && (c <=? 1114111) && negb (is_high_surrogate c).

(** Text made of code points, with no first half of a surrogate pair
    directly followed by a second half: file names, digests and time stamps
    are such, and so is every text [json.load] returns. *)
Fixpoint text_ok (s : str) : bool :=
  match s with
  | [] => true
  | c :: r =>
      (0 <=? c) && (c <=? 1114111)
      && negb (is_high_surrogate c && match r with
                                      | d :: _ => is_low_surrogate d
                                      | [] => false
                                      end)
      && text_ok r
  end.

(** The scanner, having read an escaped first half, looks at the next six
    characters for an escaped second half. *)
Definition low_escape_ahead (t : str) : bool :=
  match t with
  | b0 :: e2 :: l1 :: l2 :: l3 :: l4 :: _ =>
      match hex4_val l1 l2 l3 l4 with
      | Some u2 => (b0 =? 92) && (e2 =? 117) && is_low_surrogate u2
      | None => false
      end
  | _ => false
  end.

(** Dictionaries, lists, texts, [None] and booleans, nested at will. *)
Fixpoint json_wf (v : json) : bool :=
  match v with
  | JNull | JBool _ => true
  | JInt _ | JFloat _ => false
  | JStr s => text_ok s
  | JArr items => forallb json_wf items
  | JObj fields =>
      forallb (fun kv => text_ok (fst kv) && json_wf (snd kv)) fields
      && bool_decide (NoDup (dict_keys fields))
  end.

(** The calls the decoder makes on the text of a value. *)
Fixpoint json_size (v : json) : nat :=
  match v with
  | JArr items => S (list_sum (List.map (fun x => S (json_size x)) items))
  | JObj fields => S (list_sum (List.map (fun kv => S (json_size (snd kv))) fields))
  | _ => 1
  end.

(** What follows the first element of a list, and the first member of a
    dictionary, in the text [dumps] writes at [level]. *)
Definition member_text (level : nat) (kv : str * json) : str :=
  encode_string (fst kv) ++ 58 :: 32 :: dumps level (snd kv).

Definition elements_tail (level : nat) (xs : list json) (rest : str) : str :=
  flat_map (fun y => 44 :: newline_indent (S level) ++ y) (List.map (dumps (S level)) xs)
  ++ newline_indent level ++ 93 :: rest.

Definition members_tail (level : nat) (more : list (str * json)) (rest : str) : str :=
  flat_map (fun y => 44 :: newline_indent (S level) ++ y) (List.map (member_text (S level)) more)
  ++ newline_indent level ++ 125 :: rest.

(** A value comes back from its text: what the induction is about. *)
Definition round_trips (v : json) : Prop :=
  json_wf v = true ->
  forall level fuel rest, (json_size v <= fuel)%nat ->
                          parse_value fuel (dumps level v ++ rest) = Parsed v rest.

(** The characters [json.dumps] writes with [ensure_ascii]: the line feed of
    the indentation and the printable ASCII characters. *)
Definition plain_text (s : str) : Prop := Forall (fun c => c = 10 \/ 32 <= c <= 126) s.

(** ** Predicates of the statements *)

(** [w'] is [w] with directories added where nothing was, all of them
    prefixes of [limit]; nothing else differs. *)
Definition adds_dirs (limit : path) (w w' : world) : Prop :=
  stdout w' = stdout w /\ time w' = time w /\ isoformat w' = isoformat w /\
  forall q, fs w' !! q = fs w !! q
            \/ (fs w !! q = None /\ fs w' !! q = Some Dir /\ q `prefix_of` limit).

(** The rule of the specification: there is no entry for the file, or the
    fingerprint the entry records is not the file's, or the backup copy is
    not there. *)
Definition must_copy (manifest : list (str * json)) (rel_path file_hash : str)
    (backup_exists : bool) : Prop :=
  dict_get rel_path manifest = None
  \/ (exists entry, dict_get rel_path manifest = Some entry
                    /\ py_getitem entry (py "hash") <> Ok (JStr file_hash))
  \/ backup_exists = false.

(** A computation that only prints: it ends, with nothing raised. *)
Definition only_prints (c : io unit) : Prop :=
  forall w, fst (c w) = Ok tt /\ fs (snd (c w)) = fs w.

(** What a step that ends well has done: nothing to a file with the
    reserved name; for another file, either a skip or a copy. *)
Inductive step_done (s b : path) (manifest : json) (root : path) (name : list Z)
    (st : backup_locals) (w : world) : backup_locals -> world -> Prop :=
| step_ignored :
    os_path_basename (os_path_join root name) = MANIFEST_FILE_NAME ->
    step_done s b manifest root name st w st w
| step_skipped (content : list Z) (m : metadata) (M : list (list Z * json)) (entry : json) :
    let F := os_path_join root name in
    let R := os_path_relpath F s in
    os_path_basename F <> MANIFEST_FILE_NAME ->
    fs w !! F = Some (File content m) ->
    readable m = true ->
    manifest = JObj M ->
    dict_get R M = Some entry ->
    py_getitem entry (py "hash") = Ok (JStr (Sha256.sha256_hex content)) ->
    is_Some (fs w !! os_path_join b R) ->
    step_done s b manifest root name st w
      {| updated_manifest := updated_manifest st;
         backed_up_files := backed_up_files st;
         skipped_files := skipped_files st + 1 |}
      (snd (print (py "[SKIP] " ++ R) w))
| step_copied (content : list Z) (m : metadata) (M U : list (list Z * json)) (w1 : world) :
    let F := os_path_join root name in
    let R := os_path_relpath F s in
    let target := os_path_join b R in
    os_path_basename F <> MANIFEST_FILE_NAME ->
    fs w !! F = Some (File content m) ->
    readable m = true ->
    manifest = JObj M ->
    updated_manifest st = JObj U ->
    backup_file F s b w = (Ok target, w1) ->
    step_done s b manifest root name st w
      {| updated_manifest :=
           JObj (dict_set R (manifest_entry (Sha256.sha256_hex content)
                                            (isoformat w1 (time w1)) (path_str target)) U);
         backed_up_files := backed_up_files st + 1;
         skipped_files := skipped_files st |}
      (snd (print (py "[BACKUP] " ++ R) (snd (datetime_now_isoformat w1)))).

(** The first character of a value tells what the value is. *)
Definition opens_value (c : Z) : Prop :=
  c = 110 \/ c = 116 \/ c = 102 \/ c = 34 \/ c = 91 \/ c = 123.

(** ** Two runs in a row *)

(** The files a run counts: those the loop does not ignore. *)
Fixpoint counted (files : list (path * str)) : Z :=
  match files with
  | [] => 0
  | rf :: rest =>
      (if str_eqb (os_path_basename (os_path_join (fst rf) (snd rf))) MANIFEST_FILE_NAME
       then 0 else 1) + counted rest
  end.

(** The file at [rel] under the source directory, as it is in [f0], is
    settled in a state of the loop: the updated manifest records its
    fingerprint and there is something at its place in the backup. *)
Definition settled (s b : path) (f0 : gmap path node) (rel : path)
    (st : backup_locals) (w : world) : Prop :=
  exists content m U entry,
    f0 !! (s ++ rel) = Some (File content m)
    /\ readable m = true
    /\ updated_manifest st = JObj U
    /\ dict_get (intercalate_slash rel) U = Some entry
    /\ py_getitem entry (py "hash") = Ok (JStr (Sha256.sha256_hex content))
    /\ is_Some (fs w !! (b ++ rel)).

Definition file_settled (s b : path) (f0 : gmap path node) (rf : path * str)
    (st : backup_locals) (w : world) : Prop :=
  forall rel, os_path_join (fst rf) (snd rf) = s ++ rel ->
              Forall (fun c => good_name c = true) rel -> rel <> [] ->
              os_path_basename (s ++ rel) <> MANIFEST_FILE_NAME ->
              settled s b f0 rel st w.

(** What the loop of a run keeps true, [f0] being the file system it
    started in: the source tree is as it was, the manifest file can be read
    if there is one, nothing disappears, and under every key the updated
    manifest has what was loaded unless the file of that key is settled. *)
Definition run_inv (s b mp : path) (manifest : json) (f0 : gmap path node)
    (st : backup_locals) (w : world) : Prop :=
  (forall q, s `prefix_of` q -> fs w !! q = f0 !! q)
  /\ (forall d m, fs w !! mp = Some (File d m) -> readable m = true)
  /\ (forall q, is_Some (f0 !! q) -> is_Some (fs w !! q))
  /\ py_copy (updated_manifest st) = Ok (updated_manifest st)
  /\ (forall M, manifest = JObj M ->
        exists U, updated_manifest st = JObj U
          /\ forall rel, Forall (fun c => good_name c = true) rel -> rel <> [] ->
               dict_get (intercalate_slash rel) U = dict_get (intercalate_slash rel) M
               \/ settled s b f0 rel st w).

(** ** More example worlds *)

(** A world whose manifest file holds [data]. *)
Definition world_with_manifest (data : bytes) : world :=
  world_of [([], Dir); ([py "manifest.json"], File data rw_r_r)].

(** A backup directory in which a directory stands where the copy of
    [a.txt] would go. *)
Definition world_dir_in_place : world :=
  world_of [([], Dir); ([py "src"], Dir); ([py "bak"], Dir);
            ([py "src"; py "a.txt"], File (py "hello") rw_r_r);
            ([py "bak"; py "a.txt"], Dir)].

(** A regular file where a directory is wanted. *)
Definition world_file_in_the_way : world :=
  world_of [([], Dir); ([py "src"], Dir);
            ([py "src"; py "a.txt"], File (py "hello") rw_r_r);
            ([py "bak"], File (py "not a directory") rw_r_r)].









(** How deep the lists and dictionaries of a value nest. *)
Fixpoint json_depth (v : json) : nat :=
  match v with
  | JArr items => S (fold_right Nat.max 0%nat (List.map json_depth items))
  | JObj fields =>
      S (fold_right Nat.max 0%nat (List.map (fun kv => json_depth (snd kv)) fields))
  | _ => 0%nat
  end.

(** A character that a JSON value can begin with: a quote, a brace, a
    bracket, a minus sign, a digit, or the first letter of [null], [true],
    [false], [NaN] and [Infinity]. *)
Definition begins_value (c : char) : bool :=
  (c =? 34) || (c =? 123) || (c =? 91) || (c =? 45) || is_digit c
  || (c =? 110) || (c =? 116) || (c =? 102) || (c =? 78) || (c =? 73).

(** The last line of a report that found nothing wrong. *)
Definition all_clear_line : str := 10 :: py "All backed up files passed integrity check.".

(** A computation that does nothing but print [lines]. *)
Definition emits (c : io unit) (lines : list str) : Prop :=
  forall w, c w = (Ok tt, {| fs := fs w; stdout := stdout w ++ lines;
                             time := time w; isoformat := isoformat w;
                             elapsed := elapsed w; umask := umask w;
                             memory := memory w |}).

(** * Properties *)

(** The test vectors of FIPS 180-4: the empty message, "abc", and a message
    that fills more than one block. *)
Example sha256_empty :
  Sha256.sha256_hex [] =
  py "e3b0c44298fc1c149afbf4c8996fb92427ae41e4649b934ca495991b7852b855".
Proof. vm_compute. reflexivity. Qed.

Example sha256_abc :
  Sha256.sha256_hex (py "abc") =
  py "ba7816bf8f01cfea414140de5dae2223b00361a396177a9cb410ff61f20015ad".
Proof. vm_compute. reflexivity. Qed.

Example sha256_two_blocks :
  Sha256.sha256_hex (py "abcdbcdecdefdefgefghfghighijhijkijkljklmklmnlmnomnopnopq") =
  py "248d6a61d20638b8e5c026930c3e6039a33ce45964ff2167f6ecedd419db06c1".
Proof. vm_compute. reflexivity. Qed.

(** ** The content fingerprinter *)

Lemma update_app (s : Sha256.state) (a b : bytes) :
  Sha256.update s (a ++ b) = Sha256.update (Sha256.update s a) b.
Proof. unfold Sha256.update. apply fold_left_app. Qed.

Lemma hex32_length (x : Z) : length (Sha256.hex32 x) = 8%nat.
Proof. reflexivity. Qed.

Lemma hex_length (d : Sha256.word8) : length (Sha256.hex d) = 64%nat.
Proof.
  destruct d as [[[[[[[a b] c] d] e] f] g] h]. unfold Sha256.hex.
  rewrite !length_app, !hex32_length. reflexivity.
Qed.

(** A read of a size that is not negative and has a buffer returns what
    the file has, up to that size. *)
Lemma f_read_chunk (limit : Z) (f : file_obj) (n : Z) :
  0 <= n -> n <= limit -> limit <= 2 ^ 63 - 34 ->
  f_read limit f n
  = Ok (take (Z.to_nat n) (remaining f),
        {| f_data := f_data f;
           f_pos := (f_pos f + length (take (Z.to_nat n) (remaining f)))%nat |}).
Proof.
  intros H0 Hn Hl. unfold f_read.
  replace ((n <? - 2 ^ 63) || (2 ^ 63 <=? n)) with false by lia.
  replace (n <? -1) with false by lia.
  replace (n =? -1) with false by lia.
  replace (2 ^ 63 - 34 <? n) with false by lia.
  replace (limit <? n) with false by lia.
  reflexivity.
Qed.

Lemma read_limit_bounds (w : world) : 4096 <= read_limit w <= 2 ^ 63 - 34.
Proof. unfold read_limit. lia. Qed.

(** With a positive chunk size that has a buffer, the loop feeds the
    accumulator everything that is left in the file, whatever the chunks
    are. *)
Lemma hash_loop_all (limit chunk_size : Z) (f : file_obj) (s : Sha256.state) :
  0 < chunk_size -> chunk_size <= limit -> limit <= 2 ^ 63 - 34 ->
  hash_loop limit chunk_size f s = Ok (Sha256.update s (remaining f)).
Proof.
  intros Hpos Hle Hlim.
  funelim (hash_loop limit chunk_size f s);
    pose proof (f_read_chunk limit f chunk_size ltac:(lia) Hle Hlim) as Hchunk.
  - congruence.
  - assert (Hd : data = take (Z.to_nat chunk_size) (remaining f)) by congruence.
    destruct (remaining f) as [|b r] eqn:Hr; [reflexivity|].
    destruct (Z.to_nat chunk_size) eqn:Hn; [lia|]. subst data. discriminate.
  - match goal with
    | IH : _ -> _ -> _ -> hash_loop _ _ _ _ = _ |- _ => rewrite IH by assumption
    end.
    assert (Hd : (data, f') = (take (Z.to_nat chunk_size) (remaining f),
                               {| f_data := f_data f;
                                  f_pos := (f_pos f + length (take (Z.to_nat chunk_size)
                                                                   (remaining f)))%nat |}))
      by congruence.
    injection Hd as -> ->.
    rewrite <- update_app. do 2 f_equal.
    unfold remaining. simpl.
    rewrite <- drop_drop.
    set (r := drop (f_pos f) (f_data f)).
    assert (Hd : drop (length (take (Z.to_nat chunk_size) r)) r
                 = drop (Z.to_nat chunk_size) r).
    { rewrite length_take.
      destruct (Nat.le_gt_cases (Z.to_nat chunk_size) (length r)) as [Hle'|Hgt].
      - rewrite Nat.min_l by assumption. reflexivity.
      - rewrite Nat.min_r by lia. rewrite !drop_ge by lia. reflexivity. }
    rewrite Hd. apply take_drop.
Qed.

Lemma calculate_file_hash_value
    (w : world) (file_path : path) (content : bytes) (m : metadata) (chunk_size : Z) :
  fs w !! file_path = Some (File content m) ->
  readable m = true ->
  0 < chunk_size <= read_limit w ->
  calculate_file_hash file_path chunk_size w = (Ok (Sha256.sha256_hex content), w).
Proof.
  intros Hfile Hread Hpos.
  unfold calculate_file_hash, bind, open_read, ret. rewrite Hfile, Hread.
  rewrite hash_loop_all by (pose proof (read_limit_bounds w); lia). reflexivity.
Qed.

(** The chunk of 4096 bytes that the program reads by. *)
Lemma default_chunk (w : world) : 0 < 4096 <= read_limit w.
Proof. pose proof (read_limit_bounds w). lia. Qed.

(** C5, as the code has it.  For every file content and every positive
    chunk size that a read can be given a buffer for (at most
    [read_limit w], which is below 2^63), [calculate_file_hash] returns the
    SHA-256 digest of the whole content as a hexadecimal string of 64
    characters, and leaves the world as it is; so the result is the same
    for every such chunk size and for every file with the same bytes. *)
Theorem calculate_file_hash_is_sha256
    (w : world) (file_path : path) (content : bytes) (m : metadata) (chunk_size : Z) :
  fs w !! file_path = Some (File content m) ->
  readable m = true ->
  0 < chunk_size <= read_limit w ->
  calculate_file_hash file_path chunk_size w = (Ok (Sha256.sha256_hex content), w)
  /\ length (Sha256.sha256_hex content) = 64%nat.
Proof.
  intros Hfile Hread Hpos. split.
  - unfold calculate_file_hash, bind, open_read, ret. rewrite Hfile, Hread.
    rewrite hash_loop_all by (pose proof (read_limit_bounds w); lia). reflexivity.
  - apply hex_length.
Qed.

(** ** The manifest store: [load_manifest] *)


Lemma open_read_file (w : world) (p : path) (data : bytes) (m : metadata) :
  fs w !! p = Some (File data m) -> readable m = true ->
  open_read p w = (Ok {| f_data := data; f_pos := 0 |}, w).
Proof. intros H1 H2. unfold open_read. rewrite H1, H2. reflexivity. Qed.

Lemma os_path_exists_true (w : world) (p : path) (n : node) :
  fs w !! p = Some n -> os_path_exists p w = (Ok true, w).
Proof.
  intros H. unfold os_path_exists. rewrite bool_decide_eq_true_2 by eauto. reflexivity.
Qed.

Lemma os_path_exists_false (w : world) (p : path) :
  fs w !! p = None -> os_path_exists p w = (Ok false, w).
Proof.
  intros H. unfold os_path_exists. rewrite H.
  rewrite bool_decide_eq_false_2 by (intros [x Hx]; discriminate). reflexivity.
Qed.

Lemma load_manifest_missing (w : world) (p : path) :
  fs w !! p = None -> load_manifest p w = (Ok (JObj []), w).
Proof.
  intros H. unfold load_manifest, bind. rewrite (os_path_exists_false _ _ H). reflexivity.
Qed.

Section LoadExisting.
Variables (w : world) (p : path) (data : bytes) (m : metadata).
Hypothesis Hfile : fs w !! p = Some (File data m).
Hypothesis Hread : readable m = true.

Lemma load_manifest_undecodable :
  utf8_decode data = None -> load_manifest p w = (Raise UnicodeDecodeError, w).
Proof using Hfile Hread.
  intros Hdec. unfold load_manifest, bind, try_except.
  rewrite (os_path_exists_true _ _ _ Hfile). simpl.
  rewrite (open_read_file _ _ _ _ Hfile Hread).
  unfold lift, f_read_text, remaining. simpl. rewrite drop_0, Hdec. reflexivity.
Qed.

Lemma load_manifest_blank (text : str) :
  utf8_decode data = Some text ->
  strip (universal_newlines text) = [] ->
  load_manifest p w = (Ok (JObj []), w).
Proof using Hfile Hread.
  intros Hdec Hblank. unfold load_manifest, bind, try_except.
  rewrite (os_path_exists_true _ _ _ Hfile). simpl.
  rewrite (open_read_file _ _ _ _ Hfile Hread).
  unfold lift, f_read_text, remaining. simpl. rewrite drop_0, Hdec, Hblank. reflexivity.
Qed.

Lemma load_manifest_text (text : str) :
  utf8_decode data = Some text ->
  strip (universal_newlines text) <> [] ->
  load_manifest p w =
    match json_loads (universal_newlines text) with
    | Ok v => (Ok v, w)
    | Raise JSONDecodeError => (Ok (JObj []), snd (print corrupted_warning w))
    | Raise e => (Raise e, w)
    end.
Proof using Hfile Hread.
  intros Hdec Hne. unfold load_manifest, bind, try_except.
  rewrite (os_path_exists_true _ _ _ Hfile). simpl.
  rewrite (open_read_file _ _ _ _ Hfile Hread).
  unfold lift, f_read_text, remaining. simpl. rewrite drop_0, Hdec.
  destruct (strip (universal_newlines text)) eqn:Hs; [congruence|]. simpl.
  unfold json_load, f_read_text, remaining. simpl. rewrite drop_0, Hdec.
  destruct (json_loads (universal_newlines text)) as [v|e]; [reflexivity|].
  destruct e; reflexivity.
Qed.
End LoadExisting.

(** C2.  A manifest file whose bytes are not UTF-8 is not read as an empty
    manifest: decoding raises [UnicodeDecodeError], which the handler for
    [json.JSONDecodeError] does not catch, and [load_manifest] raises. *)
Theorem load_manifest_raises_on_binary_manifest :
  load_manifest [py "manifest.json"] world_binary_manifest
  = (Raise UnicodeDecodeError, world_binary_manifest).
Proof. vm_compute. reflexivity. Qed.

(** ** Dictionaries *)

Lemma str_eqb_eq (a b : str) : str_eqb a b = true <-> a = b.
Proof. unfold str_eqb. apply bool_decide_eq_true. Qed.

Lemma str_eqb_refl (a : str) : str_eqb a a = true.
Proof. apply str_eqb_eq. reflexivity. Qed.

Lemma str_eqb_neq (a b : str) : str_eqb a b = false <-> a <> b.
Proof. unfold str_eqb. apply bool_decide_eq_false. Qed.

Section Dict.
Context {V : Type}.
Implicit Types (d : list (str * V)) (k : str) (v : V).

Lemma dict_get_set_eq d k v : dict_get k (dict_set k v d) = Some v.
Proof.
  induction d as [|[k' v'] d IH]; simpl.
  - rewrite str_eqb_refl. reflexivity.
  - destruct (str_eqb k' k) eqn:E; simpl; rewrite E; auto.
Qed.

Lemma dict_get_set_ne d k k' v : k <> k' -> dict_get k' (dict_set k v d) = dict_get k' d.
Proof.
  intros Hne. induction d as [|[k0 v0] d IH]; simpl.
  - apply str_eqb_neq in Hne. rewrite Hne. reflexivity.
  - destruct (str_eqb k0 k) eqn:E; simpl.
    + apply str_eqb_eq in E. subst k0. apply str_eqb_neq in Hne. rewrite Hne. reflexivity.
    + rewrite IH. reflexivity.
Qed.

Lemma dict_get_Some_In d k v : dict_get k d = Some v -> In (k, v) d.
Proof.
  induction d as [|[k0 v0] d IH]; simpl; [discriminate|].
  destruct (str_eqb k0 k) eqn:E.
  - apply str_eqb_eq in E. intros [= ->]. subst. auto.
  - auto.
Qed.

Lemma dict_get_None d k : dict_get k d = None <-> ~ In k (dict_keys d).
Proof.
  induction d as [|[k0 v0] d IH]; simpl; [tauto|].
  destruct (str_eqb k0 k) eqn:E.
  - apply str_eqb_eq in E. split; [discriminate | intros H; exfalso; auto].
  - apply str_eqb_neq in E. rewrite IH. tauto.
Qed.




Lemma dict_set_fresh d k v : dict_get k d = None -> dict_set k v d = d ++ [(k, v)].
Proof.
  induction d as [|[k0 v0] d IH]; simpl; [reflexivity|].
  destruct (str_eqb k0 k); [discriminate|]. intros H. rewrite IH by assumption. reflexivity.
Qed.

Lemma make_dict_id d : NoDup (dict_keys d) -> make_dict d = d.
Proof.
  unfold make_dict. intros Hnd.
  enough (G : forall acc, NoDup (dict_keys (acc ++ d)) ->
              fold_left (fun d0 kv => dict_set kv.1 kv.2 d0) d acc = acc ++ d)
    by (apply (G []); exact Hnd).
  clear Hnd. induction d as [|[k v] d IH]; intros acc Hnd; simpl.
  - rewrite app_nil_r. reflexivity.
  - rewrite dict_set_fresh.
    + rewrite IH; rewrite <- app_assoc; [reflexivity | exact Hnd].
    + apply dict_get_None. unfold dict_keys in *. rewrite map_app in Hnd. simpl in Hnd.
      apply NoDup_app in Hnd as (_ & Hdisj & _). intros Hin.
      apply (Hdisj k); [apply list_elem_of_In; exact Hin | left].
Qed.
End Dict.

(** ** Effects on the world *)

Lemma adds_dirs_refl (limit : path) (w : world) : adds_dirs limit w w.
Proof. repeat split; auto. Qed.

Lemma adds_dirs_trans (limit : path) (w w1 w2 : world) :
  adds_dirs limit w w1 -> adds_dirs limit w1 w2 -> adds_dirs limit w w2.
Proof.
  intros (Ho & Ht & Hi & Hf) (Ho' & Ht' & Hi' & Hf').
  repeat split; try congruence. intros q.
  destruct (Hf q) as [E|(E1 & E2 & E3)], (Hf' q) as [E'|(E1' & E2' & E3')].
  - left. congruence.
  - right. repeat split; congruence.
  - right. repeat split; congruence.
  - congruence.
Qed.

Lemma adds_dirs_weaken (l l' : path) (w w' : world) :
  l `prefix_of` l' -> adds_dirs l w w' -> adds_dirs l' w w'.
Proof.
  intros Hp (Ho & Ht & Hi & Hf). repeat split; auto. intros q.
  destruct (Hf q) as [E|(E1 & E2 & E3)]; [left; exact E | right].
  repeat split; auto. etrans; eauto.
Qed.

Lemma os_mkdir_spec (p : path) (w w' : world) (r : outcome unit) :
  os_mkdir p w = (r, w') ->
  adds_dirs p w w' /\ (r = Ok tt -> fs w' !! p = Some Dir).
Proof.
  unfold os_mkdir. intros H.
  destruct (fs w !! p) as [n|] eqn:Ep.
  { injection H as <- <-. split; [apply adds_dirs_refl | discriminate]. }
  destruct (fs w !! removelast p) as [[| ]|] eqn:Eparent; injection H as <- <-;
    try (split; [apply adds_dirs_refl | discriminate]).
  split.
  - repeat split; auto. intros q. simpl.
    destruct (decide (p = q)) as [<-|Hne].
    + right. rewrite lookup_insert_eq. auto.
    + left. apply lookup_insert_ne. exact Hne.
  - intros _. simpl. apply lookup_insert_eq.
Qed.

Lemma makedirs_rev_spec (rp : list str) (w w' : world) (r : outcome unit) :
  makedirs_rev rp w = (r, w') ->
  adds_dirs (rev rp) w w' /\ (r = Ok tt -> fs w' !! rev rp = Some Dir).
Proof.
  revert w w' r. induction rp as [|x rhead IH]; intros w w' r H.
  - simpl in H. apply os_mkdir_spec in H. exact H.
  - cbn [makedirs_rev] in H. unfold bind in H.
    assert (Hpre : rev rhead `prefix_of` rev (x :: rhead))
      by (simpl; apply prefix_app_r; reflexivity).
    destruct (fs w !! rev rhead) as [n|] eqn:Eparent.
    + rewrite (os_path_exists_true _ _ _ Eparent) in H.
      unfold ret in H. apply os_mkdir_spec in H. exact H.
    + rewrite (os_path_exists_false _ _ Eparent) in H.
      unfold try_except in H.
      destruct (makedirs_rev rhead w) as [r1 w1] eqn:E1.
      apply IH in E1 as [Hadd _].
      apply (adds_dirs_weaken _ _ _ _ Hpre) in Hadd.
      destruct r1 as [[]|e].
      * destruct (os_mkdir (rev (x :: rhead)) w1) as [r2 w2] eqn:E2.
        injection H as <- <-. apply os_mkdir_spec in E2 as [Hadd2 Hok].
        split; [eapply adds_dirs_trans; eauto | exact Hok].
      * destruct (decide (e = FileExistsError)) as [->|Hne].
        -- unfold ret in H. simpl in H.
           change (rev rhead ++ [x]) with (rev (x :: rhead)) in H.
           apply os_mkdir_spec in H as [Hadd2 Hok].
           split; [eapply adds_dirs_trans; eauto | exact Hok].
        -- rewrite bool_decide_eq_false_2 in H by exact Hne.
           injection H as <- <-. split; [exact Hadd | discriminate].
Qed.

Lemma ensure_directory_spec (p : path) (w w' : world) (r : outcome unit) :
  ensure_directory p w = (r, w') ->
  adds_dirs p w w' /\ (r = Ok tt -> is_Some (fs w' !! p)).
Proof.
  unfold ensure_directory, bind. intros H.
  destruct (fs w !! p) as [n|] eqn:E.
  - rewrite (os_path_exists_true _ _ _ E) in H. injection H as <- <-.
    split; [apply adds_dirs_refl | intros _; rewrite E; eauto].
  - rewrite (os_path_exists_false _ _ E) in H. simpl in H.
    unfold os_makedirs in H. apply makedirs_rev_spec in H as [Hadd Hok].
    rewrite rev_involutive in Hadd. split; [exact Hadd|].
    intros Hr. specialize (Hok Hr). rewrite rev_involutive in Hok. eexists. exact Hok.
Qed.

(** A file the process makes is one it can read and write. *)
Lemma new_file_mode_owner (w : world) (t : Z) :
  readable {| st_mode := new_file_mode w; st_mtime := t |} = true
  /\ writable {| st_mode := new_file_mode w; st_mtime := t |} = true.
Proof.
  unfold readable, writable, new_file_mode. cbn [st_mode].
  rewrite !Z.land_spec, !Z.lnot_spec, !Z.land_spec by lia.
  split; cbn; rewrite andb_false_r; reflexivity.
Qed.

Lemma write_file_spec (p : path) (data : bytes) (w w' : world) (r : outcome unit) :
  write_file p data w = (r, w') ->
  match r with
  | Ok _ => exists m, w' = with_fs (<[p := File data m]> (fs w)) w
                      /\ fs w !! p <> Some Dir
  | Raise _ => w' = w
  end.
Proof.
  unfold write_file. intros H.
  destruct (fs w !! p) as [[d m|]|] eqn:Ep.
  - destruct (writable m); injection H as <- <-; [|reflexivity].
    eexists. split; [reflexivity | discriminate].
  - injection H as <- <-. reflexivity.
  - destruct (fs w !! removelast p) as [[|]|]; injection H as <- <-; try reflexivity.
    eexists. split; [reflexivity | discriminate].
Qed.

Lemma shutil_copy2_spec (src dst : path) (w w' : world) (r : outcome path) :
  shutil_copy2 src dst w = (r, w') ->
  match r with
  | Ok d => exists data m,
      fs w !! src = Some (File data m)
      /\ w' = with_fs (<[d := File data m]> (fs w)) w
      /\ (d = dst \/ (fs w !! dst = Some Dir /\ d = dst ++ [os_path_basename src]))
      /\ (fs w !! dst <> Some Dir -> d = dst)
  | Raise _ => w' = w
  end.
Proof.
  unfold shutil_copy2. intros H.
  set (dst' := match fs w !! dst with
               | Some Dir => dst ++ [os_path_basename src]
               | _ => dst
               end) in *.
  assert (Hd : (dst' = dst \/ (fs w !! dst = Some Dir /\ dst' = dst ++ [os_path_basename src]))
               /\ (fs w !! dst <> Some Dir -> dst' = dst)).
  { subst dst'. destruct (fs w !! dst) as [[|]|]; split; auto; congruence. }
  destruct (bool_decide (src = dst') && bool_decide (is_Some (fs w !! src))).
  { injection H as <- <-. reflexivity. }
  destruct (fs w !! src) as [[data m|]|] eqn:Es; try (injection H as <- <-; reflexivity).
  destruct (readable m); simpl in H; [|injection H as <- <-; reflexivity].
  destruct (write_file dst' data w) as [r1 w1] eqn:Ew.
  apply write_file_spec in Ew. destruct r1 as [[]|e]; injection H as <- <-.
  - destruct Ew as (m' & -> & _). exists data, m. repeat split; try tauto.
    unfold with_fs. simpl. rewrite insert_insert_eq. reflexivity.
  - exact Ew.
Qed.

Lemma backup_file_spec (F s b : path) (w w' : world) (r : outcome path) :
  backup_file F s b w = (r, w') ->
  let target := os_path_join b (os_path_relpath F s) in
  exists w0, adds_dirs (os_path_dirname target) w w0 /\
    match r with
    | Raise _ => w' = w0
    | Ok bp =>
        bp = target /\
        exists d data m,
          fs w0 !! F = Some (File data m)
          /\ w' = with_fs (<[d := File data m]> (fs w0)) w0
          /\ (d = target \/ (fs w0 !! target = Some Dir /\ d = target ++ [os_path_basename F]))
          /\ (fs w0 !! target <> Some Dir -> d = target)
    end.
Proof.
  intros H. cbv zeta. unfold backup_file, bind in H.
  set (target := os_path_join b (os_path_relpath F s)) in *.
  destruct (ensure_directory (os_path_dirname target) w) as [r0 w0] eqn:E0.
  apply ensure_directory_spec in E0 as [Hadd _]. exists w0. split; [exact Hadd|].
  destruct r0 as [[]|e]; [|injection H as <- <-; reflexivity].
  destruct (shutil_copy2 F target w0) as [r1 w1] eqn:E1.
  apply shutil_copy2_spec in E1.
  destruct r1 as [d|e]; injection H as <- <-; [|exact E1].
  split; [reflexivity|].
  destruct E1 as (data & m & Hsrc & Hw & Hd & Hd'). exists d, data, m. auto.
Qed.

(** ** The copy decision *)

Lemma py_ne_str_true (v : json) (s : str) : py_ne_str v s = true <-> v <> JStr s.
Proof.
  destruct v; simpl; try (split; [discriminate | reflexivity]).
  rewrite negb_true_iff, str_eqb_neq. split; congruence.
Qed.

Lemma needs_backup_spec (M : list (str * json)) (R h : str) (ex : bool) :
  (forall entry, dict_get R M = Some entry ->
                 exists hv, py_getitem entry (py "hash") = Ok hv) ->
  exists b, needs_backup (default JNull (dict_get R M)) h ex = Ok b
            /\ (b = true <-> must_copy M R h ex).
Proof.
  intros Hwf. unfold must_copy. destruct (dict_get R M) as [entry|] eqn:E; simpl.
  - destruct (Hwf entry eq_refl) as [hv Hhv].
    assert (Hnb : needs_backup entry h ex = Ok (py_ne_str hv h || negb ex)).
    { unfold needs_backup. rewrite Hhv. destruct entry; try reflexivity; discriminate. }
    eexists. split; [exact Hnb|].
    rewrite orb_true_iff, negb_true_iff, py_ne_str_true. split.
    + intros [Hne|Hex]; [|auto]. right; left. exists entry. split; [reflexivity|].
      rewrite Hhv. congruence.
    + intros [Hn|[(entry' & [= <-] & Hne)|Hex]]; [discriminate| |auto].
      left. rewrite Hhv in Hne. congruence.
  - exists true. split; [reflexivity|]. split; auto.
Qed.

Lemma calculate_file_hash_world (p : path) (n : Z) (w w' : world) (r : outcome str) :
  calculate_file_hash p n w = (r, w') -> w' = w.
Proof.
  unfold calculate_file_hash, bind, open_read, ret. intros H.
  destruct (fs w !! p) as [[d m|]|]; try (injection H as <- <-; reflexivity).
  destruct (readable m); [|injection H as <- <-; reflexivity].
  destruct (hash_loop _ _ _ _); injection H as <- <-; reflexivity.
Qed.

Lemma prefix_removelast_nonempty (p : path) : p <> [] -> ~ p `prefix_of` removelast p.
Proof.
  intros Hne Hp. apply prefix_length in Hp.
  destruct p as [|x p]; [congruence|].
  rewrite (app_removelast_last x (l := x :: p)) in Hp at 1 by discriminate.
  rewrite length_app in Hp. simpl in Hp. lia.
Qed.

(** C1, as the code has it.  A file under the source directory whose base
    name is not [manifest.json] is copied to [backup_dir/R] exactly when the
    loaded manifest has no entry for [R], or the entry records another
    fingerprint, or nothing exists at [backup_dir/R].  A copy that succeeds
    maps [R] to the new entry and counts the file as backed up; a copy that
    fails raises; otherwise the file is counted as skipped and nothing else
    changes. *)
Theorem backup_step_copy_rule
    (source_dir backup_dir root : path) (file_name : str)
    (M U : list (str * json)) (st : backup_locals) (w : world)
    (content : bytes) (m : metadata) :
  let F := os_path_join root file_name in
  let R := os_path_relpath F source_dir in
  let h := Sha256.sha256_hex content in
  let target := os_path_join backup_dir R in
  let copy := must_copy M R h (bool_decide (is_Some (fs w !! target))) in
  os_path_basename F <> MANIFEST_FILE_NAME ->
  fs w !! F = Some (File content m) ->
  readable m = true ->
  updated_manifest st = JObj U ->
  (forall entry, dict_get R M = Some entry ->
                 exists hv, py_getitem entry (py "hash") = Ok hv) ->
  (copy -> forall w1, backup_file F source_dir backup_dir w = (Ok target, w1) ->
     backup_step source_dir backup_dir (JObj M) root file_name st w
     = (Ok {| updated_manifest :=
                JObj (dict_set R (manifest_entry h (isoformat w1 (time w1)) (path_str target)) U);
              backed_up_files := backed_up_files st + 1;
              skipped_files := skipped_files st |},
        snd (print (py "[BACKUP] " ++ R) (snd (datetime_now_isoformat w1))))
     /\ (fs w !! target <> Some Dir -> target <> [] ->
         fs w1 !! target = Some (File content m)))
  /\ (copy -> forall e w1, backup_file F source_dir backup_dir w = (Raise e, w1) ->
        backup_step source_dir backup_dir (JObj M) root file_name st w = (Raise e, w1))
  /\ (~ copy ->
        backup_step source_dir backup_dir (JObj M) root file_name st w
        = (Ok {| updated_manifest := updated_manifest st;
                 backed_up_files := backed_up_files st;
                 skipped_files := skipped_files st + 1 |},
           snd (print (py "[SKIP] " ++ R) w))).
Proof.
  intros F R h target copy Hname Hfile Hread HU Hwf.
  destruct (needs_backup_spec M R h (bool_decide (is_Some (fs w !! target))) Hwf)
    as (b & Hnb & Hb).
  assert (Hstep : backup_step source_dir backup_dir (JObj M) root file_name st w
                  = process_file source_dir backup_dir (JObj M) F st w).
  { unfold backup_step. fold F. apply str_eqb_neq in Hname. rewrite Hname. reflexivity. }
  assert (Hproc : process_file source_dir backup_dir (JObj M) F st w
                  = (if b then
                       do backup_file_path <- backup_file F source_dir backup_dir;
                       do now <- datetime_now_isoformat;
                       do updated <- lift (py_setitem (updated_manifest st) R
                                             (manifest_entry h now (path_str backup_file_path)));
                       run print (py "[BACKUP] " ++ R);
                       ret {| updated_manifest := updated;
                              backed_up_files := backed_up_files st + 1;
                              skipped_files := skipped_files st |}
                     else
                       run print (py "[SKIP] " ++ R);
                       ret {| updated_manifest := updated_manifest st;
                              backed_up_files := backed_up_files st;
                              skipped_files := skipped_files st + 1 |}) w).
  { unfold process_file. unfold bind at 1.
    rewrite (calculate_file_hash_value w F content m 4096 Hfile Hread (default_chunk w)).
    fold h R. unfold bind at 1. unfold lift at 1. simpl py_get. fold target.
    unfold bind at 1. unfold os_path_exists at 1.
    unfold bind at 1. unfold lift at 1. rewrite Hnb. reflexivity. }
  rewrite Hstep, Hproc. clear Hstep Hproc. split; [|split].
  - intros Hc w1 Hcopy. apply Hb in Hc. subst b. split.
    + unfold bind at 1. rewrite Hcopy. rewrite HU. reflexivity.
    + intros Hnd Hne. apply backup_file_spec in Hcopy as (w0 & Hadd & _ & Hrest).
      destruct Hrest as (d & data & m' & Hsrc & -> & _ & Hd).
      fold R target in Hadd, Hd. destruct Hadd as (_ & _ & _ & Hfs).
      assert (Htgt : fs w0 !! target = fs w !! target).
      { destruct (Hfs target) as [E|(_ & _ & Hp)]; [exact E|].
        exfalso. eapply prefix_removelast_nonempty; eauto. }
      rewrite Htgt in Hd. rewrite (Hd Hnd). simpl. rewrite lookup_insert_eq.
      destruct (Hfs F) as [E|(E & _)]; congruence.
  - intros Hc e w1 Hcopy. apply Hb in Hc. subst b.
    unfold bind at 1. rewrite Hcopy. reflexivity.
  - intros Hc. destruct b; [exfalso; apply Hc, Hb; reflexivity | reflexivity].
Qed.

(** ** Paths built from directory entries *)

Lemma split_slash_no_slash (n : str) :
  forallb (fun c => negb (c =? 47)) n = true -> split_slash n = [n].
Proof.
  induction n as [|c n IH]; simpl; [reflexivity|].
  rewrite andb_true_iff, negb_true_iff. intros [Hc Hn].
  rewrite Hc, (IH Hn). reflexivity.
Qed.

Lemma split_slash_cons (n rest : str) :
  forallb (fun c => negb (c =? 47)) n = true ->
  split_slash (n ++ 47 :: rest) = n :: split_slash rest.
Proof.
  induction n as [|c n IH]; simpl; [reflexivity|].
  rewrite andb_true_iff, negb_true_iff. intros [Hc Hn].
  rewrite Hc, (IH Hn). reflexivity.
Qed.

Lemma split_slash_intercalate (rel : list (list Z)) :
  rel <> [] ->
  Forall (fun n => forallb (fun c => negb (c =? 47)) n = true) rel ->
  split_slash (intercalate_slash rel) = rel.
Proof.
  intros Hne Hall. induction Hall as [|n rel Hn Hall IH]; [congruence|].
  destruct rel as [|n' rel'].
  - simpl. apply split_slash_no_slash. exact Hn.
  - change (intercalate_slash (n :: n' :: rel'))
      with (n ++ 47 :: intercalate_slash (n' :: rel')).
    rewrite split_slash_cons by exact Hn. rewrite IH by discriminate. reflexivity.
Qed.

Lemma good_name_no_slash (n : str) :
  good_name n = true -> forallb (fun c => negb (c =? 47)) n = true.
Proof. unfold good_name. rewrite !andb_true_iff. tauto. Qed.

Lemma path_step_good (p : path) (n : str) : good_name n = true -> path_step p n = p ++ [n].
Proof.
  unfold good_name, path_step. rewrite !andb_true_iff, !negb_true_iff.
  intros [[[Hne _] Hdot] Hdd]. rewrite Hdot, Hdd.
  destruct n; [discriminate | reflexivity].
Qed.

Lemma fold_path_step_good (rel : list (list Z)) (p : path) :
  Forall (fun n => good_name n = true) rel -> fold_left path_step rel p = p ++ rel.
Proof.
  intros Hall. revert p. induction Hall as [|n rel Hn Hall IH]; intros p; simpl.
  - rewrite app_nil_r. reflexivity.
  - rewrite path_step_good by exact Hn. rewrite IH, <- app_assoc. reflexivity.
Qed.

Lemma intercalate_slash_head (rel : list (list Z)) :
  rel <> [] -> Forall (fun n => good_name n = true) rel ->
  exists c r, intercalate_slash rel = c :: r /\ c <> 47.
Proof.
  intros Hne Hall. destruct Hall as [|n rel Hn Hall]; [congruence|].
  pose proof (good_name_no_slash n Hn) as Hns.
  unfold good_name in Hn. rewrite !andb_true_iff, !negb_true_iff in Hn.
  destruct n as [|c n]; [destruct Hn as [[[? _] _] _]; discriminate|].
  simpl in Hns. rewrite andb_true_iff, negb_true_iff in Hns. destruct Hns as [Hc _].
  exists c. destruct rel; simpl; eexists; (split; [reflexivity | lia]).
Qed.

(** Joining a relative path made of directory entries appends them. *)
Lemma os_path_join_rel (base : path) (rel : list (list Z)) :
  rel <> [] -> Forall (fun n => good_name n = true) rel ->
  os_path_join base (intercalate_slash rel) = base ++ rel.
Proof.
  intros Hne Hall. unfold os_path_join.
  destruct (intercalate_slash_head rel Hne Hall) as (c & r & Hhd & Hc).
  rewrite split_slash_intercalate; [|exact Hne|].
  - rewrite Hhd. replace (c =? 47) with false by lia.
    apply fold_path_step_good. exact Hall.
  - eapply Forall_impl; [exact Hall|]. intros n. apply good_name_no_slash.
Qed.

Lemma os_path_join_good (root : path) (n : str) :
  good_name n = true -> os_path_join root n = root ++ [n].
Proof.
  intros Hn. apply (os_path_join_rel root [n]); [discriminate|]. constructor; auto.
Qed.

Lemma os_path_basename_snoc (p : path) (n : str) : os_path_basename (p ++ [n]) = n.
Proof. unfold os_path_basename. apply last_last. Qed.

Lemma common_prefix_length_app (s rel : path) : common_prefix_length s (s ++ rel) = length s.
Proof.
  induction s as [|x s IH]; simpl; [reflexivity|].
  rewrite str_eqb_refl, IH. reflexivity.
Qed.

(** The relative path of a file below [s] is its components, joined. *)
Lemma os_path_relpath_under (s rel : path) :
  rel <> [] -> os_path_relpath (s ++ rel) s = intercalate_slash rel.
Proof.
  intros Hne. unfold os_path_relpath. rewrite common_prefix_length_app.
  rewrite Nat.sub_diag, drop_app_length. simpl.
  destruct rel; [congruence | reflexivity].
Qed.

Lemma intercalate_slash_inj (a b : list (list Z)) :
  a <> [] -> b <> [] ->
  Forall (fun n => good_name n = true) a -> Forall (fun n => good_name n = true) b ->
  intercalate_slash a = intercalate_slash b -> a = b.
Proof.
  intros Ha Hb Hga Hgb Heq.
  rewrite <- (split_slash_intercalate a), <- (split_slash_intercalate b); auto.
  - rewrite Heq. reflexivity.
  - eapply Forall_impl; [exact Hgb|]. intros n. apply good_name_no_slash.
  - eapply Forall_impl; [exact Hga|]. intros n. apply good_name_no_slash.
Qed.

(** ** The reserved file name *)

Lemma for_each_filter {A S} (keep : A -> bool) (body : A -> S -> io S) (l : list A) :
  (forall x st w, keep x = false -> body x st w = (Ok st, w)) ->
  forall st w, for_each (List.filter keep l) body st w = for_each l body st w.
Proof.
  intros Hskip. induction l as [|x l IH]; intros st w; simpl; [reflexivity|].
  destruct (keep x) eqn:E; simpl; unfold bind.
  - destruct (body x st w) as [[st'|e] w']; [apply IH | reflexivity].
  - rewrite (Hskip x st w E). apply IH.
Qed.

Lemma backup_step_reserved (source_dir backup_dir root : path) (manifest : json)
    (st : backup_locals) (w : world) :
  backup_step source_dir backup_dir manifest root MANIFEST_FILE_NAME st w = (Ok st, w).
Proof.
  unfold backup_step. rewrite os_path_join_good by reflexivity.
  rewrite os_path_basename_snoc, str_eqb_refl. reflexivity.
Qed.

(** A listing with the files of the reserved name taken out gives the same
    loop. *)
Lemma backup_loop_without_reserved (source_dir backup_dir : path) (manifest : json)
    (walk : list (path * list str * list str)) (st : backup_locals) (w : world) :
  backup_loop source_dir backup_dir manifest (without_reserved walk) st w
  = backup_loop source_dir backup_dir manifest walk st w.
Proof.
  revert st w. unfold backup_loop.
  induction walk as [|[[r dirs] files] walk IH]; intros st w; simpl; [reflexivity|].
  unfold bind. rewrite for_each_filter.
  - destruct (for_each files _ st w) as [[st'|e] w']; [apply IH | reflexivity].
  - intros x st0 w0 Hx. apply negb_false_iff, str_eqb_eq in Hx. subst x.
    apply backup_step_reserved.
Qed.

(** ** Instances *)

Lemma calculate_file_hash_is_sha256_witness :
  calculate_file_hash [py "src"; py "a.txt"] 2 world_two_files
  = (Ok (Sha256.sha256_hex (py "hello")), world_two_files)
  /\ length (Sha256.sha256_hex (py "hello")) = 64%nat.
Proof.
  apply (calculate_file_hash_is_sha256 world_two_files [py "src"; py "a.txt"]
           (py "hello") rw_r_r 2);
    [vm_compute; reflexivity | reflexivity | split; [lia | vm_compute; discriminate]].
Defined.

(** C5 as stated fails on a chunk size of 2^63: it is positive, and the
    first [f.read] raises [OverflowError], so that no digest is returned. *)
Lemma calculate_file_hash_overflows :
  0 < 2 ^ 63
  /\ fs world_two_files !! [py "src"; py "a.txt"] = Some (File (py "hello") rw_r_r)
  /\ calculate_file_hash [py "src"; py "a.txt"] (2 ^ 63) world_two_files
     = (Raise OverflowError, world_two_files).
Proof.
  split; [lia|]. split; [vm_compute; reflexivity|].
  unfold calculate_file_hash, bind, open_read.
  replace (fs world_two_files !! [py "src"; py "a.txt"])
    with (Some (File (py "hello") rw_r_r)) by (vm_compute; reflexivity).
  cbn [readable rw_r_r st_mode]. simp hash_loop. reflexivity.
Qed.

(** C1 as stated fails on a file named [manifest.json]: it lies under the
    source directory, the loaded manifest has no entry for it, and the run
    neither copies it nor counts it, as backed up or as skipped. *)
Lemma reserved_name_is_not_copied :
  let res := scan_and_backup [py "src"] [py "bak"] [py "state"; py "backup.json"]
               world_reserved_name in
  fs world_reserved_name !! [py "src"; py "manifest.json"] = Some (File (py "data") rw_r_r)
  /\ load_manifest [py "state"; py "backup.json"] world_reserved_name
     = (Ok (JObj []), world_reserved_name)
  /\ fst res = Ok {| updated_manifest := JObj []; backed_up_files := 0; skipped_files := 0 |}
  /\ fs (snd res) !! [py "bak"; py "manifest.json"] = None.
Proof. repeat split; vm_compute; reflexivity. Qed.

Lemma backup_step_copy_rule_witness :
  let F := os_path_join [py "src"] (py "a.txt") in
  let R := os_path_relpath F [py "src"] in
  let h := Sha256.sha256_hex (py "hello") in
  let target := os_path_join [py "bak"] R in
  let w1 := snd (backup_file F [py "src"] [py "bak"] world_two_files) in
  backup_step [py "src"] [py "bak"] (JObj []) [py "src"] (py "a.txt") no_locals world_two_files
  = (Ok {| updated_manifest :=
             JObj (dict_set R (manifest_entry h (isoformat w1 (time w1)) (path_str target)) []);
           backed_up_files := backed_up_files no_locals + 1;
           skipped_files := skipped_files no_locals |},
     snd (print (py "[BACKUP] " ++ R) (snd (datetime_now_isoformat w1))))
  /\ fs w1 !! target = Some (File (py "hello") rw_r_r).
Proof.
  intros F R h target w1.
  destruct (backup_step_copy_rule [py "src"] [py "bak"] [py "src"] (py "a.txt")
              [] [] no_locals world_two_files (py "hello") rw_r_r) as (Hcopy & _ & _);
    [ vm_compute; congruence | vm_compute; reflexivity | reflexivity | reflexivity
    | intros entry; discriminate | ].
  destruct (Hcopy (or_introl eq_refl) w1 ltac:(vm_compute; reflexivity)) as [Hstep Hfile].
  split; [exact Hstep | apply Hfile; [vm_compute; congruence | discriminate]].
Defined.

(** ** The integrity verifier *)


Lemma print_fs (line : list Z) (w : world) : fs (snd (print line w)) = fs w.
Proof. reflexivity. Qed.

Lemma load_manifest_fs (mp : path) (w w' : world) (r : outcome json) :
  load_manifest mp w = (r, w') -> fs w' = fs w.
Proof.
  unfold load_manifest, bind, try_except. intros H.
  destruct (fs w !! mp) as [n|] eqn:Emp;
    [rewrite (os_path_exists_true _ _ _ Emp) in H
    |rewrite (os_path_exists_false _ _ Emp) in H; injection H as <- <-; reflexivity].
  simpl in H. unfold open_read in H. rewrite Emp in H.
  destruct n as [data m|]; simpl in H; [|injection H as <- <-; reflexivity].
  destruct (readable m); simpl in H; [|injection H as <- <-; reflexivity].
  unfold lift in H. destruct (f_read_text _) as [[text f1]|e]; simpl in H.
  - destruct (is_empty (strip text)); simpl in H; [injection H as <- <-; reflexivity|].
    destruct (json_load (f_seek0 f1)) as [v|e]; simpl in H; [injection H as <- <-; reflexivity|].
    destruct (bool_decide (e = JSONDecodeError)); injection H as <- <-; reflexivity.
  - destruct (bool_decide (e = JSONDecodeError)); injection H as <- <-; reflexivity.
Qed.












Lemma only_prints_print (line : list Z) : only_prints (print line).
Proof. intros w. split; reflexivity. Qed.


Lemma only_prints_bind (c k : io unit) :
  only_prints c -> only_prints k -> only_prints (bind c (fun _ => k)).
Proof.
  intros Hc Hk w. unfold bind. destruct (Hc w) as [H1 H2].
  destruct (c w) as [[[]|e] w1]; simpl in *; [|discriminate].
  destruct (Hk w1) as [H3 H4]. split; congruence.
Qed.





(** The lines a computation prints, one computation after the other. *)
Lemma emits_print (line : list Z) : emits (print line) [line].
Proof. intros w. reflexivity. Qed.

Lemma emits_ret : emits (ret tt) [].
Proof. intros w. unfold ret. rewrite app_nil_r. destruct w; reflexivity. Qed.

Lemma emits_bind (c k : io unit) (l1 l2 : list (list Z)) :
  emits c l1 -> emits k l2 -> emits (bind c (fun _ => k)) (l1 ++ l2).
Proof.
  intros Hc Hk w. unfold bind. rewrite Hc, Hk.
  cbn [fs stdout time isoformat elapsed umask memory].
  rewrite <- app_assoc. reflexivity.
Qed.

Lemma emits_for_each (pre : list Z) (l : list (list Z)) :
  emits (for_each l (fun i _ => print (pre ++ i)) tt) (List.map (app pre) l).
Proof.
  induction l as [|x l IH]; cbn [for_each List.map]; [apply emits_ret|].
  apply (emits_bind (print (pre ++ x)) _ [pre ++ x]); [apply emits_print | exact IH].
Qed.





Lemma load_manifest_unfold (mp : path) (w : world) :
  load_manifest mp w
  = (fst (read_manifest (fs w !! mp)),
     if snd (read_manifest (fs w !! mp)) then snd (print corrupted_warning w) else w).
Proof.
  unfold load_manifest, bind, try_except, read_manifest.
  destruct (fs w !! mp) as [n|] eqn:Emp;
    [rewrite (os_path_exists_true _ _ _ Emp)
    |rewrite (os_path_exists_false _ _ Emp); reflexivity].
  cbn [negb]. unfold open_read. rewrite Emp.
  destruct n as [data m|]; [|reflexivity].
  destruct (readable m); [|reflexivity].
  unfold lift, f_read_text, remaining. cbn [f_data f_pos]. rewrite drop_0.
  destruct (utf8_decode data) as [t|] eqn:Ed; [|reflexivity].
  cbv zeta. destruct (is_empty (strip (universal_newlines t))); [reflexivity|].
  unfold json_load, f_read_text, remaining, f_seek0. cbn [f_data f_pos].
  rewrite drop_0, Ed. destruct (json_loads (universal_newlines t)) as [v|e]; [reflexivity|].
  destruct (bool_decide (e = JSONDecodeError)); reflexivity.
Qed.

Lemma verify_step_world (s b : path) (item : list Z * json) (st : verify_locals)
    (w w' : world) (r : outcome verify_locals) :
  verify_step s b item st w = (r, w') -> w' = w.
Proof.
  destruct item as [R meta]. unfold verify_step, bind. cbv zeta.
  unfold os_path_exists. destruct (bool_decide _); cbn [negb].
  - destruct (calculate_file_hash _ 4096 w) as [[h|e] w1] eqn:Eh;
      apply calculate_file_hash_world in Eh; subst w1; [|intros [= <- <-]; reflexivity].
    unfold lift. destruct (py_getitem meta (py "hash")) as [hv|e];
      [|intros [= <- <-]; reflexivity].
    destruct (py_ne_str hv h); intros [= <- <-]; reflexivity.
  - intros [= <- <-]. reflexivity.
Qed.






(** ** The loop of the backup engine *)

Lemma for_each_app {A S} (body : A -> S -> io S) (l1 l2 : list A) (st : S) (w : world) :
  for_each (l1 ++ l2) body st w
  = match for_each l1 body st w with
    | (Ok st1, w1) => for_each l2 body st1 w1
    | (Raise e, w1) => (Raise e, w1)
    end.
Proof.
  revert st w. induction l1 as [|x l1 IH]; intros st w; simpl; [reflexivity|].
  unfold bind. destruct (body x st w) as [[st1|e] w1]; [apply IH | reflexivity].
Qed.

Lemma for_each_map {A B S} (f : A -> B) (body : B -> S -> io S) (l : list A) (st : S)
    (w : world) :
  for_each (List.map f l) body st w = for_each l (fun x => body (f x)) st w.
Proof.
  revert st w. induction l as [|x l IH]; intros st w; simpl; [reflexivity|].
  unfold bind. destruct (body (f x) st w) as [[st1|e] w1]; [apply IH | reflexivity].
Qed.

Lemma backup_loop_flat (s b : path) (manifest : json)
    (walk : list (list (list Z) * list (list Z) * list (list Z))) (st : backup_locals)
    (w : world) :
  backup_loop s b manifest walk st w
  = for_each (walked_files walk) (fun rf => backup_step s b manifest (fst rf) (snd rf)) st w.
Proof.
  unfold backup_loop. revert st w.
  induction walk as [|[[root dirs] files] walk IH]; intros st w; simpl; [reflexivity|].
  rewrite for_each_app, for_each_map. unfold bind. simpl.
  destruct (for_each files _ st w) as [[st1|e] w1]; [apply IH | reflexivity].
Qed.

Lemma for_each_invariant {A S} (body : A -> S -> io S) (I : S -> world -> Prop) (l : list A) :
  (forall x st w st' w', In x l -> I st w -> body x st w = (Ok st', w') -> I st' w') ->
  forall st w st' w', I st w -> for_each l body st w = (Ok st', w') -> I st' w'.
Proof.
  induction l as [|x l IH]; intros Hstep st w st' w' HI H; simpl in H.
  - injection H as <- <-. exact HI.
  - unfold bind in H. destruct (body x st w) as [[st1|e] w1] eqn:E; [|discriminate].
    eapply IH; [ | | exact H].
    + intros y st0 w0 st0' w0' Hy. apply Hstep. right. exact Hy.
    + eapply Hstep; [left; reflexivity | exact HI | exact E].
Qed.

Lemma needs_backup_false (prev : json) (h : list Z) (ex : bool) :
  needs_backup prev h ex = Ok false ->
  py_getitem prev (py "hash") = Ok (JStr h) /\ ex = true.
Proof.
  unfold needs_backup. intros H.
  destruct (py_getitem prev (py "hash")) as [hv|e] eqn:Ehv.
  - assert (Hb : py_ne_str hv h || negb ex = false) by (destruct prev; congruence).
    apply orb_false_iff in Hb as [Hne Hex]. apply negb_false_iff in Hex.
    split; [|exact Hex]. f_equal.
    destruct (decide (hv = JStr h)) as [|Hd]; [assumption|].
    apply py_ne_str_true in Hd. congruence.
  - destruct prev; discriminate.
Qed.

Lemma backup_step_done (s b : path) (manifest : json) (root : path) (name : list Z)
    (st st' : backup_locals) (w w' : world) :
  backup_step s b manifest root name st w = (Ok st', w') ->
  step_done s b manifest root name st w st' w'.
Proof.
  unfold backup_step. destruct (str_eqb _ MANIFEST_FILE_NAME) eqn:Ename.
  { intros [= <- <-]. apply step_ignored. apply str_eqb_eq. exact Ename. }
  apply str_eqb_neq in Ename. set (F := os_path_join root name) in *.
  unfold process_file, bind.
  destruct (fs w !! F) as [[content m|]|] eqn:EF;
    try (unfold calculate_file_hash, bind, open_read; rewrite EF; discriminate).
  destruct (readable m) eqn:Er;
    [|unfold calculate_file_hash, bind, open_read; rewrite EF, Er; discriminate].
  rewrite (calculate_file_hash_value w F content m 4096 EF Er (default_chunk w)).
  set (R := os_path_relpath F s). set (h := Sha256.sha256_hex content).
  unfold lift at 1. destruct manifest as [| | | | | |M]; try discriminate.
  cbn [py_get]. unfold os_path_exists.
  set (ex := bool_decide (is_Some (fs w !! os_path_join b R))).
  unfold lift at 1.
  destruct (needs_backup (default JNull (dict_get R M)) h ex) as [[|]|e] eqn:Enb;
    [| |discriminate].
  - destruct (backup_file F s b w) as [[bp|e] w1] eqn:Ebf; [|discriminate].
    pose proof (backup_file_spec _ _ _ _ _ _ Ebf) as (w0 & _ & Hbp & _).
    fold R in Hbp. subst bp.
    unfold datetime_now_isoformat at 1. unfold lift.
    destruct (updated_manifest st) as [| | | | | |U] eqn:EU; try discriminate.
    cbn [py_setitem]. intros [= <- <-].
    eapply (step_copied s b (JObj M) root name st w content m M U w1); eauto.
  - intros [= <- <-].
    apply needs_backup_false in Enb as [Hhash Hex].
    destruct (dict_get R M) as [entry|] eqn:Eentry; [|discriminate]. cbn [default] in Hhash.
    eapply (step_skipped s b (JObj M) root name st w content m M entry); eauto.
    subst ex. apply bool_decide_eq_true in Hex. exact Hex.
Qed.

Lemma print_summary_only_prints (s b : path) (st : backup_locals) (t0 t1 : nat) :
  only_prints (print_summary s b st t0 t1).
Proof.
  unfold print_summary.
  repeat first [ apply only_prints_bind | apply only_prints_print ].
  intros w. split; reflexivity.
Qed.

Lemma print_then (line : list Z) (k : io unit) (w : world) :
  bind (print line) (fun _ => k) w
  = k {| fs := fs w; stdout := stdout w ++ [line]; time := time w;
         isoformat := isoformat w; elapsed := elapsed w; umask := umask w;
         memory := memory w |}.
Proof. reflexivity. Qed.

(** The seven lines of the summary. *)
Lemma print_summary_lines (s b : path) (st : backup_locals) (t0 t1 : nat) (w : world) :
  print_summary s b st t0 t1 w
  = (Ok tt,
     {| fs := fs w;
        stdout := stdout w
                  ++ [10 :: py "=== Backup Summary ===";
                      py "Source directory : " ++ path_str s;
                      py "Backup directory : " ++ path_str b;
                      py "Total files scanned : "
                      ++ int_repr (backed_up_files st + skipped_files st);
                      py "Files backed up      : " ++ int_repr (backed_up_files st);
                      py "Files unchanged      : " ++ int_repr (skipped_files st);
                      py "Time taken (seconds) : " ++ elapsed w t0 t1];
        time := time w; isoformat := isoformat w;
        elapsed := elapsed w; umask := umask w; memory := memory w |}).
Proof.
  unfold print_summary.
  repeat (rewrite print_then; cbn [fs stdout time isoformat elapsed umask memory]).
  unfold print. cbn [fs stdout time isoformat elapsed umask memory].
  rewrite <- !(app_assoc (stdout w)). reflexivity.
Qed.

Lemma print_summary_fs (s b : path) (st : backup_locals) (t0 t1 : nat) (w : world) :
  fs (snd (print_summary s b st t0 t1 w)) = fs w.
Proof. rewrite print_summary_lines. reflexivity. Qed.

(** The stages of a run that ends well. *)
Lemma scan_and_backup_ok (s b mp : path) (w w' : world) (st : backup_locals) :
  scan_and_backup s b mp w = (Ok st, w') ->
  exists wa manifest wb updated wc wd,
    ensure_directory b w = (Ok tt, wa)
    /\ load_manifest mp wa = (Ok manifest, wb)
    /\ py_copy manifest = Ok updated
    /\ backup_loop s b manifest (walk_tree (fs wb) s)
         {| updated_manifest := updated; backed_up_files := 0; skipped_files := 0 |} wb
       = (Ok st, wc)
    /\ save_manifest mp (updated_manifest st) wc = (Ok tt, wd)
    /\ w' = snd (print_summary s b st (time wb) (time wd) wd).
Proof.
  unfold scan_and_backup, bind. intros H.
  destruct (ensure_directory b w) as [[[]|e] wa] eqn:E1; [|discriminate].
  destruct (load_manifest mp wa) as [[manifest|e] wb] eqn:E2; [|discriminate].
  unfold lift at 1 in H. destruct (py_copy manifest) as [updated|e] eqn:E3; [|discriminate].
  unfold time_time at 1, os_walk at 1 in H.
  destruct (backup_loop s b manifest _ _ wb) as [[st1|e] wc] eqn:E4; [|discriminate].
  destruct (save_manifest mp (updated_manifest st1) wc) as [[[]|e] wd] eqn:E5; [|discriminate].
  unfold time_time at 1 in H.
  destruct (print_summary_only_prints s b st1 (time wb) (time wd) wd) as [Hok _].
  destruct (print_summary s b st1 (time wb) (time wd) wd) as [[[]|e] we] eqn:E6;
    simpl in Hok; [|discriminate].
  unfold ret in H. injection H as <- <-.
  exists wa, manifest, wb, updated, wc, wd. rewrite E6. repeat split; auto.
Qed.

Lemma backup_file_stdout (F s b : path) (w w' : world) (r : outcome (list (list Z))) :
  backup_file F s b w = (r, w') ->
  stdout w' = stdout w /\ time w' = time w /\ isoformat w' = isoformat w.
Proof.
  intros H. apply backup_file_spec in H as (w0 & (Ho & Ht & Hi & _) & Hr).
  destruct r as [bp|e].
  - destruct Hr as (_ & d & data & m & _ & -> & _). simpl. auto.
  - subst w'. auto.
Qed.

Lemma save_manifest_spec (mp : path) (v : json) (w w' : world) :
  save_manifest mp v w = (Ok tt, w') ->
  exists data m, utf8_encode (json_dumps v) = Some data
                 /\ w' = with_fs (<[mp := File data m]> (fs w)) w
                 /\ fs w !! mp <> Some Dir.
Proof.
  unfold save_manifest. destruct (utf8_encode (json_dumps v)) as [data|]; [|discriminate].
  intros H. apply write_file_spec in H as (m & -> & Hnd). eauto.
Qed.

Lemma backup_line_inj (k R : list Z) : py "[BACKUP] " ++ k = py "[BACKUP] " ++ R -> k = R.
Proof. apply app_inv_head. Qed.

(** C4.  A run that ends well changes the manifest only under the relative
    paths it copied (those it printed a [[BACKUP]] line for): under every
    other key, skipped or no longer in the source tree, the entry is the one
    that was loaded, time of last backup included; no key is removed; and
    the manifest file holds the updated manifest. *)
Theorem backup_changes_only_copied_entries
    (s b mp : path) (w w' : world) (st : backup_locals) :
  scan_and_backup s b mp w = (Ok st, w') ->
  exists manifest lines data m,
    fst (load_manifest mp w) = Ok manifest
    /\ stdout w' = stdout w ++ lines
    /\ (forall k, ~ In (py "[BACKUP] " ++ k) lines ->
                  py_entry (updated_manifest st) k = py_entry manifest k)
    /\ (forall k, is_Some (py_entry manifest k) -> is_Some (py_entry (updated_manifest st) k))
    /\ utf8_encode (json_dumps (updated_manifest st)) = Some data
    /\ fs w' !! mp = Some (File data m).
Proof.
  intros Hrun.
  destruct (scan_and_backup_ok _ _ _ _ _ _ Hrun)
    as (wa & manifest & wb & updated & wc & wd & He & Hl & Hc & Hloop & Hsave & ->).
  assert (Hupd : updated = manifest) by (destruct manifest; simpl in Hc; congruence).
  subst updated.
  (* the manifest that was loaded is the one on disk at the start *)
  assert (Hload : fst (load_manifest mp w) = Ok manifest).
  { apply ensure_directory_spec in He as [(_ & _ & _ & Hadd) _].
    rewrite load_manifest_unfold in Hl |- *. cbn [fst]. injection Hl as Hl _.
    destruct (Hadd mp) as [E|(E1 & E2 & _)]; [rewrite <- E; exact Hl|].
    rewrite E2 in Hl. discriminate. }
  assert (Hout_a : stdout wa = stdout w)
    by (apply ensure_directory_spec in He as [(Ho & _) _]; exact Ho).
  assert (Hout_b : exists l0, stdout wb = stdout w ++ l0).
  { rewrite load_manifest_unfold in Hl. injection Hl as _ <-.
    destruct (snd (read_manifest (fs wa !! mp))); simpl; rewrite Hout_a;
      [eexists; reflexivity | exists []; rewrite app_nil_r; reflexivity]. }
  destruct Hout_b as [l0 Hout_b].
  (* the loop *)
  rewrite backup_loop_flat in Hloop.
  pose (I := fun (st0 : backup_locals) (w0 : world) =>
               exists l, stdout w0 = stdout wb ++ l
                         /\ (forall k, ~ In (py "[BACKUP] " ++ k) l ->
                                       py_entry (updated_manifest st0) k = py_entry manifest k)
                         /\ (forall k, is_Some (py_entry manifest k) ->
                                       is_Some (py_entry (updated_manifest st0) k))).
  assert (HI : I st wc).
  { eapply (for_each_invariant _ I); [| |exact Hloop].
    - intros [root name] st0 w0 st0' w0' _ (l & Hl0 & Hkeep & Hkeys) Hstep.
      apply backup_step_done in Hstep. cbn [fst snd] in Hstep.
      destruct Hstep as [Hname|content m0 M entry F R Hname HF Hr HM He0 Hh Hex
                        |content m0 M U w1 F R target Hname HF Hr HM HU Hbf].
      + exists l. auto.
      + exists (l ++ [py "[SKIP] " ++ R]). simpl. rewrite Hl0, <- app_assoc.
        split; [reflexivity|]. split; [|exact Hkeys].
        intros k Hk. apply Hkeep. intros Hin. apply Hk. apply in_or_app. auto.
      + exists (l ++ [py "[BACKUP] " ++ R]). simpl.
        destruct (backup_file_stdout _ _ _ _ _ _ Hbf) as (Ho & _). rewrite Ho, Hl0, <- app_assoc.
        split; [reflexivity|]. split.
        * intros k Hk.
          assert (Hne : R <> k).
          { intros <-. apply Hk. apply in_or_app. right. left. reflexivity. }
          rewrite (dict_get_set_ne _ _ _ _ Hne).
          specialize (Hkeep k). rewrite HU in Hkeep. apply Hkeep.
          intros Hin. apply Hk. apply in_or_app. auto.
        * intros k Hk. specialize (Hkeys k Hk). rewrite HU in Hkeys. simpl in Hkeys.
          destruct (decide (R = k)) as [<-|Hne].
          -- rewrite dict_get_set_eq. eauto.
          -- rewrite (dict_get_set_ne _ _ _ _ Hne). exact Hkeys.
    - exists []. rewrite app_nil_r. simpl. auto. }
  destruct HI as (l & Hout_c & Hkeep & Hkeys).
  apply save_manifest_spec in Hsave as (data & m & Henc & -> & _).
  set (wd := with_fs (<[mp := File data m]> (fs wc)) wc) in *.
  rewrite (print_summary_lines s b st (time wb) (time wd) wd). cbn [snd fs stdout].
  eexists manifest, (l0 ++ l ++ _), data, m.
  split; [exact Hload|]. split.
  { subst wd. cbn [with_fs stdout]. rewrite Hout_c, Hout_b, <- !app_assoc. reflexivity. }
  split.
  { intros k Hk. apply Hkeep. intros Hin. apply Hk.
    apply in_or_app. right. apply in_or_app. left. exact Hin. }
  split; [exact Hkeys|]. split; [exact Henc|].
  subst wd. cbn [with_fs fs]. apply lookup_insert_eq.
Qed.

(** ** What [os.walk] yields *)

Lemma subtree_lookup (f : gmap (list (list Z)) node) (top p : list (list Z)) (n : node) :
  subtree f top !! p = Some n <-> f !! p = Some n /\ top `prefix_of` p.
Proof. unfold subtree. rewrite map_lookup_filter_Some. reflexivity. Qed.

Lemma scandir_spec (f : gmap (list (list Z)) node) (top : list (list Z)) (name : list Z)
    (n : node) :
  In (name, n) (scandir f top) <-> f !! (top ++ [name]) = Some n.
Proof.
  unfold scandir. rewrite <- list_elem_of_In, list_elem_of_omap. split.
  - intros ([p n'] & Hin & Hsome). apply elem_of_map_to_list in Hin. simpl in Hsome.
    destruct (last p) as [name'|] eqn:El; [|discriminate].
    destruct (bool_decide (p = top ++ [name'])) eqn:Ep; [|discriminate].
    apply bool_decide_eq_true in Ep. injection Hsome as <- <-. subst p. exact Hin.
  - intros H. exists (top ++ [name], n). split; [apply elem_of_map_to_list; exact H|].
    simpl. rewrite last_snoc. rewrite bool_decide_eq_true_2 by reflexivity. reflexivity.
Qed.

Lemma walk_from_spec (fuel : nat) (f : gmap (list (list Z)) node) :
  forall top root dirs files,
    In (root, dirs, files) (walk_from fuel f top) ->
    top `prefix_of` root
    /\ forall name, In name files ->
                    exists data m, f !! (root ++ [name]) = Some (File data m).
Proof.
  induction fuel as [|fuel IH]; intros top root dirs files H; simpl in H; [contradiction|].
  destruct (f !! top) as [[|]|]; try contradiction.
  destruct H as [H|H].
  - injection H as <- <- <-. split; [reflexivity|].
    intros name Hin. apply in_map_iff in Hin as ([name' n] & Heq & Hf). simpl in Heq. subst name'.
    apply filter_In in Hf as [Hin Hfile]. apply scandir_spec in Hin.
    destruct n as [data m|]; [eauto | discriminate].
  - apply in_flat_map in H as (d & _ & H). apply IH in H as [Hp Hfiles].
    split; [|exact Hfiles]. etrans; [|exact Hp]. apply prefix_app_r. reflexivity.
Qed.

Lemma good_tree_lookup (f : gmap (list (list Z)) node) (top p : list (list Z)) (n : node) :
  good_tree f top = true -> f !! p = Some n -> top `prefix_of` p ->
  Forall (fun c => good_name c = true) (drop (length top) p).
Proof.
  unfold good_tree. rewrite forallb_forall. intros Hall Hp Hpre.
  specialize (Hall (p, n)). simpl in Hall.
  rewrite bool_decide_eq_true_2 in Hall by exact Hpre.
  apply Forall_forall. intros c Hc. apply list_elem_of_In in Hc.
  assert (H : forallb good_name (drop (length top) p) = true).
  { apply Hall. apply list_elem_of_In. apply elem_of_map_to_list. exact Hp. }
  rewrite forallb_forall in H. apply H. exact Hc.
Qed.

(** A file the loop meets: where it is, what it is called, what its
    relative path and its place in the backup are. *)
Lemma walked_file_paths (f : gmap (list (list Z)) node) (s b root : list (list Z))
    (name : list Z) :
  good_tree f s = true ->
  In (root, name) (walked_files (walk_tree f s)) ->
  exists rel data m,
    rel <> [] /\ Forall (fun c => good_name c = true) rel
    /\ os_path_join root name = s ++ rel
    /\ f !! (s ++ rel) = Some (File data m)
    /\ os_path_relpath (s ++ rel) s = intercalate_slash rel
    /\ os_path_join b (intercalate_slash rel) = b ++ rel
    /\ os_path_basename (s ++ rel) = name.
Proof.
  intros Hgood Hin. unfold walked_files in Hin.
  apply in_flat_map in Hin as ([[root' dirs] files] & Hw & Hin).
  apply in_map_iff in Hin as (name' & [= -> ->] & Hname).
  unfold walk_tree in Hw. apply walk_from_spec in Hw as [[ds ->] Hfiles].
  destruct (Hfiles name Hname) as (data & m & Hfile).
  apply subtree_lookup in Hfile as [Hfile Hpre].
  pose proof (good_tree_lookup f s _ _ Hgood Hfile Hpre) as Hg.
  rewrite <- app_assoc, drop_app_length in Hg.
  assert (Hn : good_name name = true).
  { apply Forall_app in Hg as [_ Hn]. inversion Hn; assumption. }
  exists (ds ++ [name]), data, m.
  assert (Hne : ds ++ [name] <> []) by (destruct ds; discriminate).
  repeat split.
  - exact Hne.
  - exact Hg.
  - rewrite os_path_join_good by exact Hn. rewrite app_assoc. reflexivity.
  - rewrite app_assoc. exact Hfile.
  - apply os_path_relpath_under. exact Hne.
  - apply os_path_join_rel; assumption.
  - rewrite app_assoc. apply os_path_basename_snoc.
Qed.

(** ** What a step writes *)

(** A copy touches the file system at its target, below it, or above it. *)
Lemma backup_file_frame (F s b : list (list Z)) (w w' : world) (r : outcome (list (list Z))) :
  backup_file F s b w = (r, w') ->
  forall q, fs w' !! q = fs w !! q
            \/ q `prefix_of` os_path_join b (os_path_relpath F s)
            \/ os_path_join b (os_path_relpath F s) `prefix_of` q.
Proof.
  intros H q. apply backup_file_spec in H as (w0 & (_ & _ & _ & Hadd) & Hr).
  set (target := os_path_join b (os_path_relpath F s)) in *.
  assert (H0 : fs w0 !! q = fs w !! q \/ q `prefix_of` target).
  { destruct (Hadd q) as [E|(_ & _ & Hp)]; [left; exact E | right].
    etrans; [exact Hp|]. unfold os_path_dirname.
    destruct (decide (target = [])) as [->|Hne]; [reflexivity|].
    rewrite (app_removelast_last [] Hne) at 2. apply prefix_app_r. reflexivity. }
  destruct r as [bp|e]; [|subst w'; tauto].
  destruct Hr as (_ & d & data & m & _ & -> & Hd & _). simpl.
  destruct (decide (d = q)) as [<-|Hne].
  - right. right. destruct Hd as [->|[_ ->]]; [reflexivity | apply prefix_app_r; reflexivity].
  - rewrite lookup_insert_ne by exact Hne. tauto.
Qed.

Lemma backup_file_exists (F s b : list (list Z)) (w w' : world) (r : outcome (list (list Z))) :
  backup_file F s b w = (r, w') ->
  (forall q, is_Some (fs w !! q) -> is_Some (fs w' !! q))
  /\ (forall bp, r = Ok bp -> is_Some (fs w' !! os_path_join b (os_path_relpath F s))).
Proof.
  intros H. apply backup_file_spec in H as (w0 & (_ & _ & _ & Hadd) & Hr).
  set (target := os_path_join b (os_path_relpath F s)) in *.
  assert (H0 : forall q, is_Some (fs w !! q) -> is_Some (fs w0 !! q)).
  { intros q Hq. destruct (Hadd q) as [E|(E & _)]; [rewrite E; exact Hq|].
    rewrite E in Hq. destruct Hq; discriminate. }
  destruct r as [bp|e]; [|subst w'; split; [exact H0 | discriminate]].
  destruct Hr as (_ & d & data & m & _ & -> & Hd & _). simpl. split.
  - intros q Hq. destruct (decide (d = q)) as [<-|Hne].
    + rewrite lookup_insert_eq. eauto.
    + rewrite lookup_insert_ne by exact Hne. auto.
  - intros _ _. destruct Hd as [->|[Hdir ->]].
    + rewrite lookup_insert_eq. eauto.
    + rewrite lookup_insert_ne.
      * rewrite Hdir. eauto.
      * intros Heq. apply (f_equal length) in Heq. rewrite length_app in Heq.
        simpl in Heq. lia.
Qed.

Lemma prefix_both (a b l : list (list Z)) :
  a `prefix_of` l -> b `prefix_of` l -> a `prefix_of` b \/ b `prefix_of` a.
Proof. apply prefix_weak_total. Qed.


Lemma step_done_exists (s b : list (list Z)) (manifest : json) (root : list (list Z))
    (name : list Z) (st st' : backup_locals) (w w' : world) :
  step_done s b manifest root name st w st' w' ->
  forall q, is_Some (fs w !! q) -> is_Some (fs w' !! q).
Proof.
  intros [Hname|content m0 M entry F R Hname HF Hr HM He0 Hh Hex
         |content m0 M U w1 F R target Hname HF Hr HM HU Hbf] q Hq.
  - exact Hq.
  - exact Hq.
  - simpl. eapply backup_file_exists; eauto.
Qed.



Lemma backup_changes_only_copied_entries_witness :
  let res := scan_and_backup [py "src"] [py "bak"] [py "manifest.json"] world_stale in
  exists manifest lines data m,
    fst (load_manifest [py "manifest.json"] world_stale) = Ok manifest
    /\ stdout (snd res) = stdout world_stale ++ lines
    /\ (forall k, ~ In (py "[BACKUP] " ++ k) lines ->
                  py_entry (updated_manifest (the no_locals (fst res))) k = py_entry manifest k)
    /\ (forall k, is_Some (py_entry manifest k) ->
                  is_Some (py_entry (updated_manifest (the no_locals (fst res))) k))
    /\ utf8_encode (json_dumps (updated_manifest (the no_locals (fst res)))) = Some data
    /\ fs (snd res) !! [py "manifest.json"] = Some (File data m).
Proof.
  cbv zeta.
  apply (backup_changes_only_copied_entries [py "src"] [py "bak"] [py "manifest.json"]
           world_stale).
  vm_compute. reflexivity.
Defined.






(** ** Texts survive [json.dumps] and [json.loads] *)

Lemma lor_add (a x : Z) : 0 <= x < 1024 -> Z.lor (a * 1024) x = a * 1024 + x.
Proof.
  intros Hx.
  assert (Hland : Z.land (a * 1024) x = 0).
  { apply Z.bits_inj'. intros i Hi. rewrite Z.land_spec, Z.bits_0.
    change 1024 with (2 ^ 10). destruct (Z.lt_ge_cases i 10) as [Hlt|Hge].
    - rewrite Z.mul_pow2_bits_low by lia. reflexivity.
    - destruct (Z.eq_dec x 0) as [->|Hx0]; [rewrite Z.bits_0; apply andb_false_r|].
      rewrite (Z.bits_above_log2 x i); [apply andb_false_r | lia |].
      assert (Z.log2 x < 10) by (apply Z.log2_lt_pow2; lia). lia. }
  rewrite <- Z.lxor_lor by exact Hland. symmetry. apply Z.add_nocarry_lxor. exact Hland.
Qed.

Lemma hex_val_hex_digit (d : Z) : 0 <= d < 16 -> hex_val (Sha256.hex_digit d) = Some d.
Proof.
  intros Hd. unfold hex_val, is_digit, Sha256.hex_digit.
  destruct (Z.ltb_spec d 10).
  - replace (48 <=? 48 + d) with true by lia. replace (48 + d <=? 57) with true by lia.
    simpl. f_equal. lia.
  - replace (48 <=? 87 + d) with true by lia. replace (87 + d <=? 57) with false by lia.
    replace (97 <=? 87 + d) with true by lia. replace (87 + d <=? 102) with true by lia.
    simpl. f_equal. lia.
Qed.

Lemma hex4_val_hex4 (u : Z) :
  0 <= u < 65536 ->
  exists a b c d, hex4 u = [a; b; c; d] /\ hex4_val a b c d = Some u.
Proof.
  intros Hu. unfold hex4. cbn [List.map]. do 4 eexists. split; [reflexivity|].
  unfold hex4_val. rewrite !Z.shiftr_div_pow2 by lia.
  change (2 ^ (4 * Z.of_nat 3)) with 4096. change (2 ^ (4 * Z.of_nat 2)) with 256.
  change (2 ^ (4 * Z.of_nat 1)) with 16. change (2 ^ (4 * Z.of_nat 0)) with 1.
  rewrite !hex_val_hex_digit by (apply Z.mod_pos_bound; lia).
  f_equal. rewrite Z.div_1_r. Z.div_mod_to_equations. lia.
Qed.

Lemma scan_string_u4 (a b c d u : Z) (tail : list Z) :
  hex4_val a b c d = Some u -> is_high_surrogate u = false ->
  scan_string (92 :: 117 :: a :: b :: c :: d :: tail) = prepend u (scan_string tail).
Proof.
  intros Hv Hh. cbn [scan_string]. change (92 =? 34) with false. change (92 =? 92) with true.
  change (117 =? 117) with true. cbv iota. rewrite Hv.
  destruct tail as [|b0 [|e2 [|l1 [|l2 [|l3 [|l4 r3]]]]]]; try reflexivity.
  destruct (hex4_val l1 l2 l3 l4); [rewrite Hh|]; reflexivity.
Qed.

Lemma scan_string_pair (a b c d a' b' c' d' hi lo : Z) (tail : list Z) :
  hex4_val a b c d = Some hi -> hex4_val a' b' c' d' = Some lo ->
  is_high_surrogate hi = true -> is_low_surrogate lo = true ->
  scan_string (92 :: 117 :: a :: b :: c :: d :: 92 :: 117 :: a' :: b' :: c' :: d' :: tail)
  = prepend (65536 + Z.lor (Z.shiftl (hi - 55296) 10) (lo - 56320)) (scan_string tail).
Proof.
  intros Hv Hv' Hh Hl. cbn [scan_string]. change (92 =? 34) with false.
  change (92 =? 92) with true. change (117 =? 117) with true. cbv iota.
  rewrite Hv, Hv', Hh, Hl. reflexivity.
Qed.

Lemma scan_string_escape (c : Z) (tail : list Z) :
  char_ok c = true ->
  scan_string (escape_char c ++ tail) = prepend c (scan_string tail).
Proof.
  unfold char_ok. rewrite !andb_true_iff, negb_true_iff, !Z.leb_le. intros [[H0 Hmax] Hhigh].
  unfold escape_char.
  destruct (Z.eqb_spec c 34) as [->|N34]; [reflexivity|].
  destruct (Z.eqb_spec c 92) as [->|N92]; [reflexivity|].
  destruct ((32 <=? c) && (c <=? 126)) eqn:Eprint.
  { apply andb_true_iff in Eprint as [H32 _]. apply Z.leb_le in H32.
    cbn [app scan_string].
    replace (c =? 34) with false by lia. replace (c =? 92) with false by lia.
    replace (c <? 32) with false by lia. reflexivity. }
  destruct (Z.eqb_spec c 10) as [->|N10]; [reflexivity|].
  destruct (Z.eqb_spec c 13) as [->|N13]; [reflexivity|].
  destruct (Z.eqb_spec c 9) as [->|N9]; [reflexivity|].
  destruct (Z.eqb_spec c 8) as [->|N8]; [reflexivity|].
  destruct (Z.eqb_spec c 12) as [->|N12]; [reflexivity|].
  destruct (Z.ltb_spec c 65536) as [Hlt|Hge].
  - destruct (hex4_val_hex4 c ltac:(lia)) as (a & b & c' & d & -> & Hv).
    cbn [app]. apply scan_string_u4; assumption.
  - set (n := c - 65536).
    assert (Hn : 0 <= n < 1048576) by (subst n; lia).
    assert (Ehi : Z.lor 55296 (Z.land (Z.shiftr n 10) 1023) = 55296 + n / 1024).
    { rewrite Z.shiftr_div_pow2 by lia. change (2 ^ 10) with 1024.
      change 1023 with (Z.ones 10). rewrite Z.land_ones by lia. change (2 ^ 10) with 1024.
      rewrite Z.mod_small by (Z.div_mod_to_equations; lia).
      change 55296 with (54 * 1024). apply lor_add. Z.div_mod_to_equations. lia. }
    assert (Elo : Z.lor 56320 (Z.land n 1023) = 56320 + n mod 1024).
    { change 1023 with (Z.ones 10). rewrite Z.land_ones by lia. change (2 ^ 10) with 1024.
      change 56320 with (55 * 1024). apply lor_add. apply Z.mod_pos_bound. lia. }
    rewrite Ehi, Elo.
    destruct (hex4_val_hex4 (55296 + n / 1024) ltac:(Z.div_mod_to_equations; lia))
      as (a & b & c' & d & -> & Hv).
    destruct (hex4_val_hex4 (56320 + n mod 1024) ltac:(Z.div_mod_to_equations; lia))
      as (a' & b' & c'' & d' & -> & Hv').
    cbn [app]. rewrite (scan_string_pair _ _ _ _ _ _ _ _ _ _ tail Hv Hv').
    + f_equal.
      replace (55296 + n / 1024 - 55296) with (n / 1024) by lia.
      replace (56320 + n mod 1024 - 56320) with (n mod 1024) by lia.
      rewrite Z.shiftl_mul_pow2 by lia. change (2 ^ 10) with 1024.
      rewrite lor_add by (apply Z.mod_pos_bound; lia).
      subst n. Z.div_mod_to_equations. lia.
    + unfold is_high_surrogate. apply andb_true_iff. rewrite !Z.leb_le.
      Z.div_mod_to_equations. lia.
    + unfold is_low_surrogate. apply andb_true_iff. rewrite !Z.leb_le.
      Z.div_mod_to_equations. lia.
Qed.

Lemma scan_string_lone (a b c d u : Z) (tail : list Z) :
  hex4_val a b c d = Some u -> low_escape_ahead tail = false ->
  scan_string (92 :: 117 :: a :: b :: c :: d :: tail) = prepend u (scan_string tail).
Proof.
  intros Hv Hl. cbn [scan_string]. change (92 =? 34) with false. change (92 =? 92) with true.
  change (117 =? 117) with true. cbv iota. rewrite Hv.
  destruct tail as [|b0 [|e2 [|l1 [|l2 [|l3 [|l4 r3]]]]]]; try reflexivity.
  cbn [low_escape_ahead] in Hl. destruct (hex4_val l1 l2 l3 l4) as [u2|]; [|reflexivity].
  replace (is_high_surrogate u && (b0 =? 92) && (e2 =? 117) && is_low_surrogate u2)
    with false; [reflexivity|].
  destruct (is_high_surrogate u); [|reflexivity]. cbn [andb]. symmetry. exact Hl.
Qed.

Lemma low_escape_ahead_head (c0 c1 : Z) (t : list Z) :
  (c0 =? 92) && (c1 =? 117) = false -> low_escape_ahead (c0 :: c1 :: t) = false.
Proof.
  intros H. destruct t as [|l1 [|l2 [|l3 [|l4 r3]]]]; try reflexivity.
  cbn [low_escape_ahead]. destruct (hex4_val l1 l2 l3 l4); [|reflexivity].
  rewrite H. reflexivity.
Qed.

Lemma low_escape_ahead_first (c0 : Z) (t : list Z) :
  (c0 =? 92) = false -> low_escape_ahead (c0 :: t) = false.
Proof.
  intros H. destruct t as [|c1 t]; [reflexivity|].
  apply low_escape_ahead_head. rewrite H. reflexivity.
Qed.

Lemma low_escape_ahead_u4 (a b c d u : Z) (t : list Z) :
  hex4_val a b c d = Some u -> is_low_surrogate u = false ->
  low_escape_ahead (92 :: 117 :: a :: b :: c :: d :: t) = false.
Proof. intros Hv Hl. cbn [low_escape_ahead]. rewrite Hv, Hl. reflexivity. Qed.

(** What [escape_char] writes for a character that is not a second half
    does not read as an escaped second half. *)
Lemma low_escape_ahead_escape (c : Z) (t : list Z) :
  0 <= c <= 1114111 -> is_low_surrogate c = false ->
  low_escape_ahead (escape_char c ++ t) = false.
Proof.
  intros Hc Hlow. unfold escape_char.
  destruct (Z.eqb_spec c 34) as [->|N34]; [apply low_escape_ahead_head; reflexivity|].
  destruct (Z.eqb_spec c 92) as [->|N92]; [apply low_escape_ahead_head; reflexivity|].
  destruct ((32 <=? c) && (c <=? 126)) eqn:Eprint.
  { apply low_escape_ahead_first. apply Z.eqb_neq. exact N92. }
  destruct (Z.eqb_spec c 10) as [->|N10]; [apply low_escape_ahead_head; reflexivity|].
  destruct (Z.eqb_spec c 13) as [->|N13]; [apply low_escape_ahead_head; reflexivity|].
  destruct (Z.eqb_spec c 9) as [->|N9]; [apply low_escape_ahead_head; reflexivity|].
  destruct (Z.eqb_spec c 8) as [->|N8]; [apply low_escape_ahead_head; reflexivity|].
  destruct (Z.eqb_spec c 12) as [->|N12]; [apply low_escape_ahead_head; reflexivity|].
  destruct (Z.ltb_spec c 65536) as [Hlt|Hge].
  - destruct (hex4_val_hex4 c ltac:(lia)) as (a & b & c' & d & -> & Hv).
    cbn [app]. exact (low_escape_ahead_u4 _ _ _ _ _ _ Hv Hlow).
  - set (n := c - 65536).
    assert (Hn : 0 <= n < 1048576) by (subst n; lia).
    assert (Ehi : Z.lor 55296 (Z.land (Z.shiftr n 10) 1023) = 55296 + n / 1024).
    { rewrite Z.shiftr_div_pow2 by lia. change (2 ^ 10) with 1024.
      change 1023 with (Z.ones 10). rewrite Z.land_ones by lia. change (2 ^ 10) with 1024.
      rewrite Z.mod_small by (Z.div_mod_to_equations; lia).
      change 55296 with (54 * 1024). apply lor_add. Z.div_mod_to_equations. lia. }
    rewrite Ehi.
    destruct (hex4_val_hex4 (55296 + n / 1024) ltac:(Z.div_mod_to_equations; lia))
      as (a & b & c' & d & -> & Hv).
    cbn [app]. apply (low_escape_ahead_u4 _ _ _ _ _ _ Hv).
    unfold is_low_surrogate. apply andb_false_iff. left. apply Z.leb_gt.
    Z.div_mod_to_equations. lia.
Qed.

Lemma escape_char_high (c : Z) :
  is_high_surrogate c = true -> escape_char c = 92 :: 117 :: hex4 c.
Proof.
  unfold is_high_surrogate. intros H. apply andb_true_iff in H as [H1 H2].
  apply Z.leb_le in H1, H2. unfold escape_char.
  replace (c =? 34) with false by lia. replace (c =? 92) with false by lia.
  replace ((32 <=? c) && (c <=? 126)) with false by lia.
  replace (c =? 10) with false by lia. replace (c =? 13) with false by lia.
  replace (c =? 9) with false by lia. replace (c =? 8) with false by lia.
  replace (c =? 12) with false by lia. replace (c <? 65536) with true by lia.
  reflexivity.
Qed.

Lemma scan_string_encoded (s rest : list Z) :
  text_ok s = true ->
  scan_string (flat_map escape_char s ++ 34 :: rest) = Some (s, rest).
Proof.
  induction s as [|c s IH]; intros Hok; [reflexivity|].
  cbn [text_ok] in Hok. apply andb_true_iff in Hok as [Hok Hs].
  apply andb_true_iff in Hok as [Hrange Hpair].
  cbn [flat_map]. rewrite <- app_assoc.
  destruct (is_high_surrogate c) eqn:Eh.
  - rewrite (escape_char_high c Eh).
    assert (Hc : 0 <= c < 65536).
    { unfold is_high_surrogate in Eh. apply andb_true_iff in Eh as [H1 H2].
      apply Z.leb_le in H1, H2. lia. }
    destruct (hex4_val_hex4 c Hc) as (a & b & c' & d & -> & Hv). cbn [app].
    rewrite (scan_string_lone _ _ _ _ _ _ Hv); [rewrite (IH Hs); reflexivity|].
    destruct s as [|d0 s'].
    + apply low_escape_ahead_first. reflexivity.
    + cbn [flat_map]. rewrite <- app_assoc. cbn [andb negb] in Hpair.
      apply negb_true_iff in Hpair.
      cbn [text_ok] in Hs. apply andb_true_iff in Hs as [Hs _].
      apply andb_true_iff in Hs as [Hs _]. apply andb_true_iff in Hs as [H0 H1].
      apply Z.leb_le in H0, H1. apply low_escape_ahead_escape; [lia | exact Hpair].
  - rewrite scan_string_escape by (unfold char_ok; rewrite Hrange, Eh; reflexivity).
    rewrite (IH Hs). reflexivity.
Qed.

(** ** Values survive [json.dumps] and [json.loads] *)

Lemma json_nested_ind (P : json -> Prop) :
  P JNull -> (forall b, P (JBool b)) -> (forall n, P (JInt n)) ->
  (forall l, P (JFloat l)) -> (forall s, P (JStr s)) ->
  (forall items, Forall P items -> P (JArr items)) ->
  (forall fields, Forall (fun kv => P (snd kv)) fields -> P (JObj fields)) ->
  forall v, P v.
Proof.
  intros Hnull Hbool Hint Hfloat Hstr Harr Hobj. fix IH 1. intros v.
  destruct v as [|b|n|l|s|items|fields].
  - exact Hnull.
  - apply Hbool.
  - apply Hint.
  - apply Hfloat.
  - apply Hstr.
  - apply Harr. induction items as [|x items IHi]; constructor; [apply IH | exact IHi].
  - apply Hobj. induction fields as [|[k x] fields IHf]; constructor; [apply IH | exact IHf].
Qed.

Lemma skip_ws_spaces (n : nat) (t : list Z) : skip_ws (repeat 32 n ++ t) = skip_ws t.
Proof. induction n as [|n IH]; [reflexivity | exact IH]. Qed.

Lemma skip_ws_newline_indent (level : nat) (t : list Z) :
  skip_ws (newline_indent level ++ t) = skip_ws t.
Proof. unfold newline_indent. cbn [app skip_ws is_json_ws]. apply skip_ws_spaces. Qed.

Lemma dumps_head (level : nat) (v : json) :
  json_wf v = true -> exists c r, dumps level v = c :: r /\ opens_value c.
Proof.
  unfold opens_value. destruct v as [|[|]|n|l|s|items|fields]; simpl; try discriminate;
    intros _; try (do 2 eexists; split; [reflexivity | tauto]).
  - destruct items; simpl; do 2 eexists; (split; [reflexivity | tauto]).
  - destruct fields; simpl; do 2 eexists; (split; [reflexivity | tauto]).
Qed.

Lemma skip_ws_value (c : Z) (r : list Z) : opens_value c -> skip_ws (c :: r) = c :: r.
Proof.
  unfold opens_value. intros H.
  repeat (destruct H as [H|H]; [subst c; reflexivity|]). subst c. reflexivity.
Qed.

Lemma dumps_array (level : nat) (x : json) (xs : list json) (rest : list Z) :
  dumps level (JArr (x :: xs)) ++ rest
  = 91 :: newline_indent (S level) ++ dumps (S level) x ++ elements_tail level xs rest.
Proof.
  unfold elements_tail. cbn [dumps is_empty List.map join_items].
  repeat (rewrite <- app_assoc || rewrite <- app_comm_cons).
  cbn [app]. repeat (rewrite <- app_assoc || rewrite <- app_comm_cons). reflexivity.
Qed.

Lemma dumps_object (level : nat) (k : list Z) (x : json) (more : list (list Z * json))
    (rest : list Z) :
  dumps level (JObj ((k, x) :: more)) ++ rest
  = 123 :: newline_indent (S level)
        ++ 34 :: flat_map escape_char k
        ++ 34 :: 58 :: 32 :: dumps (S level) x ++ members_tail level more rest.
Proof.
  unfold members_tail, member_text. cbn [dumps is_empty List.map join_items fst snd].
  unfold encode_string. repeat (rewrite <- app_assoc || rewrite <- app_comm_cons).
  cbn [app]. repeat (rewrite <- app_assoc || rewrite <- app_comm_cons). reflexivity.
Qed.

Lemma parse_elements_S (f : nat) (s : list Z) (acc : list json) :
  parse_elements (S f) s acc
  = match parse_value f s with
    | Parsed v r =>
        match skip_ws r with
        | c :: r1 =>
            if c =? 93 then Parsed (JArr (rev (v :: acc))) r1
            else if c =? 44 then parse_elements f (skip_ws r1) (v :: acc)
            else Invalid
        | [] => Invalid
        end
    | Invalid => Invalid
    | Overlong => Overlong
    | Exhausted => Exhausted
    end.
Proof. reflexivity. Qed.

Lemma parse_members_S (f : nat) (s : list Z) (acc : list (list Z * json)) :
  parse_members (S f) s acc
  = match scan_string s with
    | None => Invalid
    | Some (key, r) =>
        match skip_ws r with
        | c :: r1 =>
            if c =? 58 then
              match parse_value f (skip_ws r1) with
              | Parsed v r2 =>
                  match skip_ws r2 with
                  | c2 :: r3 =>
                      if c2 =? 125 then Parsed (JObj (make_dict (rev ((key, v) :: acc)))) r3
                      else if c2 =? 44 then
                        match skip_ws r3 with
                        | c3 :: r4 =>
                            if c3 =? 34 then parse_members f r4 ((key, v) :: acc)
                            else Invalid
                        | [] => Invalid
                        end
                      else Invalid
                  | [] => Invalid
                  end
              | Invalid => Invalid
              | Overlong => Overlong
              | Exhausted => Exhausted
              end
            else Invalid
        | [] => Invalid
        end
    end.
Proof. reflexivity. Qed.

Lemma skip_ws_dumps (level : nat) (v : json) (t : list Z) :
  json_wf v = true -> skip_ws (dumps level v ++ t) = dumps level v ++ t.
Proof.
  intros Hwf. destruct (dumps_head level v Hwf) as (c & r & -> & Hc).
  apply (skip_ws_value c (r ++ t) Hc).
Qed.

Lemma elements_tail_cons (level : nat) (y : json) (ys : list json) (rest : list Z) :
  elements_tail level (y :: ys) rest
  = 44 :: newline_indent (S level) ++ dumps (S level) y ++ elements_tail level ys rest.
Proof.
  unfold elements_tail. cbn [List.map flat_map].
  repeat (rewrite <- app_assoc || rewrite <- app_comm_cons). reflexivity.
Qed.

Lemma members_tail_cons (level : nat) (k : list Z) (x : json) (more : list (list Z * json))
    (rest : list Z) :
  members_tail level ((k, x) :: more) rest
  = 44 :: newline_indent (S level)
       ++ 34 :: flat_map escape_char k
       ++ 34 :: 58 :: 32 :: dumps (S level) x ++ members_tail level more rest.
Proof.
  unfold members_tail, member_text, encode_string. cbn [List.map flat_map fst snd].
  repeat (rewrite <- app_assoc || rewrite <- app_comm_cons).
  cbn [app]. repeat (rewrite <- app_assoc || rewrite <- app_comm_cons). reflexivity.
Qed.

Lemma skip_ws_other (c : Z) (r : list Z) : is_json_ws c = false -> skip_ws (c :: r) = c :: r.
Proof. intros H. cbn [skip_ws]. rewrite H. reflexivity. Qed.

Lemma parse_elements_dumps (level : nat) (rest : list Z) (xs : list json) :
  forall x acc fuel,
    Forall round_trips (x :: xs) ->
    forallb json_wf (x :: xs) = true ->
    (list_sum (List.map (fun y => S (json_size y)) (x :: xs)) <= fuel)%nat ->
    parse_elements fuel (dumps (S level) x ++ elements_tail level xs rest) acc
    = Parsed (JArr (rev acc ++ x :: xs)) rest.
Proof.
  induction xs as [|y ys IH]; intros x acc fuel Hrt Hwf Hfuel;
    apply Forall_cons in Hrt as [Hx Hrt];
    cbn [forallb] in Hwf; apply andb_true_iff in Hwf as [Hwx Hwf];
    cbn [List.map list_sum fold_right] in Hfuel;
    (destruct fuel as [|f]; [lia|]);
    rewrite parse_elements_S, (Hx Hwx (S level) f _ ltac:(lia)).
  - unfold elements_tail. cbn [List.map flat_map app].
    rewrite skip_ws_newline_indent, (skip_ws_other 93) by reflexivity.
    change (93 =? 93) with true. cbv iota. cbn [rev]. reflexivity.
  - rewrite elements_tail_cons, (skip_ws_other 44) by reflexivity.
    change (44 =? 93) with false. change (44 =? 44) with true. cbv iota.
    rewrite skip_ws_newline_indent.
    cbn [forallb] in Hwf. pose proof Hwf as Hwf'. apply andb_true_iff in Hwf' as [Hwy _].
    rewrite skip_ws_dumps by exact Hwy.
    rewrite (IH y (x :: acc) f Hrt Hwf ltac:(cbn [List.map list_sum fold_right]; lia)).
    cbn [rev]. rewrite <- app_assoc. reflexivity.
Qed.

Lemma parse_members_dumps (level : nat) (rest : list Z) (more : list (list Z * json)) :
  forall k x acc fuel,
    Forall (fun kv => round_trips (snd kv)) ((k, x) :: more) ->
    forallb (fun kv => text_ok (fst kv) && json_wf (snd kv)) ((k, x) :: more) = true ->
    (list_sum (List.map (fun kv => S (json_size (snd kv))) ((k, x) :: more)) <= fuel)%nat ->
    parse_members fuel
      (flat_map escape_char k ++ 34 :: 58 :: 32 :: dumps (S level) x
       ++ members_tail level more rest) acc
    = Parsed (JObj (make_dict (rev acc ++ (k, x) :: more))) rest.
Proof.
  induction more as [|[k' x'] more IH]; intros k x acc fuel Hrt Hwf Hfuel;
    apply Forall_cons in Hrt as [Hx Hrt]; cbn [snd] in Hx;
    cbn [forallb fst snd] in Hwf; apply andb_true_iff in Hwf as [Hwx Hwf];
    apply andb_true_iff in Hwx as [Hk Hwx];
    cbn [List.map list_sum fold_right snd] in Hfuel;
    (destruct fuel as [|f]; [lia|]);
    rewrite parse_members_S, (scan_string_encoded k _ Hk);
    rewrite (skip_ws_other 58) by reflexivity;
    change (58 =? 58) with true; cbv iota;
    change (skip_ws (32 :: ?t)) with (skip_ws t);
    rewrite (skip_ws_dumps _ _ _ Hwx), (Hx Hwx (S level) f _ ltac:(lia)).
  - unfold members_tail. cbn [List.map flat_map app].
    rewrite skip_ws_newline_indent, (skip_ws_other 125) by reflexivity.
    change (125 =? 125) with true. cbv iota. cbn [rev]. reflexivity.
  - rewrite members_tail_cons, (skip_ws_other 44) by reflexivity.
    change (44 =? 125) with false. change (44 =? 44) with true. cbv iota.
    rewrite skip_ws_newline_indent, (skip_ws_other 34) by reflexivity.
    change (34 =? 34) with true. cbv iota.
    rewrite (IH k' x' ((k, x) :: acc) f Hrt Hwf
               ltac:(cbn [List.map list_sum fold_right snd]; lia)).
    cbn [rev]. rewrite <- app_assoc. reflexivity.
Qed.

Lemma opens_value_not (c d : Z) : opens_value c -> d = 93 \/ d = 125 -> (c =? d) = false.
Proof. unfold opens_value. intros Hc Hd. apply Z.eqb_neq. lia. Qed.

Lemma parse_value_array (f : nat) (t u : list Z) :
  skip_ws t = u -> (exists c r, u = c :: r /\ opens_value c) ->
  parse_value (S f) (91 :: t) = parse_elements f u [].
Proof.
  intros Hs (c & r & -> & Hc). cbn [parse_value].
  change (91 =? 34) with false. change (91 =? 123) with false.
  change (91 =? 91) with true. cbv iota. rewrite Hs.
  rewrite (opens_value_not c 93 Hc) by tauto. reflexivity.
Qed.

Lemma parse_value_object (f : nat) (t u : list Z) :
  skip_ws t = 34 :: u -> parse_value (S f) (123 :: t) = parse_members f u [].
Proof.
  intros Hs. cbn [parse_value].
  change (123 =? 34) with false. change (123 =? 123) with true. cbv iota. rewrite Hs.
  reflexivity.
Qed.

Lemma dumps_round_trips (v : json) : round_trips v.
Proof.
  induction v as [|b|n|l|s|items IH|fields IH] using json_nested_ind;
    intros Hwf level fuel rest Hfuel; try discriminate Hwf;
    (destruct fuel as [|f]; [cbn [json_size] in Hfuel; lia|]).
  - reflexivity.
  - destruct b; reflexivity.
  - cbn [dumps]. unfold encode_string.
    rewrite <- app_comm_cons, <- app_assoc. cbn [parse_value app].
    change (34 =? 34) with true. cbv iota.
    rewrite (scan_string_encoded s rest Hwf). reflexivity.
  - destruct items as [|x xs]; [reflexivity|].
    cbn [json_wf] in Hwf. cbn [json_size] in Hfuel.
    pose proof Hwf as Hwf'. cbn [forallb] in Hwf'. apply andb_true_iff in Hwf' as [Hwx _].
    rewrite dumps_array.
    rewrite (parse_value_array f _ (dumps (S level) x ++ elements_tail level xs rest)).
    + apply (parse_elements_dumps level rest xs x [] f IH Hwf). lia.
    + rewrite skip_ws_newline_indent. apply skip_ws_dumps. exact Hwx.
    + destruct (dumps_head (S level) x Hwx) as (c & r & E & Hc).
      exists c, (r ++ elements_tail level xs rest). rewrite E. split; [reflexivity | exact Hc].
  - destruct fields as [|[k x] more]; [reflexivity|].
    cbn [json_wf] in Hwf. apply andb_true_iff in Hwf as [Hwf Hnd].
    apply bool_decide_eq_true in Hnd. cbn [json_size] in Hfuel.
    rewrite dumps_object.
    rewrite (parse_value_object f _
               (flat_map escape_char k ++ 34 :: 58 :: 32 :: dumps (S level) x
                ++ members_tail level more rest)).
    + rewrite (parse_members_dumps level rest more k x [] f IH Hwf) by lia.
      cbn [rev app]. rewrite (make_dict_id _ Hnd). reflexivity.
    + rewrite skip_ws_newline_indent. apply skip_ws_other. reflexivity.
Qed.

(** ** The text of a manifest is plain ASCII *)

Lemma hex_digit_plain (d : Z) : 0 <= d < 16 -> 32 <= Sha256.hex_digit d <= 126.
Proof. intros H. unfold Sha256.hex_digit. destruct (d <? 10) eqn:E; lia. Qed.

Lemma hex4_plain (n : Z) : plain_text (hex4 n).
Proof.
  unfold plain_text, hex4. cbn [List.map].
  repeat (constructor; [right; apply hex_digit_plain; apply Z.mod_pos_bound; lia|]).
  constructor.
Qed.

Lemma escape_char_plain (c : Z) : plain_text (escape_char c).
Proof.
  unfold escape_char.
  repeat match goal with
         | |- plain_text (if ?b then _ else _) => destruct b eqn:?
         end;
    try (unfold plain_text; repeat (constructor; [lia|]); constructor; fail).
  - unfold plain_text. constructor; [lia|]. constructor; [lia|]. apply hex4_plain.
  - cbv zeta. unfold plain_text. apply Forall_app. split.
    + constructor; [lia|]. constructor; [lia|]. apply hex4_plain.
    + constructor; [lia|]. constructor; [lia|]. apply hex4_plain.
Qed.

Lemma encode_string_plain (s : list Z) : plain_text (encode_string s).
Proof.
  unfold plain_text, encode_string. constructor; [lia|]. apply Forall_app. split.
  - induction s as [|c s IH]; cbn [flat_map]; [constructor|].
    apply Forall_app. split; [apply escape_char_plain | exact IH].
  - constructor; [lia | constructor].
Qed.

Lemma newline_indent_plain (level : nat) : plain_text (newline_indent level).
Proof.
  unfold plain_text, newline_indent. constructor; [lia|].
  induction (4 * level)%nat as [|n IH]; cbn [repeat]; constructor; [lia | exact IH].
Qed.

Lemma join_items_plain (level : nat) (items : list (list Z)) :
  Forall plain_text items -> plain_text (join_items level items).
Proof.
  intros H. destruct H as [|x xs Hx Hxs]; [constructor|].
  cbn [join_items]. apply Forall_app. split; [exact Hx|].
  induction Hxs as [|y ys Hy Hys IH]; cbn [flat_map]; [constructor|].
  constructor; [lia|]. apply Forall_app. split; [|exact IH].
  apply Forall_app. split; [apply newline_indent_plain | exact Hy].
Qed.

Lemma dumps_plain (v : json) : json_wf v = true -> forall level, plain_text (dumps level v).
Proof.
  induction v as [|b|n|l|s|items IH|fields IH] using json_nested_ind;
    intros Hwf level; try discriminate Hwf.
  - unfold plain_text. cbn. repeat (constructor; [lia|]). constructor.
  - unfold plain_text. destruct b; cbn; repeat (constructor; [lia|]); constructor.
  - apply encode_string_plain.
  - destruct items as [|x xs].
    + unfold plain_text. cbn. repeat (constructor; [lia|]). constructor.
    + change (plain_text (91 :: newline_indent (S level)
                ++ join_items (S level) (List.map (dumps (S level)) (x :: xs))
                ++ newline_indent level ++ [93])).
      constructor; [lia|]. apply Forall_app_2; [apply newline_indent_plain|].
      apply Forall_app_2; [|apply Forall_app_2; [apply newline_indent_plain|]].
      * apply join_items_plain. apply Forall_map.
        cbn [json_wf] in Hwf. rewrite forallb_forall in Hwf.
        rewrite Forall_forall in IH. apply Forall_forall. intros y Hy.
        apply (IH y Hy). apply Hwf. apply list_elem_of_In. exact Hy.
      * constructor; [lia | constructor].
  - destruct fields as [|kx more].
    + unfold plain_text. cbn. repeat (constructor; [lia|]). constructor.
    + change (plain_text (123 :: newline_indent (S level)
                ++ join_items (S level) (List.map (member_text (S level)) (kx :: more))
                ++ newline_indent level ++ [125])).
      constructor; [lia|]. apply Forall_app_2; [apply newline_indent_plain|].
      apply Forall_app_2; [|apply Forall_app_2; [apply newline_indent_plain|]].
      * apply join_items_plain. apply Forall_map.
        cbn [json_wf] in Hwf. apply andb_true_iff in Hwf as [Hwf _].
        rewrite forallb_forall in Hwf.
        rewrite Forall_forall in IH. apply Forall_forall. intros y Hy.
        unfold member_text. apply Forall_app_2; [apply encode_string_plain|].
        constructor; [lia|]. constructor; [lia|].
        apply (IH y Hy). apply list_elem_of_In, Hwf, andb_true_iff in Hy as [_ Hy]. exact Hy.
      * constructor; [lia | constructor].
Qed.

Lemma utf8_encode_plain (s : list Z) : plain_text s -> utf8_encode s = Some s.
Proof.
  induction 1 as [|c s Hc _ IH]; [reflexivity|].
  cbn [utf8_encode]. rewrite IH. unfold utf8_encode_char.
  replace ((0 <=? c) && (c <? 128)) with true by lia. reflexivity.
Qed.

Lemma utf8_decode_plain (s : list Z) : plain_text s -> utf8_decode s = Some s.
Proof.
  induction 1 as [|c s Hc _ IH]; [reflexivity|].
  cbn [utf8_decode]. rewrite IH.
  replace ((0 <=? c) && (c <? 128)) with true by lia. reflexivity.
Qed.

Lemma universal_newlines_plain (s : list Z) : plain_text s -> universal_newlines s = s.
Proof.
  induction 1 as [|c s Hc _ IH]; [reflexivity|].
  cbn [universal_newlines]. rewrite IH.
  replace (c =? 13) with false by lia. reflexivity.
Qed.

Lemma lstrip_In (c : Z) (s : list Z) : py_isspace c = false -> In c s -> In c (lstrip s).
Proof.
  intros Hc. induction s as [|a s IH]; intros Hin; [exact Hin|].
  cbn [lstrip]. destruct (py_isspace a) eqn:Ea; [|exact Hin].
  destruct Hin as [->|Hin]; [congruence | exact (IH Hin)].
Qed.

Lemma strip_In (c : Z) (s : list Z) : py_isspace c = false -> In c s -> In c (strip s).
Proof.
  intros Hc Hin. unfold strip. apply in_rev. rewrite rev_involutive.
  apply lstrip_In; [exact Hc|]. apply in_rev. rewrite rev_involutive.
  apply lstrip_In; [exact Hc | exact Hin].
Qed.

(** ** The decoder has fuel for the text of a value *)

Lemma elements_tail_length (level : nat) (xs : list json) (rest : list Z) :
  Forall (fun x => forall l, (json_size x <= length (dumps l x))%nat) xs ->
  (list_sum (List.map (fun y => S (json_size y)) xs)
   < length (elements_tail level xs rest))%nat.
Proof.
  induction 1 as [|y ys Hy _ IH].
  - unfold elements_tail. cbn [List.map flat_map list_sum fold_right app newline_indent].
    cbn [length]. lia.
  - rewrite elements_tail_cons. unfold list_sum in *. cbn [List.map fold_right length].
    rewrite !length_app. specialize (Hy (S level)). lia.
Qed.

Lemma members_tail_length (level : nat) (more : list (list Z * json)) (rest : list Z) :
  Forall (fun kv => forall l, (json_size (snd kv) <= length (dumps l (snd kv)))%nat) more ->
  (list_sum (List.map (fun kv => S (json_size (snd kv))) more)
   < length (members_tail level more rest))%nat.
Proof.
  induction 1 as [|[k y] ys Hy _ IH].
  - unfold members_tail. cbn [List.map flat_map list_sum fold_right app newline_indent].
    cbn [length]. lia.
  - rewrite members_tail_cons. unfold list_sum in *.
    cbn [List.map fold_right length snd] in *. rewrite !length_app. cbn [length].
    rewrite !length_app. cbn [length]. rewrite !length_app.
    specialize (Hy (S level)). lia.
Qed.

Lemma json_size_dumps (v : json) :
  json_wf v = true -> forall level, (json_size v <= length (dumps level v))%nat.
Proof.
  induction v as [|b|n|l|s|items IH|fields IH] using json_nested_ind;
    intros Hwf level; try discriminate Hwf.
  - cbn. lia.
  - destruct b; cbn; lia.
  - cbn [json_size dumps encode_string length]. lia.
  - destruct items as [|x xs]; [cbn; lia|].
    assert (G : Forall (fun x => forall l, (json_size x <= length (dumps l x))%nat) (x :: xs)).
    { cbn [json_wf] in Hwf. rewrite forallb_forall in Hwf.
      rewrite Forall_forall in IH. apply Forall_forall. intros y Hy l.
      apply (IH y Hy). apply Hwf, list_elem_of_In, Hy. }
    apply Forall_cons in G as [Gx Gxs].
    rewrite <- (app_nil_r (dumps level (JArr (x :: xs)))), dumps_array.
    pose proof (elements_tail_length level xs [] Gxs) as Ht.
    cbn [json_size List.map length]. unfold list_sum in *. cbn [fold_right].
    rewrite !length_app. specialize (Gx (S level)). lia.
  - destruct fields as [|[k x] more]; [cbn; lia|].
    assert (G : Forall (fun kv => forall l, (json_size (snd kv) <= length (dumps l (snd kv)))%nat)
                       ((k, x) :: more)).
    { cbn [json_wf] in Hwf. apply andb_true_iff in Hwf as [Hwf _].
      rewrite forallb_forall in Hwf.
      rewrite Forall_forall in IH. apply Forall_forall. intros y Hy l.
      apply (IH y Hy). apply list_elem_of_In, Hwf, andb_true_iff in Hy as [_ Hy]. exact Hy. }
    apply Forall_cons in G as [Gx Gxs]. cbn [snd] in Gx.
    rewrite <- (app_nil_r (dumps level (JObj ((k, x) :: more)))), dumps_object.
    pose proof (members_tail_length level more [] Gxs) as Ht.
    cbn [json_size List.map length snd]. unfold list_sum in *. cbn [fold_right].
    rewrite !length_app. cbn [length]. rewrite !length_app. cbn [length]. rewrite !length_app.
    specialize (Gx (S level)). lia.
Qed.

Lemma json_loads_dumps (v : json) : json_wf v = true -> json_loads (json_dumps v) = Ok v.
Proof.
  intros Hwf. unfold json_loads, json_dumps.
  pose proof (skip_ws_dumps 0 v [] Hwf) as Hs. rewrite app_nil_r in Hs. rewrite Hs.
  rewrite <- (app_nil_r (dumps 0 v)) at 2.
  rewrite (dumps_round_trips v Hwf 0%nat _ []); [reflexivity|].
  pose proof (json_size_dumps v Hwf 0%nat). lia.
Qed.

(** ** The manifest store returns what it was given *)

Lemma write_file_modes (p : path) (data : bytes) (w w1 : world) :
  (forall d m, fs w !! p = Some (File d m) -> readable m = true) ->
  write_file p data w = (Ok tt, w1) ->
  exists m, readable m = true /\ writable m = true
            /\ w1 = with_fs (<[p := File data m]> (fs w)) w.
Proof.
  unfold write_file. intros Hr H.
  destruct (fs w !! p) as [[d m|]|] eqn:Ep.
  - destruct (writable m) eqn:Ew; [|discriminate]. injection H as <-.
    eexists. split; [|split; [|reflexivity]]; [exact (Hr d m eq_refl) | exact Ew].
  - discriminate.
  - destruct (fs w !! removelast p) as [[|]|]; try discriminate. injection H as <-.
    eexists. split; [|split; [|reflexivity]]; apply new_file_mode_owner.
Qed.

Lemma opens_value_not_space (c : Z) : opens_value c -> py_isspace c = false.
Proof.
  unfold opens_value. intros H.
  repeat (destruct H as [H|H]; [subst c; reflexivity|]). subst c. reflexivity.
Qed.

(** A readable file that holds the text of a value loads as the value. *)
Lemma load_manifest_dumped (mp : path) (v : json) (m : metadata) (w : world) :
  json_wf v = true ->
  fs w !! mp = Some (File (json_dumps v) m) -> readable m = true ->
  load_manifest mp w = (Ok v, w).
Proof.
  intros Hwf Hfile Hm.
  pose proof (dumps_plain v Hwf 0%nat) as Hplain. fold (json_dumps v) in Hplain.
  rewrite (load_manifest_text _ _ _ _ Hfile Hm (json_dumps v) (utf8_decode_plain _ Hplain)).
  - rewrite (universal_newlines_plain _ Hplain), (json_loads_dumps _ Hwf). reflexivity.
  - rewrite (universal_newlines_plain _ Hplain). intros Hs.
    destruct (dumps_head 0 v Hwf) as (c & r & E & Hc). fold (json_dumps v) in E.
    assert (Hin : In c (strip (json_dumps v))).
    { apply strip_In; [exact (opens_value_not_space c Hc)|]. rewrite E. left. reflexivity. }
    rewrite Hs in Hin. exact Hin.
Qed.

Lemma save_manifest_wf (mp : path) (v : json) (w w1 : world) :
  json_wf v = true ->
  (forall d m, fs w !! mp = Some (File d m) -> readable m = true) ->
  save_manifest mp v w = (Ok tt, w1) ->
  exists m, readable m = true /\ writable m = true
            /\ w1 = with_fs (<[mp := File (json_dumps v) m]> (fs w)) w.
Proof.
  intros Hwf Hr Hsave. unfold save_manifest in Hsave.
  pose proof (dumps_plain v Hwf 0%nat) as Hplain. fold (json_dumps v) in Hplain.
  rewrite (utf8_encode_plain _ Hplain) in Hsave.
  exact (write_file_modes _ _ _ _ Hr Hsave).
Qed.

(** Two code points that form a surrogate pair come back as one. *)
Lemma surrogate_pair_is_joined :
  json_loads (json_dumps (JStr [55357; 56832])) = Ok (JStr [128512]).
Proof. vm_compute. reflexivity. Qed.

(** C6.  Loading what was saved gives the manifest back.  For every manifest
    [M] made of dictionaries with distinct keys, lists, texts, [None] and
    booleans (the mapping from relative path to the three text fields that
    the program records is of this kind), in whose texts no first half of a
    surrogate pair is directly followed by a second half: when
    [save_manifest] has written [M] to a path whose file, if there was one,
    could be read, [load_manifest] on that path returns [M], prints no
    warning and leaves the world as it is. *)
Theorem load_after_save_is_identity
    (manifest_path : path) (M : list (list Z * json)) (w w1 : world) :
  json_wf (JObj M) = true ->
  (forall d m, fs w !! manifest_path = Some (File d m) -> readable m = true) ->
  save_manifest manifest_path (JObj M) w = (Ok tt, w1) ->
  load_manifest manifest_path w1 = (Ok (JObj M), w1)
  /\ exists m, fs w1 !! manifest_path = Some (File (json_dumps (JObj M)) m).
Proof.
  intros Hwf Hr Hsave.
  destruct (save_manifest_wf _ _ _ _ Hwf Hr Hsave) as (m & Hm & _ & ->).
  assert (Hfile : fs (with_fs (<[manifest_path := File (json_dumps (JObj M)) m]> (fs w)) w)
                  !! manifest_path = Some (File (json_dumps (JObj M)) m))
    by apply lookup_insert_eq.
  split; [|exists m; exact Hfile].
  exact (load_manifest_dumped _ _ _ _ Hwf Hfile Hm).
Qed.

Lemma load_after_save_is_identity_witness :
  let mp := [py "manifest.json"] in
  let w1 := snd (save_manifest mp (JObj sample_manifest) world_stale) in
  load_manifest mp w1 = (Ok (JObj sample_manifest), w1)
  /\ exists m, fs w1 !! mp = Some (File (json_dumps (JObj sample_manifest)) m).
Proof.
  cbv zeta.
  apply (load_after_save_is_identity [py "manifest.json"] sample_manifest world_stale).
  - vm_compute. reflexivity.
  - intros d m H. vm_compute in H. injection H as _ <-. reflexivity.
  - vm_compute. reflexivity.
Defined.

(** ** A second run *)

Lemma backup_step_skips (s b root : path) (name : list Z) (U : list (list Z * json))
    (st : backup_locals) (w : world) (content : list Z) (m : metadata) (entry : json) :
  let F := os_path_join root name in
  let R := os_path_relpath F s in
  os_path_basename F <> MANIFEST_FILE_NAME ->
  fs w !! F = Some (File content m) -> readable m = true ->
  dict_get R U = Some entry ->
  py_getitem entry (py "hash") = Ok (JStr (Sha256.sha256_hex content)) ->
  is_Some (fs w !! os_path_join b R) ->
  backup_step s b (JObj U) root name st w
  = (Ok {| updated_manifest := updated_manifest st;
           backed_up_files := backed_up_files st;
           skipped_files := skipped_files st + 1 |},
     snd (print (py "[SKIP] " ++ R) w)).
Proof.
  intros F R Hname Hfile Hread He Hh Hex.
  unfold backup_step. fold F. apply str_eqb_neq in Hname. rewrite Hname.
  unfold process_file. unfold bind at 1.
  rewrite (calculate_file_hash_value w F content m 4096 Hfile Hread (default_chunk w)).
  fold R. unfold bind at 1. unfold lift at 1. simpl py_get. rewrite He. cbn [default].
  unfold bind at 1. unfold os_path_exists at 1. rewrite bool_decide_eq_true_2 by exact Hex.
  unfold bind at 1. unfold lift at 1.
  assert (Hnb : needs_backup entry (Sha256.sha256_hex content) true = Ok false).
  { unfold needs_backup. rewrite Hh.
    destruct (py_ne_str (JStr (Sha256.sha256_hex content)) (Sha256.sha256_hex content)) eqn:E.
    - apply py_ne_str_true in E. congruence.
    - destruct entry; try discriminate Hh. reflexivity. }
  unfold id. rewrite Hnb. reflexivity.
Qed.

Lemma subtree_same (f f' : gmap (list (list Z)) node) (s : list (list Z)) :
  (forall q, s `prefix_of` q -> f' !! q = f !! q) -> subtree f' s = subtree f s.
Proof.
  intros H. apply map_eq. intros q. apply option_eq. intros n.
  rewrite !subtree_lookup. split; intros [Hq Hp]; (split; [|exact Hp]).
  - rewrite <- (H q Hp). exact Hq.
  - rewrite (H q Hp). exact Hq.
Qed.

Lemma walk_tree_same (f f' : gmap (list (list Z)) node) (s : list (list Z)) :
  (forall q, s `prefix_of` q -> f' !! q = f !! q) -> walk_tree f' s = walk_tree f s.
Proof. intros H. unfold walk_tree. rewrite (subtree_same f f' s H). reflexivity. Qed.

Lemma good_tree_same (f f' : gmap (list (list Z)) node) (s : list (list Z)) :
  (forall q, s `prefix_of` q -> f' !! q = f !! q) ->
  good_tree f s = true -> good_tree f' s = true.
Proof.
  unfold good_tree. rewrite !forallb_forall. intros H Hall [p n] Hin. cbn [fst].
  destruct (bool_decide (s `prefix_of` p)) eqn:Ep; [|reflexivity].
  apply bool_decide_eq_true in Ep.
  apply list_elem_of_In, elem_of_map_to_list in Hin. rewrite (H p Ep) in Hin.
  specialize (Hall (p, n)). cbn [fst] in Hall.
  rewrite bool_decide_eq_true_2 in Hall by exact Ep.
  apply Hall. apply list_elem_of_In, elem_of_map_to_list. exact Hin.
Qed.

(** A run counts every file it does not ignore, once. *)
Lemma backup_loop_counts (s b : list (list Z)) (manifest : json)
    (l : list (list (list Z) * list Z)) :
  forall st w st' w',
    for_each l (fun rf => backup_step s b manifest (fst rf) (snd rf)) st w = (Ok st', w') ->
    backed_up_files st' + skipped_files st'
    = backed_up_files st + skipped_files st + counted l.
Proof.
  induction l as [|[root name] l IH]; intros st w st' w' H; simpl in H.
  - injection H as <- <-. cbn [counted]. lia.
  - unfold bind in H.
    destruct (backup_step s b manifest root name st w) as [[st1|e] w1] eqn:E; [|discriminate].
    apply IH in H. apply backup_step_done in E. cbn [counted fst snd].
    destruct E as [Hname|content m0 M entry F R Hname _ _ _ _ _ _
                  |content m0 M U w2 F R target Hname _ _ _ _ _].
    + apply str_eqb_eq in Hname. rewrite Hname. lia.
    + unfold F in Hname. apply str_eqb_neq in Hname. rewrite Hname.
      cbn [backed_up_files skipped_files] in H. lia.
    + unfold F in Hname. apply str_eqb_neq in Hname. rewrite Hname.
      cbn [backed_up_files skipped_files] in H. lia.
Qed.

Lemma load_manifest_readable (mp : list (list Z)) (w w' : world) (v : json) :
  load_manifest mp w = (Ok v, w') ->
  forall d m, fs w !! mp = Some (File d m) -> readable m = true.
Proof.
  intros H d m Hfile. destruct (readable m) eqn:Er; [reflexivity|]. exfalso.
  unfold load_manifest, bind, try_except in H.
  rewrite (os_path_exists_true _ _ _ Hfile) in H. simpl in H.
  unfold open_read in H. rewrite Hfile, Er in H. simpl in H. discriminate.
Qed.

Lemma for_each_settles {A S} (body : A -> S -> io S) (I : S -> world -> Prop)
    (P : A -> S -> world -> Prop) (l : list A) :
  (forall x st w st' w', In x l -> I st w -> body x st w = (Ok st', w') ->
     I st' w' /\ P x st' w' /\ forall y, P y st w -> P y st' w') ->
  forall st w st' w', I st w -> for_each l body st w = (Ok st', w') ->
                      I st' w' /\ Forall (fun x => P x st' w') l.
Proof.
  induction l as [|a l IH]; intros Hstep st w st' w' HI H; simpl in H.
  - injection H as <- <-. split; [exact HI | constructor].
  - unfold bind in H. destruct (body a st w) as [[st1|e] w1] eqn:E; [|discriminate].
    destruct (Hstep a st w st1 w1 (or_introl eq_refl) HI E) as (HI1 & HP & _).
    assert (Hstep' : forall x st w st' w', In x l -> I st w -> body x st w = (Ok st', w') ->
                       I st' w' /\ P x st' w' /\ forall y, P y st w -> P y st' w').
    { intros x st0 w0 st0' w0' Hx. apply Hstep. right. exact Hx. }
    destruct (IH Hstep' st1 w1 st' w' HI1 H) as [HI' Hall].
    split; [exact HI'|]. constructor; [|exact Hall].
    assert (G : I st' w' /\ P a st' w').
    { eapply (for_each_invariant body (fun st0 w0 => I st0 w0 /\ P a st0 w0) l);
        [ | split; [exact HI1 | exact HP] | exact H].
      intros x st0 w0 st0' w0' Hx [HI0 HP0] E0.
      destruct (Hstep' x st0 w0 st0' w0' Hx HI0 E0) as (HI2 & _ & Hpres).
      split; [exact HI2 | apply Hpres; exact HP0]. }
    exact (proj2 G).
Qed.

Section FirstRun.
Variables (s b mp : list (list Z)) (manifest : json) (f0 : gmap (list (list Z)) node).
Hypothesis Hsb : ~ s `prefix_of` b.
Hypothesis Hbs : ~ b `prefix_of` s.
Hypothesis Hgood : good_tree f0 s = true.

Lemma settled_later (rel : list (list Z)) (st st' : backup_locals) (w w' : world) :
  updated_manifest st' = updated_manifest st ->
  (forall q, is_Some (fs w !! q) -> is_Some (fs w' !! q)) ->
  settled s b f0 rel st w -> settled s b f0 rel st' w'.
Proof.
  intros HU Hex (content & m & U & entry & H1 & H2 & H3 & H4 & H5 & H6).
  exists content, m, U, entry. rewrite HU. auto 10.
Qed.

(** Nothing of the source tree is at, above or below a place in the
    backup. *)
Lemma source_apart (rel q : list (list Z)) :
  s `prefix_of` q -> ~ (q `prefix_of` b ++ rel \/ b ++ rel `prefix_of` q).
Proof using Hsb Hbs.
  intros Hq Hcmp.
  assert (Hb : b `prefix_of` b ++ rel) by (apply prefix_app_r; reflexivity).
  assert (Hno : ~ s `prefix_of` b ++ rel).
  { intros Hs. destruct (prefix_both s b (b ++ rel) Hs Hb); auto. }
  destruct Hcmp as [Hp|Hp].
  - apply Hno. etrans; [exact Hq | exact Hp].
  - destruct (prefix_both (b ++ rel) s q Hp Hq) as [H1|H1]; [|auto].
    apply Hbs. etrans; [exact Hb | exact H1].
Qed.

Lemma first_run_step (root : list (list Z)) (name : list Z) (st st' : backup_locals)
    (w w' : world) :
  In (root, name) (walked_files (walk_tree f0 s)) ->
  run_inv s b mp manifest f0 st w ->
  backup_step s b manifest root name st w = (Ok st', w') ->
  run_inv s b mp manifest f0 st' w'
  /\ file_settled s b f0 (root, name) st' w'
  /\ forall y, file_settled s b f0 y st w -> file_settled s b f0 y st' w'.
Proof using Hsb Hbs Hgood.
  intros Hin Hinv Hstep.
  destruct (walked_file_paths f0 s b root name Hgood Hin)
    as (rel & data & m & Hne & Hg & HF & Hfile0 & HR & HT & Hbase).
  apply backup_step_done in Hstep.
  destruct Hinv as (Hsrc & Hmp & Hex & Hcopy & Hman).
  assert (Hs_rel : s `prefix_of` s ++ rel) by (apply prefix_app_r; reflexivity).
  destruct Hstep as [Hname|content m0 M entry F R Hname HFw Hr HM He0 Hh Hexb
                    |content m0 M U w1 F R target Hname HFw Hr HM HU Hbf].
  - split; [repeat split; assumption|]. split; [|auto].
    intros rel' Hj _ _ Hb'. cbn [fst snd] in Hj. rewrite <- Hj in Hb'. contradiction.
  - subst F R. rewrite HF in *. rewrite HR in *. rewrite HT in *.
    set (st' := {| updated_manifest := updated_manifest st;
                   backed_up_files := backed_up_files st;
                   skipped_files := skipped_files st + 1 |}).
    set (w' := snd (print (py "[SKIP] " ++ intercalate_slash rel) w)).
    assert (Hlater : forall r, settled s b f0 r st w -> settled s b f0 r st' w').
    { intros r. apply settled_later; [reflexivity | auto]. }
    split; [|split].
    + split; [exact Hsrc|]. split; [exact Hmp|]. split; [exact Hex|]. split; [exact Hcopy|].
      intros M' HM'. destruct (Hman M' HM') as (U & HU & Hrel). exists U. split; [exact HU|].
      intros r Hgr Hner. destruct (Hrel r Hgr Hner) as [E|Hs]; [left; exact E | right; auto].
    + intros rel' Hj _ _ _. cbn [fst snd] in Hj. rewrite HF in Hj.
      apply app_inv_head in Hj. subst rel'.
      destruct (Hman M HM) as (U & HU & Hrel).
      destruct (Hrel rel Hg Hne) as [E|Hs]; [|auto].
      exists content, m0, U, entry. rewrite <- (Hsrc _ Hs_rel). rewrite E. auto 10.
    + intros y Hy r Hj Hgr Hner Hbr. apply Hlater. exact (Hy r Hj Hgr Hner Hbr).
  - subst F R target. rewrite HF in *. rewrite HR in *. rewrite HT in *.
    set (entry := manifest_entry (Sha256.sha256_hex content) (isoformat w1 (time w1))
                                 (path_str (b ++ rel))).
    set (st' := {| updated_manifest := JObj (dict_set (intercalate_slash rel) entry U);
                   backed_up_files := backed_up_files st + 1;
                   skipped_files := skipped_files st |}).
    set (w' := snd (print (py "[BACKUP] " ++ intercalate_slash rel)
                          (snd (datetime_now_isoformat w1)))).
    assert (Hfs' : fs w' = fs w1) by reflexivity.
    pose proof (backup_file_frame _ _ _ _ _ _ Hbf) as Hframe.
    pose proof (backup_file_exists _ _ _ _ _ _ Hbf) as [Hkeep Hthere].
    rewrite HR, HT in Hframe, Hthere. specialize (Hthere _ eq_refl).
    assert (Hex' : forall q, is_Some (fs w !! q) -> is_Some (fs w' !! q))
      by (intros q; rewrite Hfs'; apply Hkeep).
    assert (Hsrc' : forall q, s `prefix_of` q -> fs w' !! q = f0 !! q).
    { intros q Hq. rewrite Hfs', <- (Hsrc q Hq).
      destruct (Hframe q) as [E|Hcmp]; [exact E|].
      exfalso. exact (source_apart rel q Hq Hcmp). }
    assert (Hfile : f0 !! (s ++ rel) = Some (File content m0))
      by (rewrite <- (Hsrc _ Hs_rel); exact HFw).
    assert (Hnew : settled s b f0 rel st' w').
    { exists content, m0, (dict_set (intercalate_slash rel) entry U), entry.
      split; [exact Hfile|]. split; [exact Hr|]. split; [reflexivity|].
      split; [apply dict_get_set_eq|]. split; [reflexivity|]. rewrite Hfs'. exact Hthere. }
    assert (Hlater : forall r, Forall (fun c => good_name c = true) r -> r <> [] ->
                               settled s b f0 r st w -> settled s b f0 r st' w').
    { intros r Hgr Hner Hs.
      destruct (decide (intercalate_slash rel = intercalate_slash r)) as [E|Hd].
      - apply intercalate_slash_inj in E; auto. subst r. exact Hnew.
      - destruct Hs as (c1 & m1 & U1 & e1 & H1 & H2 & H3 & H4 & H5 & H6).
        rewrite HU in H3. injection H3 as <-.
        exists c1, m1, (dict_set (intercalate_slash rel) entry U), e1.
        split; [exact H1|]. split; [exact H2|]. split; [reflexivity|].
        split; [rewrite (dict_get_set_ne _ _ _ _ Hd); exact H4|]. split; [exact H5|].
        apply Hex'. exact H6. }
    split; [|split].
    + split; [exact Hsrc'|]. split; [|split; [|split; [reflexivity|]]].
      * intros d m1. rewrite Hfs'.
        apply backup_file_spec in Hbf as (w0 & (_ & _ & _ & Hadd) & _ & Hrest).
        destruct Hrest as (d0 & data0 & m2 & Hsrc0 & -> & _).
        cbn [fs with_fs].
        assert (Em : File data0 m2 = File content m0).
        { destruct (Hadd (s ++ rel)) as [E|(E & _)]; congruence. }
        destruct (decide (d0 = mp)) as [->|Hd].
        -- rewrite lookup_insert_eq, Em. intros [= <- <-]. exact Hr.
        -- rewrite lookup_insert_ne by exact Hd.
           destruct (Hadd mp) as [E|(_ & E & _)]; rewrite E; [apply Hmp | discriminate].
      * intros q Hq. apply Hex', Hex, Hq.
      * intros M' HM'. rewrite HM in HM'. injection HM' as <-.
        exists (dict_set (intercalate_slash rel) entry U). split; [reflexivity|].
        intros r Hgr Hner.
        destruct (decide (intercalate_slash rel = intercalate_slash r)) as [E|Hd].
        -- right. apply intercalate_slash_inj in E; auto. subst r. exact Hnew.
        -- rewrite (dict_get_set_ne _ _ _ _ Hd).
           destruct (Hman M HM) as (U0 & HU0 & Hrel). rewrite HU in HU0. injection HU0 as <-.
           destruct (Hrel r Hgr Hner) as [E|Hs]; [left; exact E | right; auto].
    + intros rel' Hj _ _ _. cbn [fst snd] in Hj. rewrite HF in Hj.
      apply app_inv_head in Hj. subst rel'. exact Hnew.
    + intros y Hy r Hj Hgr Hner Hbr. apply Hlater; auto.
Qed.
End FirstRun.

Lemma second_run_loop (s b : list (list Z)) (f0 f1 : gmap (list (list Z)) node) (V : json)
    (st1 : backup_locals) (wc : world) (l : list (list (list Z) * list Z)) :
  good_tree f0 s = true ->
  (forall x, In x l -> In x (walked_files (walk_tree f0 s))) ->
  Forall (fun x => file_settled s b f0 x st1 wc) l ->
  updated_manifest st1 = V ->
  (forall q, s `prefix_of` q -> f1 !! q = f0 !! q) ->
  (forall q, is_Some (fs wc !! q) -> is_Some (f1 !! q)) ->
  forall st w, fs w = f1 ->
    exists st' w',
      for_each l (fun rf => backup_step s b V (fst rf) (snd rf)) st w = (Ok st', w')
      /\ fs w' = f1
      /\ updated_manifest st' = updated_manifest st
      /\ backed_up_files st' = backed_up_files st
      /\ skipped_files st' = skipped_files st + counted l.
Proof.
  intros Hgood Hsub Hall HV Hsrc Hex.
  induction l as [|[root name] l IH]; intros st w Hw.
  - exists st, w. cbn [for_each counted]. unfold ret.
    split; [reflexivity|]. split; [exact Hw|]. split; [reflexivity|]. split; [reflexivity|]. lia.
  - apply Forall_cons in Hall as [Hx Hall].
    assert (Hsub' : forall x, In x l -> In x (walked_files (walk_tree f0 s)))
      by (intros x Hin; apply Hsub; right; exact Hin).
    specialize (IH Hsub' Hall).
    destruct (walked_file_paths f0 s b root name Hgood (Hsub _ (or_introl eq_refl)))
      as (rel & data & m0 & Hne & Hg & HF & Hfile0 & HR & HT & Hbase).
    cbn [for_each counted fst snd]. unfold bind.
    destruct (str_eqb (os_path_basename (os_path_join root name)) MANIFEST_FILE_NAME) eqn:En.
    + unfold backup_step at 1. rewrite En. unfold ret at 1.
      destruct (IH st w Hw) as (st' & w' & Hrun & Hfs & HU & Hb & Hs).
      exists st', w'. rewrite Hrun.
      split; [reflexivity|]. split; [exact Hfs|]. split; [exact HU|]. split; [exact Hb|]. lia.
    + apply str_eqb_neq in En.
      assert (Hbase' : os_path_basename (s ++ rel) <> MANIFEST_FILE_NAME)
        by (rewrite <- HF; exact En).
      destruct (Hx rel HF Hg Hne Hbase')
        as (content & m & U & entry & H1 & H2 & H3 & H4 & H5 & H6).
      assert (EV : V = JObj U) by congruence.
      rewrite EV in *. clear EV.
      rewrite (backup_step_skips s b root name U st w content m entry En).
      * set (st0 := {| updated_manifest := updated_manifest st;
                       backed_up_files := backed_up_files st;
                       skipped_files := skipped_files st + 1 |}).
        destruct (IH st0 (snd (print (py "[SKIP] " ++ os_path_relpath (os_path_join root name) s) w))
                     Hw) as (st' & w' & Hrun & Hfs & HU & Hb & Hs).
        exists st', w'. rewrite Hrun.
        split; [reflexivity|]. split; [exact Hfs|]. split; [exact HU|]. split; [exact Hb|].
        rewrite Hs. cbn [st0 skipped_files]. lia.
      * rewrite HF, Hw, (Hsrc (s ++ rel)) by (apply prefix_app_r; reflexivity). exact H1.
      * exact H2.
      * rewrite HF, HR. exact H4.
      * exact H5.
      * rewrite HF, HR, HT, Hw. apply Hex. exact H6.
Qed.

Lemma write_file_over (p : list (list Z)) (d data : list Z) (m : metadata) (w : world) :
  fs w !! p = Some (File d m) -> writable m = true ->
  write_file p data w
  = (Ok tt, with_fs (<[p := File data {| st_mode := st_mode m;
                                         st_mtime := Z.of_nat (time w) |}]> (fs w)) w).
Proof. intros Hp Hw. unfold write_file. rewrite Hp, Hw. reflexivity. Qed.

(** C7.  The loop ignores a file only when its name is [manifest.json],
    though the comment on it says that the manifest file is ignored if it
    is inside the source directory.  With the manifest kept inside the
    source directory under another name, a run writes it there, and a
    second run, with nothing changed in between, finds a file it has no
    entry for and copies it: one file is backed up, the two others are
    skipped. *)
Theorem second_run_copies_the_manifest :
  let mp := [py "src"; py "state.json"] in
  let first := scan_and_backup [py "src"] [py "bak"] mp world_two_files in
  let second := scan_and_backup [py "src"] [py "bak"] mp (snd first) in
  fs world_two_files !! mp = None
  /\ backed_up_files (the no_locals (fst first)) = 2
  /\ match fst second with
     | Ok st2 => backed_up_files st2 = 1 /\ skipped_files st2 = 2
     | Raise _ => False
     end
  /\ In (py "[BACKUP] state.json") (stdout (snd second))
  /\ In (py "Files backed up      : 1") (stdout (snd second))
  /\ is_Some (fs (snd second) !! [py "bak"; py "state.json"]).
Proof.
  vm_compute. split; [reflexivity|]. split; [reflexivity|].
  split; [split; reflexivity|].
  split; [repeat (first [left; reflexivity | right])|].
  split; [repeat (first [left; reflexivity | right])|].
  eexists. reflexivity.
Qed.

(** X29.  Take a run that ends well, with neither of the source and backup
    directories inside the other, the manifest file outside the source
    directory, and a manifest saved that the store gives back as it is.  A
    second run started in the world the first one left, with nothing
    changed in between, ends well too: it copies no file, it skips every
    file the first run counted, it leaves the manifest as it is and it
    touches nothing but the manifest file. *)
Theorem second_run_copies_nothing
    (s b mp : path) (w w1 : world) (st1 : backup_locals) :
  scan_and_backup s b mp w = (Ok st1, w1) ->
  ~ s `prefix_of` b -> ~ b `prefix_of` s -> ~ s `prefix_of` mp ->
  good_tree (fs w) s = true ->
  json_wf (updated_manifest st1) = true ->
  exists st2 w2,
    scan_and_backup s b mp w1 = (Ok st2, w2)
    /\ backed_up_files st2 = 0
    /\ skipped_files st2 = backed_up_files st1 + skipped_files st1
    /\ updated_manifest st2 = updated_manifest st1
    /\ forall q, q <> mp -> fs w2 !! q = fs w1 !! q.
Proof.
  intros Hrun Hsb Hbs Hsmp Hgood Hwf.
  destruct (scan_and_backup_ok _ _ _ _ _ _ Hrun)
    as (wa & manifest & wb & updated & wc & wd & He & Hl & Hc & Hloop & Hsave & ->).
  apply ensure_directory_spec in He as [(_ & _ & _ & Hadd) Hb_ex]. specialize (Hb_ex eq_refl).
  pose proof (load_manifest_fs _ _ _ _ Hl) as Hfs_b.
  assert (Hsrc_b : forall q, s `prefix_of` q -> fs wb !! q = fs w !! q).
  { rewrite Hfs_b. intros q Hq. destruct (Hadd q) as [E|(_ & _ & Hp)]; [exact E|].
    exfalso. apply Hsb. etrans; [exact Hq | exact Hp]. }
  assert (Hgood_b : good_tree (fs wb) s = true) by (eapply good_tree_same; eauto).
  assert (Hup : updated = manifest /\ py_copy manifest = Ok manifest).
  { destruct manifest; simpl in Hc; try discriminate; injection Hc as <-; auto. }
  destruct Hup as [-> Hcopy0]. clear Hc.
  rewrite backup_loop_flat in Hloop.
  set (L := walked_files (walk_tree (fs wb) s)) in *.
  set (st0 := {| updated_manifest := manifest; backed_up_files := 0; skipped_files := 0 |}) in *.
  destruct (for_each_settles (fun rf => backup_step s b manifest (fst rf) (snd rf))
              (run_inv s b mp manifest (fs wb)) (file_settled s b (fs wb)) L)
    with (st := st0) (w := wb) (st' := st1) (w' := wc) as [Hinv Hall].
  { intros [root name] st w0 st' w' Hin HI E.
    exact (first_run_step s b mp manifest (fs wb) Hsb Hbs Hgood_b root name st st' w0 w'
             Hin HI E). }
  { split; [reflexivity|]. split; [|split; [auto|split; [exact Hcopy0|]]].
    - rewrite Hfs_b. exact (load_manifest_readable _ _ _ _ Hl).
    - intros M HM. exists M. split; [exact HM|]. intros rel _ _. left. reflexivity. }
  { exact Hloop. }
  destruct Hinv as (Hsrc_c & Hmp_c & Hex_c & Hcopy_c & _).
  pose proof (backup_loop_counts _ _ _ _ _ _ _ _ Hloop) as Hcount.
  cbn [st0 backed_up_files skipped_files] in Hcount.
  destruct (save_manifest_wf _ _ _ _ Hwf Hmp_c Hsave) as (m & Hm_r & Hm_w & ->).
  set (V := updated_manifest st1) in *.
  set (f1 := <[mp := File (json_dumps V) m]> (fs wc)).
  set (w1 := snd (print_summary s b st1 (time wb) (time (with_fs f1 wc)) (with_fs f1 wc))).
  assert (Hfs1 : fs w1 = f1) by (subst w1; rewrite print_summary_fs; reflexivity).
  assert (Hex1 : forall q, is_Some (fs wc !! q) -> is_Some (f1 !! q)).
  { intros q Hq. unfold f1. destruct (decide (mp = q)) as [->|Hd].
    - rewrite lookup_insert_eq. eauto.
    - rewrite lookup_insert_ne by exact Hd. exact Hq. }
  assert (He2 : ensure_directory b w1 = (Ok tt, w1)).
  { assert (Hb1 : is_Some (fs w1 !! b))
      by (rewrite Hfs1; apply Hex1, Hex_c; rewrite Hfs_b; exact Hb_ex).
    destruct Hb1 as [n Hn]. unfold ensure_directory, bind.
    rewrite (os_path_exists_true _ _ _ Hn). reflexivity. }
  assert (Hmp1 : fs w1 !! mp = Some (File (json_dumps V) m))
    by (rewrite Hfs1; apply lookup_insert_eq).
  pose proof (load_manifest_dumped mp V m w1 Hwf Hmp1 Hm_r) as Hl2.
  assert (Hsrc1 : forall q, s `prefix_of` q -> f1 !! q = fs wb !! q).
  { intros q Hq. unfold f1. rewrite lookup_insert_ne; [exact (Hsrc_c q Hq)|].
    intros ->. contradiction. }
  assert (Hwalk : walk_tree (fs w1) s = walk_tree (fs wb) s)
    by (rewrite Hfs1; apply walk_tree_same; exact Hsrc1).
  destruct (second_run_loop s b (fs wb) f1 V st1 wc L Hgood_b (fun x H => H) Hall eq_refl
              Hsrc1 Hex1
              {| updated_manifest := V; backed_up_files := 0; skipped_files := 0 |} w1 Hfs1)
    as (st2 & w2 & Hloop2 & Hfs2 & HU2 & Hb2 & Hs2).
  cbn [updated_manifest backed_up_files skipped_files] in HU2, Hb2, Hs2.
  assert (Hsave2 : save_manifest mp (updated_manifest st2) w2
                   = (Ok tt, with_fs (<[mp := File (json_dumps V)
                                             {| st_mode := st_mode m;
                                                st_mtime := Z.of_nat (time w2) |}]> (fs w2)) w2)).
  { rewrite HU2. unfold save_manifest.
    pose proof (dumps_plain V Hwf 0%nat) as Hplain. fold (json_dumps V) in Hplain.
    rewrite (utf8_encode_plain _ Hplain).
    apply (write_file_over mp (json_dumps V)); [rewrite Hfs2; unfold f1; apply lookup_insert_eq|].
    exact Hm_w. }
  set (wd2 := with_fs (<[mp := File (json_dumps V) {| st_mode := st_mode m;
                                                      st_mtime := Z.of_nat (time w2) |}]> (fs w2))
                      w2) in *.
  exists st2, (snd (print_summary s b st2 (time w1) (time wd2) wd2)).
  split; [|split; [exact Hb2|split; [lia|split; [exact HU2|]]]].
  - unfold scan_and_backup, bind. rewrite He2, Hl2. unfold lift at 1. rewrite Hcopy_c.
    unfold time_time at 1. unfold os_walk at 1.
    rewrite Hwalk, backup_loop_flat. fold L. rewrite Hloop2, Hsave2.
    unfold time_time at 1. rewrite !print_summary_lines. reflexivity.
  - intros q Hq. rewrite print_summary_fs. unfold wd2. cbn [fs with_fs].
    rewrite lookup_insert_ne by congruence. rewrite Hfs2, Hfs1. reflexivity.
Qed.

Lemma second_run_copies_nothing_witness :
  let mp := [py "manifest.json"] in
  let first := scan_and_backup [py "src"] [py "bak"] mp world_two_files in
  let st1 := the no_locals (fst first) in
  exists st2 w2,
    scan_and_backup [py "src"] [py "bak"] mp (snd first) = (Ok st2, w2)
    /\ backed_up_files st2 = 0
    /\ skipped_files st2 = backed_up_files st1 + skipped_files st1
    /\ updated_manifest st2 = updated_manifest st1
    /\ forall q, q <> mp -> fs w2 !! q = fs (snd first) !! q.
Proof.
  cbv zeta.
  apply (second_run_copies_nothing [py "src"] [py "bak"] [py "manifest.json"] world_two_files).
  - vm_compute. reflexivity.
  - intros [k Hk]. vm_compute in Hk. discriminate.
  - intros [k Hk]. vm_compute in Hk. discriminate.
  - intros [k Hk]. vm_compute in Hk. discriminate.
  - vm_compute. reflexivity.
  - vm_compute. reflexivity.
Defined.

(** * Further properties of the code *)

(** ** [calculate_file_hash] *)

Lemma hash_loop_zero (limit : Z) (f : file_obj) (s : Sha256.state) :
  0 <= limit <= 2 ^ 63 - 34 -> hash_loop limit 0 f s = Ok s.
Proof.
  intros Hl. remember 0 as n eqn:Hn.
  funelim (hash_loop limit n f s);
    pose proof (f_read_chunk limit f 0 ltac:(lia) ltac:(lia) ltac:(lia)) as Hchunk.
  - congruence.
  - reflexivity.
  - exfalso. assert (Hd : data = take (Z.to_nat 0) (remaining f)) by congruence.
    subst data. discriminate Hdata.
Qed.

Lemma f_read_all (limit : Z) (f : file_obj) :
  f_read limit f (-1)
  = Ok (remaining f, {| f_data := f_data f;
                        f_pos := (f_pos f + length (remaining f))%nat |}).
Proof. reflexivity. Qed.

Lemma hash_loop_all_at_once (limit : Z) (f : file_obj) (s : Sha256.state) :
  hash_loop limit (-1) f s = Ok (Sha256.update s (remaining f)).
Proof.
  remember (-1) as n eqn:Hn.
  funelim (hash_loop limit n f s); pose proof (f_read_all limit f) as Hall.
  - congruence.
  - assert (Hd : data = remaining f) by congruence.
    rewrite <- Hd. destruct data; [reflexivity | discriminate].
  - match goal with
    | IH : hash_loop _ _ _ _ = Ok _ |- _ => rewrite IH
    end.
    assert (Hd : (data, f') = (remaining f,
                               {| f_data := f_data f;
                                  f_pos := (f_pos f + length (remaining f))%nat |}))
      by congruence.
    injection Hd as -> ->.
    assert (Hend : remaining {| f_data := f_data f;
                                f_pos := (f_pos f + length (remaining f))%nat |} = []).
    { unfold remaining. cbn [f_data f_pos]. rewrite <- drop_drop. apply drop_all. }
    rewrite Hend. reflexivity.
Qed.

Lemma hash_loop_raise (limit n : Z) (f : file_obj) (s : Sha256.state) (e : exn) :
  f_read limit f n = Raise e -> hash_loop limit n f s = Raise e.
Proof. intros Hr. funelim (hash_loop limit n f s); congruence. Qed.

(** For concrete paths and worlds: the cases of a statement about every
    proper prefix of a path. *)
Ltac by_prefixes :=
  let q := fresh "q" in
  let k := fresh "k" in
  let Hk := fresh "Hk" in
  let Hne := fresh "Hne" in
  intros q [k Hk] Hne;
  repeat (destruct q as [|? q];
          [ first [ exfalso; apply Hne; reflexivity
                  | vm_compute; reflexivity
                  | let Hq := fresh "Hq" in
                    intros ? ? Hq; vm_compute in Hq; discriminate Hq ]
          | cbn [app] in Hk;
            first [ discriminate Hk
                  | let Hc := fresh "Hc" in injection Hk as Hc Hk; subst ] ]).

(** Nothing at a path none of whose directories is a regular file is a
    missing file; nothing below a regular file is a path that does not go
    through directories. *)
Lemma stops_at_dirs (f : gmap (list (list Z)) node) (rest cur : list (list Z)) :
  (forall q, cur `prefix_of` q -> q `prefix_of` cur ++ rest -> q <> cur ++ rest ->
             forall d m, f !! q <> Some (File d m)) ->
  stops_at f cur rest = FileNotFoundError.
Proof.
  revert cur. induction rest as [|c rest IH]; intros cur H; cbn [stops_at]; [reflexivity|].
  destruct (f !! cur) as [[d m|]|] eqn:E; [| |reflexivity].
  - exfalso. apply (H cur) with (d := d) (m := m); [reflexivity | | | exact E].
    + apply prefix_app_r. reflexivity.
    + intros Heq. apply (f_equal length) in Heq. rewrite length_app in Heq.
      cbn [length] in Heq. lia.
  - apply IH. intros q Hq1 Hq2 Hne. rewrite <- app_assoc in Hq2, Hne. apply H; auto.
    etrans; [|exact Hq1]. apply prefix_app_r. reflexivity.
Qed.

Lemma stops_at_file (f : gmap (list (list Z)) node) (r1 cur : list (list Z)) (c : list Z)
    (r2 : list (list Z)) (d : list Z) (m : metadata) :
  (forall q, cur `prefix_of` q -> q `prefix_of` cur ++ r1 -> q <> cur ++ r1 ->
             f !! q = Some Dir) ->
  f !! (cur ++ r1) = Some (File d m) ->
  stops_at f cur (r1 ++ c :: r2) = NotADirectoryError.
Proof.
  revert cur. induction r1 as [|a r1 IH]; intros cur H Hfile.
  - rewrite app_nil_r in Hfile. cbn [app stops_at]. rewrite Hfile. reflexivity.
  - cbn [app stops_at]. rewrite (H cur).
    + apply IH.
      * intros q Hq1 Hq2 Hne. rewrite <- app_assoc in Hq2, Hne. apply H; auto.
        etrans; [|exact Hq1]. apply prefix_app_r. reflexivity.
      * rewrite <- app_assoc. exact Hfile.
    + reflexivity.
    + apply prefix_app_r. reflexivity.
    + intros Heq. apply (f_equal length) in Heq. rewrite length_app in Heq.
      cbn [length] in Heq. lia.
Qed.

Lemma no_entry_missing (f : gmap (list (list Z)) node) (p : list (list Z)) :
  (forall q, q `prefix_of` p -> q <> p -> forall d m, f !! q <> Some (File d m)) ->
  no_entry f p = FileNotFoundError.
Proof. intros H. apply stops_at_dirs. intros q _. apply H. Qed.

Lemma no_entry_below_a_file (f : gmap (list (list Z)) node) (q p : list (list Z))
    (d : list Z) (m : metadata) :
  q `prefix_of` p -> q <> p ->
  (forall q', q' `prefix_of` q -> q' <> q -> f !! q' = Some Dir) ->
  f !! q = Some (File d m) ->
  no_entry f p = NotADirectoryError.
Proof.
  intros [rest ->] Hne Hdirs Hfile.
  destruct rest as [|c r2]; [rewrite app_nil_r in Hne; congruence|].
  apply (stops_at_file f q [] c r2 d m); [|exact Hfile].
  intros q' _. apply Hdirs.
Qed.

(** X1.  [calculate_file_hash] catches nothing and writes nothing.  With a
    chunk size that a read can be given a buffer for, it returns the digest
    of a file that can be read; on a directory it raises
    [IsADirectoryError], on a file the process may not read
    [PermissionError], on a path where nothing is [FileNotFoundError] when
    no regular file is on the way and [NotADirectoryError] when the way goes
    through a regular file; in every case the world is left as it was. *)
Theorem calculate_file_hash_outcome (file_path : path) (chunk_size : Z) (w : world) :
  0 < chunk_size <= read_limit w ->
  calculate_file_hash file_path chunk_size w
  = (match fs w !! file_path with
     | None => Raise (no_entry (fs w) file_path)
     | Some Dir => Raise IsADirectoryError
     | Some (File content m) =>
         if readable m then Ok (Sha256.sha256_hex content) else Raise PermissionError
     end, w)
  /\ ((forall q, q `prefix_of` file_path -> q <> file_path ->
                  forall d m, fs w !! q <> Some (File d m)) ->
      no_entry (fs w) file_path = FileNotFoundError)
  /\ (forall q d m,
        q `prefix_of` file_path -> q <> file_path ->
        (forall q', q' `prefix_of` q -> q' <> q -> fs w !! q' = Some Dir) ->
        fs w !! q = Some (File d m) ->
        no_entry (fs w) file_path = NotADirectoryError).
Proof.
  intros Hpos. split; [|split].
  - destruct (fs w !! file_path) as [[content m|]|] eqn:E.
    + destruct (readable m) eqn:Er.
      * exact (calculate_file_hash_value w file_path content m chunk_size E Er Hpos).
      * unfold calculate_file_hash, bind, open_read. rewrite E, Er. reflexivity.
    + unfold calculate_file_hash, bind, open_read. rewrite E. reflexivity.
    + unfold calculate_file_hash, bind, open_read. rewrite E. reflexivity.
  - apply no_entry_missing.
  - intros q d m. apply no_entry_below_a_file.
Qed.

Lemma calculate_file_hash_outcome_witness :
  calculate_file_hash [py "src"; py "a.txt"; py "x"] 4096 world_two_files
  = (Raise NotADirectoryError, world_two_files)
  /\ calculate_file_hash [py "src"; py "none"] 4096 world_two_files
     = (Raise FileNotFoundError, world_two_files)
  /\ calculate_file_hash [py "src"; py "z.txt"] 4096 world_unreadable
     = (Raise PermissionError, world_unreadable).
Proof.
  split; [|split].
  - destruct (calculate_file_hash_outcome [py "src"; py "a.txt"; py "x"] 4096 world_two_files)
      as (Heq & _ & Hfile); [split; [lia | vm_compute; discriminate]|].
    rewrite Heq. change (fs world_two_files !! [py "src"; py "a.txt"; py "x"]) with (@None node).
    rewrite (Hfile [py "src"; py "a.txt"] (py "hello") rw_r_r); [reflexivity | | | |].
    + exists [py "x"]. reflexivity.
    + discriminate.
    + by_prefixes.
    + vm_compute. reflexivity.
  - destruct (calculate_file_hash_outcome [py "src"; py "none"] 4096 world_two_files)
      as (Heq & Hnone & _); [split; [lia | vm_compute; discriminate]|].
    rewrite Heq. change (fs world_two_files !! [py "src"; py "none"]) with (@None node).
    rewrite Hnone; [reflexivity|]. by_prefixes.
  - destruct (calculate_file_hash_outcome [py "src"; py "z.txt"] 4096 world_unreadable)
      as (Heq & _ & _); [split; [lia | vm_compute; discriminate]|].
    rewrite Heq. vm_compute. reflexivity.
Defined.

(** X2.  The chunk size is not checked by the function, only by the read.
    With a chunk size of 0 the first read returns nothing and the loop
    stops at once: the result is the digest of the empty message, whatever
    the file holds.  With -1 the first read returns the whole file: the
    result is the digest of the content.  Any other negative size raises
    [ValueError], a size that is no [Py_ssize_t] or that no [bytes] object
    can have raises [OverflowError], and a size the machine has no buffer
    for raises [MemoryError]. *)
Theorem calculate_file_hash_unchecked_chunk_size
    (file_path : path) (content : bytes) (m : metadata) (w : world) :
  fs w !! file_path = Some (File content m) ->
  readable m = true ->
  calculate_file_hash file_path 0 w = (Ok (Sha256.sha256_hex []), w)
  /\ calculate_file_hash file_path (-1) w = (Ok (Sha256.sha256_hex content), w)
  /\ (forall n, - 2 ^ 63 <= n < -1 ->
                calculate_file_hash file_path n w = (Raise ValueError, w))
  /\ (forall n, n < - 2 ^ 63 \/ 2 ^ 63 - 34 < n ->
                calculate_file_hash file_path n w = (Raise OverflowError, w))
  /\ (forall n, read_limit w < n <= 2 ^ 63 - 34 ->
                calculate_file_hash file_path n w = (Raise MemoryError, w)).
Proof.
  intros Hfile Hread. pose proof (read_limit_bounds w) as Hb.
  repeat split; try intros n Hn;
    unfold calculate_file_hash, bind, open_read, ret; rewrite Hfile, Hread.
  - rewrite hash_loop_zero by lia. unfold Sha256.sha256_hex, Sha256.update.
    cbn [fold_left]. reflexivity.
  - rewrite hash_loop_all_at_once. reflexivity.
  - rewrite (hash_loop_raise _ _ _ _ ValueError); [reflexivity|].
    unfold f_read.
    replace ((n <? - 2 ^ 63) || (2 ^ 63 <=? n)) with false by lia.
    replace (n <? -1) with true by lia. reflexivity.
  - rewrite (hash_loop_raise _ _ _ _ OverflowError); [reflexivity|].
    unfold f_read.
    destruct ((n <? - 2 ^ 63) || (2 ^ 63 <=? n)) eqn:E1; [reflexivity|].
    replace (n <? -1) with false by lia. replace (n =? -1) with false by lia.
    replace (2 ^ 63 - 34 <? n) with true by lia. reflexivity.
  - rewrite (hash_loop_raise _ _ _ _ MemoryError); [reflexivity|].
    unfold f_read.
    replace ((n <? - 2 ^ 63) || (2 ^ 63 <=? n)) with false by lia.
    replace (n <? -1) with false by lia. replace (n =? -1) with false by lia.
    replace (2 ^ 63 - 34 <? n) with false by lia.
    replace (read_limit w <? n) with true by lia. reflexivity.
Qed.

Lemma calculate_file_hash_unchecked_chunk_size_witness :
  calculate_file_hash [py "src"; py "a.txt"] 0 world_two_files
  = (Ok (Sha256.sha256_hex []), world_two_files)
  /\ calculate_file_hash [py "src"; py "a.txt"] (-1) world_two_files
     = (Ok (Sha256.sha256_hex (py "hello")), world_two_files)
  /\ calculate_file_hash [py "src"; py "a.txt"] (-2) world_two_files
     = (Raise ValueError, world_two_files)
  /\ calculate_file_hash [py "src"; py "a.txt"] (2 ^ 63) world_two_files
     = (Raise OverflowError, world_two_files)
  /\ calculate_file_hash [py "src"; py "a.txt"] (2 ^ 40) world_two_files
     = (Raise MemoryError, world_two_files).
Proof.
  destruct (calculate_file_hash_unchecked_chunk_size [py "src"; py "a.txt"] (py "hello") rw_r_r
              world_two_files) as (H0 & H1 & H2 & H3 & H4);
    [vm_compute; reflexivity | reflexivity |].
  split; [exact H0 | split; [exact H1 | split; [|split]]].
  - apply H2. lia.
  - apply H3. lia.
  - apply H4. vm_compute. split; [reflexivity | discriminate].
Defined.

(** ** [load_manifest] *)

Lemma lstrip_blank (s : list Z) : forallb py_isspace s = true -> lstrip s = [].
Proof.
  induction s as [|c r IH]; [reflexivity|]. cbn [forallb lstrip].
  intros H. apply andb_true_iff in H as [Hc Hr]. rewrite Hc. exact (IH Hr).
Qed.

Lemma universal_newlines_blank (n : nat) :
  forall s, (length s <= n)%nat -> forallb py_isspace s = true ->
            forallb py_isspace (universal_newlines s) = true.
Proof.
  induction n as [|n IH]; intros s Hlen Hs.
  - destruct s; [reflexivity | cbn [length] in Hlen; lia].
  - destruct s as [|c r]; [reflexivity|]. cbn [length] in Hlen.
    cbn [forallb] in Hs. apply andb_true_iff in Hs as [Hc Hr].
    cbn [universal_newlines]. destruct (c =? 13).
    + destruct r as [|d r']; [reflexivity|].
      cbn [forallb] in Hr. apply andb_true_iff in Hr as [Hd Hr'].
      cbn [length] in Hlen. destruct (d =? 10); cbn [forallb].
      * rewrite (IH r') by (auto; lia). reflexivity.
      * rewrite (IH (d :: r')); [reflexivity | cbn [length]; lia |].
        cbn [forallb]. rewrite Hd, Hr'. reflexivity.
    + cbn [forallb]. rewrite Hc, (IH r) by (auto; lia). reflexivity.
Qed.

Lemma strip_blank (s : list Z) : forallb py_isspace s = true -> strip s = [].
Proof. intros H. unfold strip. rewrite (lstrip_blank s H). reflexivity. Qed.

(** X3.  A manifest file that holds nothing but white space (spaces, tabs,
    line ends, or nothing at all) is read as the empty manifest: nothing is
    printed and the world is left as it was. *)
Theorem load_manifest_blank_file
    (manifest_path : path) (data : bytes) (m : metadata) (text : str) (w : world) :
  fs w !! manifest_path = Some (File data m) ->
  readable m = true ->
  utf8_decode data = Some text ->
  forallb py_isspace text = true ->
  load_manifest manifest_path w = (Ok (JObj []), w).
Proof.
  intros Hfile Hread Hdec Hblank.
  apply (load_manifest_blank w manifest_path data m Hfile Hread text Hdec).
  apply strip_blank. apply (universal_newlines_blank (length text)); [lia | exact Hblank].
Qed.

Lemma load_manifest_blank_file_witness :
  load_manifest [py "manifest.json"] (world_with_manifest [32; 13; 10; 9; 10])
  = (Ok (JObj []), world_with_manifest [32; 13; 10; 9; 10]).
Proof.
  apply (load_manifest_blank_file [py "manifest.json"] [32; 13; 10; 9; 10] rw_r_r
           [32; 13; 10; 9; 10]); [vm_compute; reflexivity | reflexivity | reflexivity |
                                  vm_compute; reflexivity].
Defined.

(** A text that begins with a character no JSON value begins with is not
    a JSON document. *)
Lemma json_loads_bad_start (t : list Z) (c : Z) (rest : list Z) :
  skip_ws t = c :: rest -> begins_value c = false ->
  json_loads t = Raise JSONDecodeError.
Proof.
  unfold begins_value, is_digit. intros Hs Hc.
  repeat (apply orb_false_iff in Hc as [Hc ?]).
  unfold json_loads. rewrite Hs. cbn [parse_value].
  replace (c =? 34) with false by lia. replace (c =? 123) with false by lia.
  replace (c =? 91) with false by lia.
  assert (Hatom : scan_atom (c :: rest) = None).
  { unfold scan_atom, scan_number, scan_int_part, is_digit.
    change (py "null") with (110 :: py "ull"). change (py "true") with (116 :: py "rue").
    change (py "false") with (102 :: py "alse"). change (py "NaN") with (78 :: py "aN").
    change (py "Infinity") with (73 :: py "nfinity").
    change (py "-Infinity") with (45 :: py "Infinity").
    cbn [strip_prefix].
    replace (110 =? c) with false by lia. replace (116 =? c) with false by lia.
    replace (102 =? c) with false by lia. replace (78 =? c) with false by lia.
    replace (73 =? c) with false by lia. replace (45 =? c) with false by lia.
    replace (c =? 45) with false by lia. replace (c =? 48) with false by lia.
    replace ((48 <=? c) && (c <=? 57)) with false by lia. reflexivity. }
  rewrite Hatom. reflexivity.
Qed.

(** X4.  A manifest file whose text is not blank and begins, after white
    space, with a character that no JSON value begins with (plain text, XML,
    a key without its braces) is not an error: [load_manifest] prints the
    one warning line and returns the empty manifest; the file system is
    left as it is. *)
Theorem load_manifest_warns_on_bad_json
    (manifest_path : path) (data : bytes) (m : metadata) (text : str) (c : char) (rest : str)
    (w : world) :
  fs w !! manifest_path = Some (File data m) ->
  readable m = true ->
  utf8_decode data = Some text ->
  strip (universal_newlines text) <> [] ->
  skip_ws (universal_newlines text) = c :: rest ->
  begins_value c = false ->
  let res := load_manifest manifest_path w in
  fst res = Ok (JObj [])
  /\ stdout (snd res) = stdout w ++ [corrupted_warning]
  /\ fs (snd res) = fs w.
Proof.
  intros Hfile Hread Hdec Hne Hs Hc res. subst res.
  rewrite (load_manifest_text w manifest_path data m Hfile Hread text Hdec Hne).
  rewrite (json_loads_bad_start _ c rest Hs Hc). auto.
Qed.

Lemma load_manifest_warns_on_bad_json_witness :
  let w := world_with_manifest (py "  <manifest/>") in
  let res := load_manifest [py "manifest.json"] w in
  fst res = Ok (JObj [])
  /\ stdout (snd res) = stdout w ++ [corrupted_warning]
  /\ fs (snd res) = fs w.
Proof.
  cbv zeta.
  apply (load_manifest_warns_on_bad_json [py "manifest.json"] (py "  <manifest/>") rw_r_r
           (py "  <manifest/>") 60 (py "manifest/>")).
  - vm_compute. reflexivity.
  - reflexivity.
  - vm_compute. reflexivity.
  - vm_compute. discriminate.
  - vm_compute. reflexivity.
  - reflexivity.
Defined.

(** X5.  Whatever the manifest path holds and whatever the outcome,
    [load_manifest] writes no file and does not read the clock; the only
    thing it may print is the warning, and then it returns the empty
    manifest. *)
Theorem load_manifest_effects (manifest_path : path) (w : world) :
  let res := load_manifest manifest_path w in
  fs (snd res) = fs w
  /\ time (snd res) = time w
  /\ (stdout (snd res) = stdout w
      \/ (stdout (snd res) = stdout w ++ [corrupted_warning] /\ fst res = Ok (JObj []))).
Proof.
  cbv zeta. rewrite load_manifest_unfold. cbn [fst snd].
  destruct (read_manifest (fs w !! manifest_path)) as [r warned] eqn:E. cbn [fst snd].
  destruct warned; [|auto].
  split; [reflexivity|]. split; [reflexivity|]. right. split; [reflexivity|].
  unfold read_manifest in E.
  destruct (fs w !! manifest_path) as [[data m|]|]; try discriminate E.
  destruct (readable m); [|discriminate E].
  destruct (utf8_decode data) as [t|]; [|discriminate E].
  cbv zeta in E. destruct (is_empty (strip (universal_newlines t))); [discriminate E|].
  destruct (json_loads (universal_newlines t)) as [v|e]; [discriminate E|].
  destruct (bool_decide (e = JSONDecodeError)); [congruence | discriminate E].
Qed.

(** X7.  Only a JSON syntax error is caught.  When the manifest path is a
    directory [load_manifest] raises [IsADirectoryError], when it is a file
    the process may not read it raises [PermissionError]; nothing is
    printed and the world is left as it was. *)
Theorem load_manifest_open_errors (manifest_path : path) (w : world) :
  (fs w !! manifest_path = Some Dir ->
   load_manifest manifest_path w = (Raise IsADirectoryError, w))
  /\ (forall data m, fs w !! manifest_path = Some (File data m) -> readable m = false ->
        load_manifest manifest_path w = (Raise PermissionError, w)).
Proof.
  split.
  - intros H. rewrite load_manifest_unfold, H. reflexivity.
  - intros data m H Hr. rewrite load_manifest_unfold, H. cbn [read_manifest]. rewrite Hr.
    reflexivity.
Qed.

Lemma load_manifest_open_errors_witness :
  load_manifest [py "src"] world_unreadable = (Raise IsADirectoryError, world_unreadable)
  /\ load_manifest [py "src"; py "z.txt"] world_unreadable
     = (Raise PermissionError, world_unreadable).
Proof.
  split.
  - apply (proj1 (load_manifest_open_errors [py "src"] world_unreadable)).
    vm_compute. reflexivity.
  - apply (proj2 (load_manifest_open_errors [py "src"; py "z.txt"] world_unreadable)
             (py "secret") no_access); [vm_compute; reflexivity | reflexivity].
Defined.

(** ** [save_manifest] *)



(** X9.  [save_manifest] makes no directory and forces nothing.  With
    nothing at the manifest path and its directory not there, it raises
    [FileNotFoundError] when no regular file is on the way to it and
    [NotADirectoryError] when the way goes through a regular file; when
    the path is a directory it raises [IsADirectoryError], when
    it is a file the process may not write [PermissionError]; in each case
    nothing is written. *)
Theorem save_manifest_failures (manifest_path : path) (v : json) (w : world) :
  json_wf v = true ->
  let parent := os_path_dirname manifest_path in
  (fs w !! manifest_path = None -> fs w !! parent = None ->
   (forall q, q `prefix_of` parent -> q <> parent ->
              forall d m, fs w !! q <> Some (File d m)) ->
   save_manifest manifest_path v w = (Raise FileNotFoundError, w))
  /\ (fs w !! manifest_path = None -> fs w !! parent <> Some Dir ->
      forall q d m, q `prefix_of` parent -> fs w !! q = Some (File d m) ->
        (forall q', q' `prefix_of` q -> q' <> q -> fs w !! q' = Some Dir) ->
        save_manifest manifest_path v w = (Raise NotADirectoryError, w))
  /\ (fs w !! manifest_path = Some Dir ->
      save_manifest manifest_path v w = (Raise IsADirectoryError, w))
  /\ (forall d m, fs w !! manifest_path = Some (File d m) -> writable m = false ->
        save_manifest manifest_path v w = (Raise PermissionError, w)).
Proof.
  intros Hwf parent. unfold save_manifest.
  pose proof (dumps_plain v Hwf 0%nat) as Hplain. fold (json_dumps v) in Hplain.
  rewrite (utf8_encode_plain _ Hplain). unfold write_file.
  fold (os_path_dirname manifest_path). fold parent.
  split; [|split; [|split]].
  - intros H1 H2 Hdirs. rewrite H1, H2, (no_entry_missing _ _ Hdirs). reflexivity.
  - intros H1 Hnd q d m Hq Hfile Hdirs. rewrite H1.
    destruct (fs w !! parent) as [[d' m'|]|] eqn:Eparent; [reflexivity | congruence |].
    rewrite (no_entry_below_a_file (fs w) q parent d m Hq); auto. congruence.
  - intros H1. rewrite H1. reflexivity.
  - intros d m H1 H2. rewrite H1, H2. reflexivity.
Qed.

Lemma save_manifest_failures_witness :
  save_manifest [py "state"; py "dir"; py "manifest.json"] (JObj sample_manifest) world_two_files
  = (Raise FileNotFoundError, world_two_files)
  /\ save_manifest [py "src"; py "a.txt"; py "dir"; py "manifest.json"] (JObj sample_manifest)
       world_two_files
     = (Raise NotADirectoryError, world_two_files).
Proof.
  split.
  - apply (proj1 (save_manifest_failures [py "state"; py "dir"; py "manifest.json"]
                    (JObj sample_manifest) world_two_files ltac:(vm_compute; reflexivity)));
      try (vm_compute; reflexivity).
    by_prefixes.
  - apply (proj1 (proj2 (save_manifest_failures
                    [py "src"; py "a.txt"; py "dir"; py "manifest.json"]
                    (JObj sample_manifest) world_two_files ltac:(vm_compute; reflexivity)))
             ltac:(vm_compute; reflexivity) ltac:(vm_compute; discriminate)
             [py "src"; py "a.txt"] (py "hello") rw_r_r).
    + exists [py "dir"]. reflexivity.
    + vm_compute. reflexivity.
    + by_prefixes.
Defined.

(** X10.  A save replaces the whole document.  After two saves to the same
    path the file holds the text of the second manifest only, and
    [load_manifest] returns the second manifest, however long the first
    document was. *)
Theorem save_manifest_overwrites (manifest_path : path) (v1 v2 : json) (w w1 w2 : world) :
  json_wf v2 = true ->
  (forall d m, fs w !! manifest_path = Some (File d m) -> readable m = true) ->
  save_manifest manifest_path v1 w = (Ok tt, w1) ->
  save_manifest manifest_path v2 w1 = (Ok tt, w2) ->
  load_manifest manifest_path w2 = (Ok v2, w2)
  /\ exists m, fs w2 !! manifest_path = Some (File (json_dumps v2) m).
Proof.
  intros Hwf Hr H1 H2.
  assert (Hr1 : forall d m, fs w1 !! manifest_path = Some (File d m) -> readable m = true).
  { unfold save_manifest in H1.
    destruct (utf8_encode (json_dumps v1)) as [data|]; [|discriminate].
    destruct (write_file_modes _ _ _ _ Hr H1) as (m1 & Hm1 & _ & ->).
    intros d m. cbn [fs with_fs]. rewrite lookup_insert_eq. intros [= _ <-]. exact Hm1. }
  destruct (save_manifest_wf _ _ _ _ Hwf Hr1 H2) as (m & Hm & _ & ->).
  assert (Hfile : fs (with_fs (<[manifest_path := File (json_dumps v2) m]> (fs w1)) w1)
                  !! manifest_path = Some (File (json_dumps v2) m))
    by apply lookup_insert_eq.
  split; [|exists m; exact Hfile].
  exact (load_manifest_dumped _ _ _ _ Hwf Hfile Hm).
Qed.

Lemma save_manifest_overwrites_witness :
  let mp := [py "manifest.json"] in
  let w1 := snd (save_manifest mp (JObj sample_manifest) world_two_files) in
  let w2 := snd (save_manifest mp (JObj stale_manifest) w1) in
  load_manifest mp w2 = (Ok (JObj stale_manifest), w2)
  /\ exists m, fs w2 !! mp = Some (File (json_dumps (JObj stale_manifest)) m).
Proof.
  cbv zeta.
  apply (save_manifest_overwrites [py "manifest.json"] (JObj sample_manifest)
           (JObj stale_manifest) world_two_files
           (snd (save_manifest [py "manifest.json"] (JObj sample_manifest) world_two_files))).
  - vm_compute. reflexivity.
  - intros d m H. vm_compute in H. discriminate.
  - vm_compute. reflexivity.
  - vm_compute. reflexivity.
Defined.

(** ** [ensure_directory] *)

(** X11.  [ensure_directory] only ever adds directories, at the path or
    above it and where nothing was: no file or directory that exists is
    changed or removed, nothing is printed, the clock is not read.  When it
    ends well something exists at the path, a directory if nothing was
    there before; when something exists already, a regular file included,
    it does nothing and ends well, so that calling it again changes
    nothing. *)
Theorem ensure_directory_effects (p : path) (w w' : world) (r : outcome unit) :
  ensure_directory p w = (r, w') ->
  adds_dirs p w w'
  /\ (r = Ok tt -> is_Some (fs w' !! p) /\ ensure_directory p w' = (Ok tt, w'))
  /\ (r = Ok tt -> fs w !! p = None -> fs w' !! p = Some Dir)
  /\ (is_Some (fs w !! p) -> r = Ok tt /\ w' = w).
Proof.
  intros H. pose proof (ensure_directory_spec _ _ _ _ H) as [Hadd Hok].
  split; [exact Hadd|]. split; [|split].
  - intros Hr. specialize (Hok Hr). split; [exact Hok|].
    destruct Hok as [n Hn]. unfold ensure_directory, bind.
    rewrite (os_path_exists_true _ _ _ Hn). reflexivity.
  - intros Hr Hnone. subst r.
    unfold ensure_directory, bind in H. rewrite (os_path_exists_false _ _ Hnone) in H.
    cbn [negb] in H. unfold os_makedirs in H. apply makedirs_rev_spec in H as [_ Hdir].
    rewrite rev_involutive in Hdir. exact (Hdir eq_refl).
  - intros [n Hn]. unfold ensure_directory, bind in H.
    rewrite (os_path_exists_true _ _ _ Hn) in H. injection H as <- <-. auto.
Qed.

Lemma ensure_directory_effects_witness :
  let p := [py "bak"; py "2024"; py "daily"] in
  let w' := snd (ensure_directory p world_two_files) in
  adds_dirs p world_two_files w'
  /\ (Ok tt = Ok tt -> is_Some (fs w' !! p) /\ ensure_directory p w' = (Ok tt, w'))
  /\ (Ok tt = Ok tt -> fs world_two_files !! p = None -> fs w' !! p = Some Dir)
  /\ (is_Some (fs world_two_files !! p) -> Ok tt = Ok tt /\ w' = world_two_files).
Proof.
  cbv zeta.
  apply (ensure_directory_effects [py "bak"; py "2024"; py "daily"] world_two_files).
  vm_compute. reflexivity.
Defined.

(** X12.  [ensure_directory] does not replace a regular file that stands in
    the way: when the parent of the path is a regular file it raises
    [NotADirectoryError] and changes nothing. *)
Theorem ensure_directory_below_a_file
    (parent : path) (name : str) (d : bytes) (m : metadata) (w : world) :
  fs w !! parent = Some (File d m) ->
  fs w !! (parent ++ [name]) = None ->
  ensure_directory (parent ++ [name]) w = (Raise NotADirectoryError, w).
Proof.
  intros Hparent Hnone. unfold ensure_directory, bind.
  rewrite (os_path_exists_false _ _ Hnone). cbn [negb].
  unfold os_makedirs. rewrite rev_app_distr. cbn [rev app makedirs_rev]. unfold bind.
  rewrite rev_involutive, (os_path_exists_true _ _ _ Hparent). unfold ret.
  unfold os_mkdir. rewrite Hnone, removelast_last, Hparent. reflexivity.
Qed.

Lemma ensure_directory_below_a_file_witness :
  ensure_directory ([py "bak"] ++ [py "daily"]) world_file_in_the_way
  = (Raise NotADirectoryError, world_file_in_the_way).
Proof.
  apply (ensure_directory_below_a_file [py "bak"] (py "daily") (py "not a directory") rw_r_r);
    vm_compute; reflexivity.
Defined.

(** ** [backup_file] *)

(** X13.  Whatever its outcome, [backup_file] prints nothing, does not read
    the clock, and changes the file system in two ways only: it adds
    directories above the place of the copy where nothing was, and it
    writes at that place or inside it.  A path that is neither is as it
    was, and nothing that existed is gone. *)
Theorem backup_file_effects (F s b : path) (w w' : world) (r : outcome path) :
  backup_file F s b w = (r, w') ->
  let target := os_path_join b (os_path_relpath F s) in
  stdout w' = stdout w /\ time w' = time w
  /\ (forall q, fs w' !! q = fs w !! q
                \/ (fs w !! q = None /\ fs w' !! q = Some Dir
                    /\ q `prefix_of` os_path_dirname target)
                \/ target `prefix_of` q)
  /\ (forall q, is_Some (fs w !! q) -> is_Some (fs w' !! q)).
Proof.
  intros H. cbv zeta.
  pose proof (backup_file_stdout _ _ _ _ _ _ H) as (Hout & Htime & _).
  pose proof (backup_file_exists _ _ _ _ _ _ H) as [Hkeep _].
  split; [exact Hout|]. split; [exact Htime|]. split; [|exact Hkeep].
  apply backup_file_spec in H as (w0 & (_ & _ & _ & Hadd) & Hr).
  intros q. destruct r as [bp|e].
  - destruct Hr as (_ & d & data & m & _ & -> & Hd & _). cbn [fs with_fs].
    destruct (decide (d = q)) as [<-|Hne].
    + right. right.
      destruct Hd as [->|[_ ->]]; [reflexivity | apply prefix_app_r; reflexivity].
    + rewrite lookup_insert_ne by exact Hne.
      destruct (Hadd q) as [E|E]; [left; exact E | right; left; exact E].
  - subst w'. destruct (Hadd q) as [E|E]; [left; exact E | right; left; exact E].
Qed.

Lemma backup_file_effects_witness :
  let F := [py "src"; py "b"; py "c.txt"] in
  let w' := snd (backup_file F [py "src"] [py "bak"] world_two_files) in
  let target := os_path_join [py "bak"] (os_path_relpath F [py "src"]) in
  stdout w' = stdout world_two_files /\ time w' = time world_two_files
  /\ (forall q, fs w' !! q = fs world_two_files !! q
                \/ (fs world_two_files !! q = None /\ fs w' !! q = Some Dir
                    /\ q `prefix_of` os_path_dirname target)
                \/ target `prefix_of` q)
  /\ (forall q, is_Some (fs world_two_files !! q) -> is_Some (fs w' !! q)).
Proof.
  cbv zeta.
  apply (backup_file_effects [py "src"; py "b"; py "c.txt"] [py "src"] [py "bak"]
           world_two_files _
           (fst (backup_file [py "src"; py "b"; py "c.txt"] [py "src"] [py "bak"]
                   world_two_files))).
  vm_compute. reflexivity.
Defined.

(** X14.  A copy that ends well carries the bytes, the permission bits and
    the modification time of the source file.  It lands at
    [backup_root/rel_path], unless a directory is there already: then it
    lands inside that directory under the base name of the source, while
    the path handed back (and recorded in the manifest) is still
    [backup_root/rel_path]. *)
Theorem backup_file_copy (F s b : path) (w w' : world) (bp : path) :
  backup_file F s b w = (Ok bp, w') ->
  os_path_join b (os_path_relpath F s) <> [] ->
  let target := os_path_join b (os_path_relpath F s) in
  bp = target
  /\ exists data m,
       fs w !! F = Some (File data m)
       /\ fs w' !! (match fs w !! target with
                    | Some Dir => target ++ [os_path_basename F]
                    | _ => target
                    end) = Some (File data m).
Proof.
  intros H Hne. cbv zeta. unfold backup_file, bind in H.
  set (target := os_path_join b (os_path_relpath F s)) in *.
  destruct (ensure_directory (os_path_dirname target) w) as [r0 w0] eqn:E0.
  apply ensure_directory_spec in E0 as [(_ & _ & _ & Hadd) _].
  destruct r0 as [[]|e]; [|discriminate].
  assert (Htgt : fs w0 !! target = fs w !! target).
  { destruct (Hadd target) as [E|(_ & _ & Hp)]; [exact E|].
    exfalso. exact (prefix_removelast_nonempty target Hne Hp). }
  unfold shutil_copy2 in H. rewrite Htgt in H.
  set (dst := match fs w !! target with
              | Some Dir => target ++ [os_path_basename F]
              | _ => target
              end) in *.
  destruct (bool_decide (F = dst) && bool_decide (is_Some (fs w0 !! F))); [discriminate|].
  destruct (fs w0 !! F) as [[data m|]|] eqn:EF; try discriminate.
  destruct (readable m); cbn [negb] in H; [|discriminate].
  destruct (write_file dst data w0) as [[[]|e] w1] eqn:Ew; [|discriminate].
  injection H as <- <-. split; [reflexivity|]. exists data, m. split.
  - destruct (Hadd F) as [E|(E1 & E2 & _)]; congruence.
  - cbn [fs with_fs]. apply lookup_insert_eq.
Qed.

Lemma backup_file_copy_witness :
  let F := [py "src"; py "a.txt"] in
  let target := os_path_join [py "bak"] (os_path_relpath F [py "src"]) in
  let w' := snd (backup_file F [py "src"] [py "bak"] world_dir_in_place) in
  target = target
  /\ exists data m,
       fs world_dir_in_place !! F = Some (File data m)
       /\ fs w' !! (match fs world_dir_in_place !! target with
                    | Some Dir => target ++ [os_path_basename F]
                    | _ => target
                    end) = Some (File data m).
Proof.
  cbv zeta.
  apply (backup_file_copy [py "src"; py "a.txt"] [py "src"] [py "bak"] world_dir_in_place).
  - vm_compute. reflexivity.
  - vm_compute. discriminate.
Defined.

(** X15.  Backing a directory up onto itself is not noticed beforehand:
    with the backup directory equal to the source directory, the copy of a
    file is the file itself, and [backup_file] raises [SameFileError]
    without changing anything. *)
Theorem backup_file_onto_itself
    (s rel : path) (data : bytes) (m : metadata) (w : world) :
  rel <> [] ->
  Forall (fun c => good_name c = true) rel ->
  fs w !! (s ++ rel) = Some (File data m) ->
  is_Some (fs w !! os_path_dirname (s ++ rel)) ->
  backup_file (s ++ rel) s s w = (Raise SameFileError, w).
Proof.
  intros Hne Hg Hfile [n Hn]. unfold backup_file, bind.
  rewrite (os_path_relpath_under s rel Hne), (os_path_join_rel s rel Hne Hg).
  unfold ensure_directory, bind. rewrite (os_path_exists_true _ _ _ Hn). cbn [negb]. unfold ret.
  unfold shutil_copy2. rewrite Hfile.
  rewrite bool_decide_eq_true_2 by reflexivity.
  rewrite bool_decide_eq_true_2 by eauto. reflexivity.
Qed.

Lemma backup_file_onto_itself_witness :
  backup_file ([py "src"] ++ [py "b"; py "c.txt"]) [py "src"] [py "src"] world_two_files
  = (Raise SameFileError, world_two_files).
Proof.
  apply (backup_file_onto_itself [py "src"] [py "b"; py "c.txt"] (py "world") rw_r_r).
  - discriminate.
  - repeat constructor.
  - vm_compute. reflexivity.
  - eexists. vm_compute. reflexivity.
Defined.

(** ** [scan_and_backup]: what a run leaves alone *)

Lemma for_each_world {A S} (body : A -> S -> io S) (I : world -> Prop) (l : list A) :
  (forall x st w r w', In x l -> I w -> body x st w = (r, w') -> I w') ->
  forall st w r w', I w -> for_each l body st w = (r, w') -> I w'.
Proof.
  induction l as [|x l IH]; intros Hstep st w r w' HI H; simpl in H.
  - injection H as <- <-. exact HI.
  - unfold bind in H. destruct (body x st w) as [[st1|e] w1] eqn:E.
    + eapply IH; [ | | exact H].
      * intros y st0 w0 r0 w0' Hy. apply Hstep. right. exact Hy.
      * eapply Hstep; [left; reflexivity | exact HI | exact E].
    + injection H as <- <-. eapply Hstep; [left; reflexivity | exact HI | exact E].
Qed.

(** A step of the loop, whatever its outcome: nothing that exists goes
    away, and the file system changes at the place of the copy, above it or
    below it only. *)
Lemma backup_step_any (s b : path) (manifest : json) (root : path) (name : str)
    (st : backup_locals) (w w' : world) (r : outcome backup_locals) :
  backup_step s b manifest root name st w = (r, w') ->
  (forall q, is_Some (fs w !! q) -> is_Some (fs w' !! q))
  /\ (forall q, fs w' !! q = fs w !! q
                \/ q `prefix_of` os_path_join b (os_path_relpath (os_path_join root name) s)
                \/ os_path_join b (os_path_relpath (os_path_join root name) s) `prefix_of` q).
Proof.
  unfold backup_step.
  destruct (str_eqb (os_path_basename (os_path_join root name)) MANIFEST_FILE_NAME).
  { intros [= <- <-]. split; auto. }
  set (F := os_path_join root name). unfold process_file, bind.
  destruct (calculate_file_hash F 4096 w) as [[h|e] w0] eqn:Eh;
    apply calculate_file_hash_world in Eh; subst w0;
    [|intros [= <- <-]; split; auto].
  unfold lift at 1. destruct (py_get manifest (os_path_relpath F s)) as [prev|e];
    [|intros [= <- <-]; split; auto].
  unfold os_path_exists at 1. unfold lift at 1.
  destruct (needs_backup prev h _) as [[|]|e]; [| |intros [= <- <-]; split; auto].
  - destruct (backup_file F s b w) as [rb w1] eqn:Ebf.
    pose proof (backup_file_frame _ _ _ _ _ _ Ebf) as Hframe.
    pose proof (backup_file_exists _ _ _ _ _ _ Ebf) as [Hkeep _].
    destruct rb as [bp|e]; [|intros [= <- <-]; split; assumption].
    unfold datetime_now_isoformat at 1. unfold lift.
    destruct (py_setitem (updated_manifest st) _ _) as [u|e];
      intros [= <- <-]; split; assumption.
  - intros [= <- <-]. split; auto.
Qed.

(** What a whole run does to the file system, whatever its outcome, said
    with a property [I] of file systems that the parts of a run keep. *)
Lemma scan_and_backup_keeps (s b mp : path) (w : world)
    (I : gmap path node -> Prop) :
  I (fs w) ->
  (forall w0 w1 r, ensure_directory b w0 = (r, w1) -> I (fs w0) -> I (fs w1)) ->
  (forall wb root name st w0 r w1,
     fs wb = fs (snd (ensure_directory b w)) ->
     In (root, name) (walked_files (walk_tree (fs wb) s)) ->
     backup_step s b (the JNull (fst (load_manifest mp (snd (ensure_directory b w)))))
                 root name st w0 = (r, w1) ->
     I (fs w0) -> I (fs w1)) ->
  (forall w0 w1 v, save_manifest mp v w0 = (Ok tt, w1) -> I (fs w0) -> I (fs w1)) ->
  I (fs (snd (scan_and_backup s b mp w))).
Proof.
  intros H0 He Hs Hsv. unfold scan_and_backup, bind.
  destruct (ensure_directory b w) as [[[]|e] wa] eqn:E1;
    pose proof (He _ _ _ E1 H0) as Ha; [|exact Ha].
  cbn [snd] in Hs.
  destruct (load_manifest mp wa) as [[manifest|e] wb] eqn:E2;
    pose proof (load_manifest_fs _ _ _ _ E2) as Hfb; cbn [fst snd the] in Hs;
    [|cbn [snd]; rewrite Hfb; exact Ha].
  unfold lift at 1. destruct (py_copy manifest) as [updated|e];
    [|cbn [snd]; rewrite Hfb; exact Ha].
  unfold time_time at 1. unfold os_walk at 1. rewrite backup_loop_flat.
  destruct (for_each _ _ _ wb) as [rl wc] eqn:E4.
  assert (Hc : I (fs wc)).
  { eapply (for_each_world _ (fun w0 => I (fs w0))); [ | | exact E4].
    - intros [root name] st w0 r w1 Hin HI E. cbn [fst snd] in E.
      exact (Hs wb root name st w0 r w1 Hfb Hin E HI).
    - rewrite Hfb. exact Ha. }
  destruct rl as [st|e]; [|exact Hc].
  destruct (save_manifest mp (updated_manifest st) wc) as [[[]|e] wd] eqn:E5.
  - pose proof (Hsv _ _ _ E5 Hc) as Hd.
    unfold time_time at 1. rewrite print_summary_lines. unfold ret. cbn [snd fs]. exact Hd.
  - unfold save_manifest in E5. destruct (utf8_encode _) as [data|].
    + apply write_file_spec in E5. cbn [snd]. subst wd. exact Hc.
    + injection E5 as _ <-. exact Hc.
Qed.

(** X16.  A backup run deletes nothing: whatever its outcome, also when it
    stops at an exception, every path that had a file or a directory before
    the run has one after it. *)
Theorem scan_and_backup_removes_nothing (s b mp : path) (w : world) (q : path) :
  is_Some (fs w !! q) -> is_Some (fs (snd (scan_and_backup s b mp w)) !! q).
Proof.
  intros Hq.
  apply (scan_and_backup_keeps s b mp w
           (fun f => forall p, is_Some (fs w !! p) -> is_Some (f !! p))); [auto| | | |exact Hq].
  - intros w0 w1 r E HI p Hp. apply ensure_directory_spec in E as [(_ & _ & _ & Hadd) _].
    destruct (Hadd p) as [Ep|(_ & Ep & _)]; rewrite Ep; [auto | eauto].
  - intros wb root name st w0 r w1 _ _ E HI p Hp.
    apply backup_step_any in E as [Hkeep _]. auto.
  - intros w0 w1 v E HI p Hp. apply save_manifest_spec in E as (data & m & _ & -> & _).
    cbn [fs with_fs]. destruct (decide (mp = p)) as [->|Hne].
    + rewrite lookup_insert_eq. eauto.
    + rewrite lookup_insert_ne by exact Hne. auto.
Qed.

Lemma scan_and_backup_removes_nothing_witness :
  is_Some (fs (snd (scan_and_backup [py "src"] [py "bak"] [py "manifest.json"] world_unreadable))
           !! [py "src"; py "z.txt"]).
Proof.
  apply (scan_and_backup_removes_nothing [py "src"] [py "bak"] [py "manifest.json"]
           world_unreadable [py "src"; py "z.txt"]).
  eexists. vm_compute. reflexivity.
Defined.

(** X17.  A backup run does not touch the source tree.  With neither of the
    source and backup directories inside the other and the manifest file
    outside the source directory, every path at or below the source
    directory is after the run what it was before: same bytes, same
    permission bits, same modification time; and this whatever the outcome
    of the run. *)
Theorem scan_and_backup_leaves_the_source (s b mp : path) (w : world) (q : path) :
  ~ s `prefix_of` b -> ~ b `prefix_of` s -> ~ s `prefix_of` mp ->
  good_tree (fs w) s = true ->
  s `prefix_of` q ->
  fs (snd (scan_and_backup s b mp w)) !! q = fs w !! q.
Proof.
  intros Hsb Hbs Hsmp Hgood Hq.
  assert (Ha : forall p, s `prefix_of` p ->
                         fs (snd (ensure_directory b w)) !! p = fs w !! p).
  { intros p Hp. destruct (ensure_directory b w) as [r wa] eqn:E. cbn [snd].
    apply ensure_directory_spec in E as [(_ & _ & _ & Hadd) _].
    destruct (Hadd p) as [Ep|(_ & _ & Hpre)]; [exact Ep|].
    exfalso. apply Hsb. etrans; [exact Hp | exact Hpre]. }
  apply (scan_and_backup_keeps s b mp w
           (fun f => forall p, s `prefix_of` p -> f !! p = fs w !! p)); [auto| | | |exact Hq].
  - intros w0 w1 r E HI p Hp. rewrite <- (HI p Hp).
    apply ensure_directory_spec in E as [(_ & _ & _ & Hadd) _].
    destruct (Hadd p) as [Ep|(_ & _ & Hpre)]; [exact Ep|].
    exfalso. apply Hsb. etrans; [exact Hp | exact Hpre].
  - intros wb root name st w0 r w1 Hfb Hin E HI p Hp. rewrite <- (HI p Hp).
    assert (Hgood_b : good_tree (fs wb) s = true).
    { apply (good_tree_same (fs w)); [|exact Hgood]. intros p' Hp'. rewrite Hfb. auto. }
    destruct (walked_file_paths (fs wb) s b root name Hgood_b Hin)
      as (rel & data & m & _ & _ & HF & _ & HR & HT & _).
    apply backup_step_any in E as [_ Hframe].
    rewrite HF, HR, HT in Hframe.
    destruct (Hframe p) as [Ep|Hcmp]; [exact Ep|].
    exfalso. exact (source_apart s b Hsb Hbs rel p Hp Hcmp).
  - intros w0 w1 v E HI p Hp. rewrite <- (HI p Hp).
    apply save_manifest_spec in E as (data & m & _ & -> & _).
    cbn [fs with_fs]. apply lookup_insert_ne. intros ->. contradiction.
Qed.

Lemma scan_and_backup_leaves_the_source_witness :
  fs (snd (scan_and_backup [py "src"] [py "bak"] [py "manifest.json"] world_two_files))
     !! [py "src"; py "b"; py "c.txt"]
  = fs world_two_files !! [py "src"; py "b"; py "c.txt"].
Proof.
  apply (scan_and_backup_leaves_the_source [py "src"] [py "bak"] [py "manifest.json"]
           world_two_files [py "src"; py "b"; py "c.txt"]).
  - intros [k Hk]. vm_compute in Hk. discriminate.
  - intros [k Hk]. vm_compute in Hk. discriminate.
  - intros [k Hk]. vm_compute in Hk. discriminate.
  - vm_compute. reflexivity.
  - exists [py "b"; py "c.txt"]. reflexivity.
Defined.

(** ** [scan_and_backup]: what a run that ends well has done *)

(** The state of things when the loop of a run that ends well is over. *)
Lemma first_run_settled (s b mp : path) (w w' : world) (st : backup_locals) :
  scan_and_backup s b mp w = (Ok st, w') ->
  ~ s `prefix_of` b -> ~ b `prefix_of` s ->
  good_tree (fs w) s = true ->
  exists wb wc,
    (forall q, s `prefix_of` q -> fs wb !! q = fs w !! q)
    /\ good_tree (fs wb) s = true
    /\ Forall (fun x => file_settled s b (fs wb) x st wc) (walked_files (walk_tree (fs wb) s))
    /\ (forall q, is_Some (fs wc !! q) -> is_Some (fs w' !! q)).
Proof.
  intros Hrun Hsb Hbs Hgood.
  destruct (scan_and_backup_ok _ _ _ _ _ _ Hrun)
    as (wa & manifest & wb & updated & wc & wd & He & Hl & Hc & Hloop & Hsave & ->).
  apply ensure_directory_spec in He as [(_ & _ & _ & Hadd) _].
  pose proof (load_manifest_fs _ _ _ _ Hl) as Hfs_b.
  assert (Hsrc_b : forall q, s `prefix_of` q -> fs wb !! q = fs w !! q).
  { rewrite Hfs_b. intros q Hq. destruct (Hadd q) as [E|(_ & _ & Hp)]; [exact E|].
    exfalso. apply Hsb. etrans; [exact Hq | exact Hp]. }
  assert (Hgood_b : good_tree (fs wb) s = true) by (eapply good_tree_same; eauto).
  assert (Hup : updated = manifest /\ py_copy manifest = Ok manifest).
  { destruct manifest; simpl in Hc; try discriminate; injection Hc as <-; auto. }
  destruct Hup as [-> Hcopy0]. clear Hc.
  rewrite backup_loop_flat in Hloop.
  exists wb, wc. split; [exact Hsrc_b|]. split; [exact Hgood_b|].
  destruct (for_each_settles (fun rf => backup_step s b manifest (fst rf) (snd rf))
              (run_inv s b mp manifest (fs wb)) (file_settled s b (fs wb))
              (walked_files (walk_tree (fs wb) s)))
    with (st := {| updated_manifest := manifest; backed_up_files := 0; skipped_files := 0 |})
         (w := wb) (st' := st) (w' := wc) as [_ Hall].
  { intros [root name] st0 w0 st0' w0' Hin HI E.
    exact (first_run_step s b mp manifest (fs wb) Hsb Hbs Hgood_b root name st0 st0' w0 w0'
             Hin HI E). }
  { split; [reflexivity|]. split; [|split; [auto|split; [exact Hcopy0|]]].
    - rewrite Hfs_b. exact (load_manifest_readable _ _ _ _ Hl).
    - intros M HM. exists M. split; [exact HM|]. intros rel _ _. left. reflexivity. }
  { exact Hloop. }
  split; [exact Hall|].
  intros q Hq. apply save_manifest_spec in Hsave as (data & m & _ & -> & _).
  rewrite print_summary_fs. cbn [fs with_fs]. destruct (decide (mp = q)) as [->|Hne].
  - rewrite lookup_insert_eq. eauto.
  - rewrite lookup_insert_ne by exact Hne. exact Hq.
Qed.

(** What a run that ends well has done for a file it found under the
    source directory. *)
Lemma run_records_file
    (s b mp : path) (w w' : world) (st : backup_locals) (root : path) (name : str) :
  scan_and_backup s b mp w = (Ok st, w') ->
  ~ s `prefix_of` b -> ~ b `prefix_of` s ->
  good_tree (fs w) s = true ->
  In (root, name) (walked_files (walk_tree (fs w) s)) ->
  os_path_basename (os_path_join root name) <> MANIFEST_FILE_NAME ->
  exists content m U entry,
    fs w !! os_path_join root name = Some (File content m)
    /\ updated_manifest st = JObj U
    /\ dict_get (os_path_relpath (os_path_join root name) s) U = Some entry
    /\ py_getitem entry (py "hash") = Ok (JStr (Sha256.sha256_hex content))
    /\ is_Some (fs w' !! os_path_join b (os_path_relpath (os_path_join root name) s)).
Proof.
  intros Hrun Hsb Hbs Hgood Hin Hname.
  destruct (first_run_settled s b mp w w' st Hrun Hsb Hbs Hgood)
    as (wb & wc & Hsrc & Hgood_b & Hall & Hkeep).
  rewrite <- (walk_tree_same (fs w) (fs wb) s Hsrc) in Hin.
  rewrite Forall_forall in Hall. specialize (Hall _ (proj2 (list_elem_of_In _ _) Hin)).
  destruct (walked_file_paths (fs wb) s b root name Hgood_b Hin)
    as (rel & data & m0 & Hne & Hg & HF & _ & HR & HT & _).
  rewrite HF in Hname.
  destruct (Hall rel HF Hg Hne Hname) as (content & m & U & entry & H1 & _ & H3 & H4 & H5 & H6).
  rewrite HF, HR, HT. exists content, m, U, entry.
  rewrite <- (Hsrc (s ++ rel)) by (apply prefix_app_r; reflexivity). auto 10.
Qed.

(** X18.  When a run ends well, with neither of the source and backup
    directories inside the other, every file it found under the source
    directory, the files named [manifest.json] apart, is accounted for: the
    manifest it saved has an entry under the file's relative path whose
    [hash] is the SHA-256 of the file's content, and there is something at
    the file's place in the backup. *)
Theorem backup_run_records_every_file
    (s b mp : path) (w w' : world) (st : backup_locals) (root : path) (name : str) :
  scan_and_backup s b mp w = (Ok st, w') ->
  ~ s `prefix_of` b -> ~ b `prefix_of` s ->
  good_tree (fs w) s = true ->
  In (root, name) (walked_files (walk_tree (fs w) s)) ->
  os_path_basename (os_path_join root name) <> MANIFEST_FILE_NAME ->
  exists content m U entry,
    fs w !! os_path_join root name = Some (File content m)
    /\ updated_manifest st = JObj U
    /\ dict_get (os_path_relpath (os_path_join root name) s) U = Some entry
    /\ py_getitem entry (py "hash") = Ok (JStr (Sha256.sha256_hex content))
    /\ is_Some (fs w' !! os_path_join b (os_path_relpath (os_path_join root name) s)).
Proof. apply run_records_file. Qed.

Lemma backup_run_records_every_file_witness :
  let first := scan_and_backup [py "src"] [py "bak"] [py "manifest.json"] world_stale in
  let F := os_path_join [py "src"] (py "a.txt") in
  exists content m U entry,
    fs world_stale !! F = Some (File content m)
    /\ updated_manifest (the no_locals (fst first)) = JObj U
    /\ dict_get (os_path_relpath F [py "src"]) U = Some entry
    /\ py_getitem entry (py "hash") = Ok (JStr (Sha256.sha256_hex content))
    /\ is_Some (fs (snd first) !! os_path_join [py "bak"] (os_path_relpath F [py "src"])).
Proof.
  cbv zeta.
  apply (backup_run_records_every_file [py "src"] [py "bak"] [py "manifest.json"] world_stale).
  - vm_compute. reflexivity.
  - intros [k Hk]. vm_compute in Hk. discriminate.
  - intros [k Hk]. vm_compute in Hk. discriminate.
  - vm_compute. reflexivity.
  - vm_compute. left. reflexivity.
  - vm_compute. discriminate.
Defined.

(** What the verifier reports as missing has nothing at its place in the
    backup. *)
Lemma verify_missing_absent (s b mp : path) (w w2 : world) (rep : verify_locals) :
  verify_backup_integrity s b mp w = (Ok (Some rep), w2) ->
  forall R, In R (missing_files rep) -> fs w !! os_path_join b R = None.
Proof.
  unfold verify_backup_integrity, bind. intros H.
  destruct (load_manifest mp w) as [[manifest|e] wl] eqn:El; [|discriminate].
  pose proof (load_manifest_fs _ _ _ _ El) as Hfs.
  destruct (py_truthy manifest); cbn [negb] in H; [|discriminate].
  unfold lift in H. destruct (py_len manifest) as [total|e]; [|discriminate].
  destruct (py_items manifest) as [items|e]; [|discriminate].
  destruct (for_each items _ _ wl) as [[st|e] wv] eqn:Ev; [|discriminate].
  assert (Hst : st = rep).
  { destruct (print_report st wv) as [[[]|e] wp]; [|discriminate].
    unfold ret in H. congruence. }
  subst st.
  assert (G : fs wv = fs w /\ forall R, In R (missing_files rep) ->
                                        fs w !! os_path_join b R = None).
  { eapply (for_each_invariant (verify_step s b)
              (fun st0 w0 => fs w0 = fs w /\ forall R, In R (missing_files st0) ->
                                                        fs w !! os_path_join b R = None));
      [ | | exact Ev].
    - intros [R meta] st0 w0 st0' w0' _ [Hw Hm] E.
      pose proof (verify_step_world _ _ _ _ _ _ _ E) as ->. split; [exact Hw|].
      unfold verify_step, bind in E. cbv zeta in E. unfold os_path_exists in E.
      destruct (bool_decide (is_Some (fs w0 !! os_path_join b R))) eqn:Eb; cbn [negb] in E.
      + destruct (calculate_file_hash _ 4096 w0) as [[h|e] w1]; [|discriminate].
        unfold lift in E. destruct (py_getitem meta (py "hash")) as [hv|e]; [|discriminate].
        destruct (py_ne_str hv h); unfold ret in E; injection E as <-; exact Hm.
      + unfold ret in E. injection E as <-. cbn [missing_files].
        intros R' Hin. apply in_app_or in Hin as [Hin|[<-|[]]]; [exact (Hm R' Hin)|].
        apply bool_decide_eq_false in Eb. rewrite <- Hw.
        destruct (fs w0 !! os_path_join b R) eqn:Eq; [|reflexivity].
        exfalso. apply Eb. eauto.
    - split; [exact Hfs|]. intros R []. }
  exact (proj2 G).
Qed.

(** X19.  Backup, then verify.  After a run that ends well, with neither of
    the source and backup directories inside the other, a verification of
    the same backup directory and manifest that gives a report lists none
    of the files the run found under the source directory as missing. *)
Theorem verify_after_backup_misses_no_file
    (s s' b mp : path) (w w1 w2 : world) (st : backup_locals) (rep : verify_locals)
    (root : path) (name : str) :
  scan_and_backup s b mp w = (Ok st, w1) ->
  ~ s `prefix_of` b -> ~ b `prefix_of` s ->
  good_tree (fs w) s = true ->
  verify_backup_integrity s' b mp w1 = (Ok (Some rep), w2) ->
  In (root, name) (walked_files (walk_tree (fs w) s)) ->
  os_path_basename (os_path_join root name) <> MANIFEST_FILE_NAME ->
  ~ In (os_path_relpath (os_path_join root name) s) (missing_files rep).
Proof.
  intros Hrun Hsb Hbs Hgood Hver Hin Hname Hmiss.
  destruct (first_run_settled s b mp w w1 st Hrun Hsb Hbs Hgood)
    as (wb & wc & Hsrc & Hgood_b & Hall & Hkeep).
  rewrite <- (walk_tree_same (fs w) (fs wb) s Hsrc) in Hin.
  rewrite Forall_forall in Hall. specialize (Hall _ (proj2 (list_elem_of_In _ _) Hin)).
  destruct (walked_file_paths (fs wb) s b root name Hgood_b Hin)
    as (rel & data & m0 & Hne & Hg & HF & _ & HR & HT & _).
  rewrite HF in Hname.
  destruct (Hall rel HF Hg Hne Hname) as (content & m & U & entry & _ & _ & _ & _ & _ & H6).
  apply Hkeep in H6. rewrite HF, HR in Hmiss.
  pose proof (verify_missing_absent _ _ _ _ _ _ Hver _ Hmiss) as Hnone.
  rewrite HT in Hnone. rewrite Hnone in H6. destruct H6; discriminate.
Qed.

Lemma verify_after_backup_misses_no_file_witness :
  let first := scan_and_backup [py "src"] [py "bak"] [py "manifest.json"] world_stale in
  let second := verify_backup_integrity [py "src"] [py "bak"] [py "manifest.json"] (snd first) in
  ~ In (os_path_relpath (os_path_join [py "src"] (py "a.txt")) [py "src"])
       (missing_files (default {| total_files := 0; missing_files := []; mismatches := [] |}
                               (the None (fst second)))).
Proof.
  cbv zeta.
  apply (verify_after_backup_misses_no_file [py "src"] [py "src"] [py "bak"]
           [py "manifest.json"] world_stale
           (snd (scan_and_backup [py "src"] [py "bak"] [py "manifest.json"] world_stale))
           (snd (verify_backup_integrity [py "src"] [py "bak"] [py "manifest.json"]
                   (snd (scan_and_backup [py "src"] [py "bak"] [py "manifest.json"]
                           world_stale))))
           (the no_locals
              (fst (scan_and_backup [py "src"] [py "bak"] [py "manifest.json"] world_stale)))).
  - vm_compute. reflexivity.
  - intros [k Hk]. vm_compute in Hk. discriminate.
  - intros [k Hk]. vm_compute in Hk. discriminate.
  - vm_compute. reflexivity.
  - vm_compute. reflexivity.
  - vm_compute. left. reflexivity.
  - vm_compute. discriminate.
Defined.

(** The counters of a run that ends well, the source directory not holding
    the backup directory: what they add up to, and the skip counter of a
    run that found no manifest file. *)
Lemma run_counts (s b mp : path) (w w' : world) (st : backup_locals) :
  scan_and_backup s b mp w = (Ok st, w') ->
  ~ s `prefix_of` b ->
  backed_up_files st + skipped_files st = counted (walked_files (walk_tree (fs w) s))
  /\ (fs w !! mp = None -> skipped_files st = 0).
Proof.
  intros Hrun Hsb.
  destruct (scan_and_backup_ok _ _ _ _ _ _ Hrun)
    as (wa & manifest & wb & updated & wc & wd & He & Hl & Hc & Hloop & Hsave & ->).
  pose proof (load_manifest_fs _ _ _ _ Hl) as Hfs_b.
  apply ensure_directory_spec in He as [(_ & _ & _ & Hadd) _].
  assert (Hsrc_b : forall q, s `prefix_of` q -> fs wb !! q = fs w !! q).
  { rewrite Hfs_b. intros q Hq. destruct (Hadd q) as [E|(_ & _ & Hp)]; [exact E|].
    exfalso. apply Hsb. etrans; [exact Hq | exact Hp]. }
  rewrite <- (walk_tree_same (fs w) (fs wb) s Hsrc_b).
  rewrite backup_loop_flat in Hloop.
  pose proof (backup_loop_counts _ _ _ _ _ _ _ _ Hloop) as Hcount.
  cbn [backed_up_files skipped_files] in Hcount.
  split; [lia|]. intros Hnone.
  assert (Hm : manifest = JObj []).
  { rewrite load_manifest_unfold in Hl.
    destruct (Hadd mp) as [E|(_ & E & _)]; rewrite E in Hl.
    - rewrite Hnone in Hl. cbn in Hl. congruence.
    - cbn in Hl. discriminate. }
  subst manifest.
  eapply (for_each_invariant _ (fun st0 _ => skipped_files st0 = 0)); [ | | exact Hloop].
  - intros [root name] st0 w0 st0' w0' _ HI E. cbn [fst snd] in E.
    apply backup_step_done in E.
    destruct E as [_|content m0 M entry F R _ _ _ HM He0 _ _
                  |content m0 M U w2 F R target _ _ _ _ _ _].
    + exact HI.
    + injection HM as <-. discriminate He0.
    + exact HI.
  - reflexivity.
Qed.

(** X20.  The two counters of a run that ends well, with neither of the
    source and backup directories inside the other, add up to the number of
    files found under the source directory whose name is not
    [manifest.json]: each such file is counted once, as backed up or as
    skipped, and nothing else is counted. *)
Theorem scan_and_backup_counts (s b mp : path) (w w' : world) (st : backup_locals) :
  scan_and_backup s b mp w = (Ok st, w') ->
  ~ s `prefix_of` b -> ~ b `prefix_of` s ->
  good_tree (fs w) s = true ->
  backed_up_files st + skipped_files st = counted (walked_files (walk_tree (fs w) s)).
Proof.
  intros Hrun Hsb _ _. exact (proj1 (run_counts s b mp w w' st Hrun Hsb)).
Qed.

Lemma scan_and_backup_counts_witness :
  let first := scan_and_backup [py "src"] [py "bak"] [py "state"; py "backup.json"]
                 world_reserved_name in
  backed_up_files (the no_locals (fst first)) + skipped_files (the no_locals (fst first))
  = counted (walked_files (walk_tree (fs world_reserved_name) [py "src"])).
Proof.
  cbv zeta.
  apply (scan_and_backup_counts [py "src"] [py "bak"] [py "state"; py "backup.json"]
           world_reserved_name
           (snd (scan_and_backup [py "src"] [py "bak"] [py "state"; py "backup.json"]
                   world_reserved_name))).
  - vm_compute. reflexivity.
  - intros [k Hk]. vm_compute in Hk. discriminate.
  - intros [k Hk]. vm_compute in Hk. discriminate.
  - vm_compute. reflexivity.
Defined.

(** X21.  A run that finds no manifest file skips nothing: when it ends
    well, with neither of the source and backup directories inside the
    other, the skip counter is 0 and every file found under the source
    directory whose name is not [manifest.json] was copied. *)
Theorem first_run_skips_nothing (s b mp : path) (w w' : world) (st : backup_locals) :
  fs w !! mp = None ->
  scan_and_backup s b mp w = (Ok st, w') ->
  ~ s `prefix_of` b -> ~ b `prefix_of` s ->
  good_tree (fs w) s = true ->
  skipped_files st = 0
  /\ backed_up_files st = counted (walked_files (walk_tree (fs w) s)).
Proof.
  intros Hnone Hrun Hsb _ _.
  destruct (run_counts s b mp w w' st Hrun Hsb) as [Hsum Hskip].
  specialize (Hskip Hnone). split; [exact Hskip | lia].
Qed.

Lemma first_run_skips_nothing_witness :
  let first := scan_and_backup [py "src"] [py "bak"] [py "manifest.json"] world_two_files in
  skipped_files (the no_locals (fst first)) = 0
  /\ backed_up_files (the no_locals (fst first))
     = counted (walked_files (walk_tree (fs world_two_files) [py "src"])).
Proof.
  cbv zeta.
  apply (first_run_skips_nothing [py "src"] [py "bak"] [py "manifest.json"] world_two_files
           (snd (scan_and_backup [py "src"] [py "bak"] [py "manifest.json"] world_two_files))).
  - vm_compute. reflexivity.
  - vm_compute. reflexivity.
  - intros [k Hk]. vm_compute in Hk. discriminate.
  - intros [k Hk]. vm_compute in Hk. discriminate.
  - vm_compute. reflexivity.
Defined.

(** ** [scan_and_backup]: manifests it was not written for *)

(** X22.  The kind of the loaded manifest is not checked.  When the
    manifest file holds a JSON document that is neither an object nor a
    list (a text, a number, [true]), the run raises [AttributeError] at
    [manifest.copy()]: the backup directory has been made, no file has been
    looked at, and the manifest file is as it was. *)
Theorem scan_and_backup_needs_a_container
    (s b mp : path) (w wa wb : world) (v : json) :
  ensure_directory b w = (Ok tt, wa) ->
  load_manifest mp wa = (Ok v, wb) ->
  (forall M, v <> JObj M) -> (forall l, v <> JArr l) ->
  scan_and_backup s b mp w = (Raise AttributeError, wb) /\ fs wb = fs wa.
Proof.
  intros He Hl HM Hl'. split; [|exact (load_manifest_fs _ _ _ _ Hl)].
  unfold scan_and_backup, bind. rewrite He, Hl. unfold lift at 1.
  destruct v; try reflexivity; [exfalso; eapply Hl' | exfalso; eapply HM]; reflexivity.
Qed.

Lemma scan_and_backup_needs_a_container_witness :
  let w := world_with_manifest (py "42") in
  let wa := snd (ensure_directory [py "bak"] w) in
  scan_and_backup [] [py "bak"] [py "manifest.json"] w = (Raise AttributeError, wa)
  /\ fs wa = fs wa.
Proof.
  cbv zeta.
  apply (scan_and_backup_needs_a_container [] [py "bak"] [py "manifest.json"]
           (world_with_manifest (py "42")) _ _ (JInt 42)).
  - vm_compute. reflexivity.
  - vm_compute. reflexivity.
  - discriminate.
  - discriminate.
Defined.

(** X23.  A manifest that is a JSON list passes [manifest.copy()] and fails
    at the first file the loop does not ignore: the file is fingerprinted,
    then [manifest.get] raises [AttributeError]; nothing has been copied
    for it. *)
Theorem list_manifest_stops_at_the_first_file
    (s b root : path) (name : str) (l : list json) (st : backup_locals) (w : world)
    (content : bytes) (m : metadata) :
  os_path_basename (os_path_join root name) <> MANIFEST_FILE_NAME ->
  fs w !! os_path_join root name = Some (File content m) ->
  readable m = true ->
  backup_step s b (JArr l) root name st w = (Raise AttributeError, w).
Proof.
  intros Hname Hfile Hread. unfold backup_step. apply str_eqb_neq in Hname. rewrite Hname.
  unfold process_file. unfold bind at 1.
  rewrite (calculate_file_hash_value w _ content m 4096 Hfile Hread (default_chunk w)).
  reflexivity.
Qed.

Lemma list_manifest_stops_at_the_first_file_witness :
  backup_step [py "src"] [py "bak"] (JArr []) [py "src"] (py "a.txt") no_locals world_two_files
  = (Raise AttributeError, world_two_files).
Proof.
  apply (list_manifest_stops_at_the_first_file [py "src"] [py "bak"] [py "src"] (py "a.txt") []
           no_locals world_two_files (py "hello") rw_r_r).
  - vm_compute. discriminate.
  - vm_compute. reflexivity.
  - reflexivity.
Defined.

(** X24.  An entry whose value is [null] counts as no entry: the step does
    for the file exactly what it does when the manifest has no such key
    (it copies the file). *)
Theorem null_entry_is_no_entry
    (s b root : path) (name : str) (M M' : list (str * json)) (st : backup_locals) (w : world) :
  dict_get (os_path_relpath (os_path_join root name) s) M = Some JNull ->
  dict_get (os_path_relpath (os_path_join root name) s) M' = None ->
  backup_step s b (JObj M) root name st w = backup_step s b (JObj M') root name st w.
Proof.
  intros H1 H2. unfold backup_step, process_file. cbn [py_get]. rewrite H1, H2. reflexivity.
Qed.

Lemma null_entry_is_no_entry_witness :
  backup_step [py "src"] [py "bak"] (JObj [(py "a.txt", JNull)]) [py "src"] (py "a.txt")
              no_locals world_two_files
  = backup_step [py "src"] [py "bak"] (JObj []) [py "src"] (py "a.txt") no_locals world_two_files.
Proof.
  apply (null_entry_is_no_entry [py "src"] [py "bak"] [py "src"] (py "a.txt")
           [(py "a.txt", JNull)] [] no_locals world_two_files); vm_compute; reflexivity.
Defined.

(** X25.  An entry is trusted to be a dictionary with a [hash].  When the
    entry of a file is a dictionary without that key the step raises
    [KeyError], when it is not a dictionary (and not [null]) it raises
    [TypeError]; this happens after the file was fingerprinted and before
    anything is copied or printed. *)
Theorem entry_without_hash_stops_the_run
    (s b root : path) (name : str) (M : list (str * json)) (st : backup_locals) (w : world)
    (content : bytes) (m : metadata) (entry : json) :
  os_path_basename (os_path_join root name) <> MANIFEST_FILE_NAME ->
  fs w !! os_path_join root name = Some (File content m) ->
  readable m = true ->
  dict_get (os_path_relpath (os_path_join root name) s) M = Some entry ->
  entry <> JNull ->
  (forall hv, py_getitem entry (py "hash") <> Ok hv) ->
  backup_step s b (JObj M) root name st w
  = (Raise (match entry with JObj _ => KeyError | _ => TypeError end), w).
Proof.
  intros Hname Hfile Hread He Hnn Hno. unfold backup_step.
  apply str_eqb_neq in Hname. rewrite Hname.
  unfold process_file. unfold bind at 1.
  rewrite (calculate_file_hash_value w _ content m 4096 Hfile Hread (default_chunk w)).
  unfold bind at 1. unfold lift at 1. cbn [py_get]. rewrite He. cbn [default from_option id].
  unfold bind at 1. unfold os_path_exists at 1. unfold bind at 1. unfold lift at 1.
  destruct entry as [| | | | | |fields]; try contradiction; try reflexivity.
  unfold needs_backup. cbn [py_getitem] in *.
  destruct (dict_get (py "hash") fields) as [hv|]; [|reflexivity].
  exfalso. exact (Hno hv eq_refl).
Qed.

Lemma entry_without_hash_stops_the_run_witness :
  backup_step [py "src"] [py "bak"] (JObj [(py "a.txt", JObj [(py "size", JInt 5)])])
              [py "src"] (py "a.txt") no_locals world_two_files
  = (Raise (match JObj [(py "size", JInt 5)] with JObj _ => KeyError | _ => TypeError end),
     world_two_files).
Proof.
  apply (entry_without_hash_stops_the_run [py "src"] [py "bak"] [py "src"] (py "a.txt")
           [(py "a.txt", JObj [(py "size", JInt 5)])] no_locals world_two_files
           (py "hello") rw_r_r).
  - vm_compute. discriminate.
  - vm_compute. reflexivity.
  - reflexivity.
  - vm_compute. reflexivity.
  - discriminate.
  - intros hv. vm_compute. discriminate.
Defined.

(** ** [scan_and_backup]: a source that is not a directory *)

Lemma walk_tree_of_a_file (f : gmap path node) (s : path) (d : bytes) (m : metadata) :
  f !! s = Some (File d m) -> walk_tree f s = [].
Proof.
  intros H. unfold walk_tree. cbn [walk_from].
  assert (E : subtree f s !! s = Some (File d m))
    by (apply subtree_lookup; split; [exact H | reflexivity]).
  rewrite E. reflexivity.
Qed.

(** X26.  A source path that is a regular file is not refused: the walk
    yields nothing, so a run that ends well has looked at no file, has
    copied and skipped nothing, and has saved the manifest it loaded. *)
Theorem source_that_is_a_file
    (s b mp : path) (w w' : world) (st : backup_locals) (d : bytes) (m : metadata) :
  fs w !! s = Some (File d m) ->
  scan_and_backup s b mp w = (Ok st, w') ->
  backed_up_files st = 0 /\ skipped_files st = 0
  /\ Ok (updated_manifest st) = fst (load_manifest mp (snd (ensure_directory b w))).
Proof.
  intros Hs Hrun.
  destruct (scan_and_backup_ok _ _ _ _ _ _ Hrun)
    as (wa & manifest & wb & updated & wc & wd & He & Hl & Hc & Hloop & Hsave & ->).
  rewrite He. cbn [snd]. rewrite Hl. cbn [fst].
  assert (Hwalk : walk_tree (fs wb) s = []).
  { apply (walk_tree_of_a_file _ _ d m). rewrite (load_manifest_fs _ _ _ _ Hl).
    apply ensure_directory_spec in He as [(_ & _ & _ & Hadd) _].
    destruct (Hadd s) as [E|(E & _)]; congruence. }
  rewrite Hwalk in Hloop. cbn in Hloop. injection Hloop as <- _.
  cbn [backed_up_files skipped_files updated_manifest].
  destruct manifest; simpl in Hc; try discriminate; injection Hc as <-; auto.
Qed.

Lemma source_that_is_a_file_witness :
  let first := scan_and_backup [py "src"; py "a.txt"] [py "bak"] [py "manifest.json"]
                 world_two_files in
  backed_up_files (the no_locals (fst first)) = 0
  /\ skipped_files (the no_locals (fst first)) = 0
  /\ Ok (updated_manifest (the no_locals (fst first)))
     = fst (load_manifest [py "manifest.json"] (snd (ensure_directory [py "bak"] world_two_files))).
Proof.
  cbv zeta.
  apply (source_that_is_a_file [py "src"; py "a.txt"] [py "bak"] [py "manifest.json"]
           world_two_files
           (snd (scan_and_backup [py "src"; py "a.txt"] [py "bak"] [py "manifest.json"]
                   world_two_files))
           _ (py "hello") rw_r_r).
  - vm_compute. reflexivity.
  - vm_compute. reflexivity.
Defined.

(** ** [verify_backup_integrity] *)

(** X27.  The verifier needs a dictionary and does not check for one.  When
    the manifest file holds a document that is not empty and not an object,
    it raises before it prints anything: [TypeError] at [len(manifest)] for
    a number other than zero or [true], [AttributeError] at
    [manifest.items()] for a list or a text.  (For documents whose lists
    and dictionaries nest no deeper than 100, far from the depth at which
    Python's decoder gives up.) *)
Theorem verify_needs_a_dictionary (s b mp : path) (w w0 : world) (v : json) :
  load_manifest mp w = (Ok v, w0) ->
  (json_depth v <= 100)%nat ->
  py_truthy v = true ->
  (forall M, v <> JObj M) ->
  verify_backup_integrity s b mp w
  = (Raise (match v with JArr _ | JStr _ => AttributeError | _ => TypeError end), w0).
Proof.
  intros Hl _ Ht HM. unfold verify_backup_integrity, bind. rewrite Hl, Ht. cbn [negb].
  destruct v; try reflexivity; try discriminate Ht. exfalso. eapply HM. reflexivity.
Qed.

Lemma verify_needs_a_dictionary_witness :
  let w := world_with_manifest (py "[true, null]") in
  verify_backup_integrity [py "src"] [py "bak"] [py "manifest.json"] w
  = (Raise (match JArr [JBool true; JNull] with
            | JArr _ | JStr _ => AttributeError
            | _ => TypeError
            end), w).
Proof.
  cbv zeta.
  apply (verify_needs_a_dictionary [py "src"] [py "bak"] [py "manifest.json"]
           (world_with_manifest (py "[true, null]"))).
  - vm_compute. reflexivity.
  - vm_compute. lia.
  - reflexivity.
  - discriminate.
Defined.

(** X28.  The report only adds lines to the output, and the line "All
    backed up files passed integrity check." is among them exactly when
    the report lists no missing file and no mismatch. *)
Theorem all_clear_only_when_clear (st : verify_locals) :
  exists lines,
    emits (print_report st) lines
    /\ (In all_clear_line lines <-> missing_files st = [] /\ mismatches st = []).
Proof.
  unfold print_report.
  destruct (missing_files st) as [|x xs] eqn:Emis, (mismatches st) as [|y ys] eqn:Emm;
    cbn [is_empty andb];
    (eexists; split;
     [repeat first [ apply emits_bind | apply emits_print | apply emits_ret
                   | apply emits_for_each ] |]);
    cbn [app]; (split; [intros H | intros [H1 H2]; try discriminate H1; try discriminate H2]).
  - auto.
  - do 4 right. left. reflexivity.
  - exfalso. repeat (rewrite in_app_iff in H || cbn [In] in H).
    repeat match goal with
           | H : _ \/ _ |- _ => destruct H as [H|H]
           end;
      try contradiction;
      try (apply in_map_iff in H as (i & H & _));
      vm_compute in H; discriminate H.
  - exfalso. repeat (rewrite in_app_iff in H || cbn [In] in H).
    repeat match goal with
           | H : _ \/ _ |- _ => destruct H as [H|H]
           end;
      try contradiction;
      try (apply in_map_iff in H as (i & H & _));
      vm_compute in H; discriminate H.
  - exfalso. repeat (rewrite in_app_iff in H || cbn [In] in H).
    repeat match goal with
           | H : _ \/ _ |- _ => destruct H as [H|H]
           end;
      try contradiction;
      try (apply in_map_iff in H as (i & H & _));
      vm_compute in H; discriminate H.
Qed.

(** ** The reserved name *)



